(** * Task / user synchronisation: a shallow embedding of the route handlers

    The development embeds the two Express routers of the repository
    (the task routes and [routes/users.js]) as functions over an explicit
    document store, and proves properties of the relationship between a
    task's [assignedUser] and a user's [pendingTasks].

    Layout:
    - JavaScript values and the string helpers the handlers call;
    - the documents (Task, User) and the store;
    - a small state / exception / early-return monad for async handlers;
    - the Mongoose model operations the handlers use;
    - the handlers, one definition per route and verb;
    - theorems. *)

From stdpp Require Import gmap strings list fin_maps pretty.
From Stdlib Require Import ZArith Ascii String.

Local Open Scope string_scope.
Local Open Scope Z_scope.

(** ** JavaScript values *)

(** A parsed JSON value (request bodies, parsed query parameters).  A number
    is kept as an integer: the handlers only test numbers for truthiness and
    print them. *)
#[local] Set Warnings "-register-all".
Inductive json : Type :=
| JNull
| JBool (b : bool)
| JNum (n : Z)
| JStr (s : string)
| JArr (elems : list json)
| JObj (fields : list (string * json)).
#[local] Set Warnings "register-all".

(** A JavaScript value that may be [undefined]: [None] is [undefined]. *)
Abbreviation jsval := (option json) (only parsing).

(** The result of [parseInt]. *)
Inductive jsnum : Type :=
| NaN
| Num (z : Z).

(** Truthiness, as tested by [if (v)], [v || d] and [!v]. *)
Definition truthy (v : json) : bool :=
  match v with
  | JNull => false
  | JBool b => b
  | JNum n => negb (n =? 0)
  | JStr s => negb (String.eqb s "")
  | JArr _ => true
  | JObj _ => true
  end.

Definition truthy_val (v : jsval) : bool :=
  match v with
  | None => false
  | Some j => truthy j
  end.

(** [v === null] *)
Definition is_null (v : jsval) : bool :=
  match v with
  | Some JNull => true
  | _ => false
  end.

(** [String(v)] for a JSON value. *)
Fixpoint String_ (v : json) : string :=
  match v with
  | JNull => "null"
  | JBool true => "true"
  | JBool false => "false"
  | JNum n => pretty n
  | JStr s => s
  | JArr elems =>
      (fix join (l : list json) : string :=
         match l with
         | [] => ""
         | x :: l' =>
             let sx := match x with JNull => "" | _ => String_ x end in
             match l' with
             | [] => sx
             | _ => sx ++ "," ++ join l'
             end
         end) elems
  | JObj _ => "[object Object]"
  end.

(** [body.f]: property lookup in the parsed request body. *)
Fixpoint field (f : string) (body : list (string * json)) : jsval :=
  match body with
  | [] => None
  | (k, v) :: rest => if String.eqb k f then Some v else field f rest
  end.

(** ** String helpers ([trim], [toLowerCase], [parseInt]) on ASCII text *)

Definition is_space (c : ascii) : bool :=
  let n := nat_of_ascii c in
  ((9 <=? n)%nat && (n <=? 13)%nat) || (n =? 32)%nat.

Definition is_digit (c : ascii) : bool :=
  let n := nat_of_ascii c in (48 <=? n)%nat && (n <=? 57)%nat.

Definition lower_ascii (c : ascii) : ascii :=
  let n := nat_of_ascii c in
  if (65 <=? n)%nat && (n <=? 90)%nat then ascii_of_nat (n + 32) else c.

Fixpoint drop_spaces (l : list ascii) : list ascii :=
  match l with
  | c :: l' => if is_space c then drop_spaces l' else l
  | [] => []
  end.

Definition trim (s : string) : string :=
  string_of_list_ascii
    (rev (drop_spaces (rev (drop_spaces (list_ascii_of_string s))))).

Definition toLowerCase (s : string) : string :=
  string_of_list_ascii (map lower_ascii (list_ascii_of_string s)).

Fixpoint leading_digits (l : list ascii) : list ascii :=
  match l with
  | c :: l' => if is_digit c then c :: leading_digits l' else []
  | [] => []
  end.

Definition digits_value (l : list ascii) : Z :=
  fold_left (fun acc c => 10 * acc + (Z.of_nat (nat_of_ascii c) - 48)) l 0.

(** [parseInt(s, 10)]: leading white space, an optional sign, then the
    longest run of decimal digits; [NaN] when there is no digit. *)
Definition parseInt (s : string) : jsnum :=
  let l := drop_spaces (list_ascii_of_string s) in
  let '(neg, l1) :=
    match l with
    | "-"%char :: r => (true, r)
    | "+"%char :: r => (false, r)
    | _ => (false, l)
    end in
  match leading_digits l1 with
  | [] => NaN
  | ds => Num (if neg then - digits_value ds else digits_value ds)
  end.

(** [req.query.p ? parseInt(req.query.p, 10) : undefined] *)
Definition parse_int_param (p : option string) : option jsnum :=
  match p with
  | None => None
  | Some s => if String.eqb s "" then None else Some (parseInt s)
  end.

(** [typeof n === 'number' && !isNaN(n)] *)
Definition is_number (n : option jsnum) : option Z :=
  match n with
  | Some (Num z) => Some z
  | _ => None
  end.

(** [toBool] of both routers, on a query-string value. *)
Definition toBool (v : option string) : bool :=
  match v with
  | Some s => String.eqb (toLowerCase s) "true"
  | None => false
  end.

(** ** Documents and the store *)

(** The string form of an [ObjectId]; documents are keyed by it. *)
Abbreviation ObjectId := string (only parsing).

(** A reference to a document as the handlers pass it around: either a raw
    string (from the request, or a task's [assignedUser]) that Mongoose has
    to cast, or the [_id] of a loaded document. *)
Inductive idref : Type :=
| RawId (s : string)
| Oid (o : ObjectId).

(** [models/task.js] *)
Record Task : Type := mkTask {
  name : string;
  description : string;
  deadline : Z;
  completed : bool;
  assignedUser : string;
  assignedUserName : string;
  dateCreated : Z
}.

(** Modelled from the spec: the User schema ([models/user.js] is not part of
    the sources): a name, an email and the list of pending task identifiers,
    kept as strings. *)
Record User : Type := mkUser {
  user_name : string;
  email : string;
  pendingTasks : list string
}.

Definition set_assigned (t : Task) (owner ownerName : string) : Task :=
  {| name := name t; description := description t; deadline := deadline t;
     completed := completed t; assignedUser := owner;
     assignedUserName := trim ownerName; dateCreated := dateCreated t |}.

Definition set_pending (u : User) (p : list string) : User :=
  {| user_name := user_name u; email := email u; pendingTasks := p |}.

(** ** Responses *)

Inductive payload : Type :=
| PNull
| PEmpty
| PCount (n : nat)
| PTask (select : jsval) (doc : ObjectId * Task)
| PTasks (select : jsval) (docs : list (ObjectId * Task))
| PUser (select : jsval) (doc : ObjectId * User)
| PUsers (select : jsval) (docs : list (ObjectId * User)).

Record response : Type := mkResponse {
  status : Z;
  message : string;
  data : payload
}.

(** The error kinds of the specification, read off the status code. *)
Inductive error_kind : Type :=
| InvalidArgument
| NotFound
| Internal.

Definition error_of (r : response) : option error_kind :=
  if status r =? 400 then Some InvalidArgument
  else if status r =? 404 then Some NotFound
  else if status r =? 500 then Some Internal
  else None.

(** ** The world a handler runs in *)

Inductive coll : Type := Tasks | Users.

(** One entry per round trip to the Entity Store. *)
Inductive store_op : Type :=
| OpFind (c : coll)
| OpFindOne (c : coll)
| OpFindById (c : coll)
| OpCount (c : coll)
| OpInsert (c : coll)
| OpSave (c : coll)
| OpUpdate (c : coll)
| OpDelete (c : coll).

Record world : Type := mkWorld {
  tasks : gmap string Task;
  users : gmap string User;
  log : list store_op;
  res : option response
}.

Definition with_tasks (f : gmap string Task -> gmap string Task) (w : world) : world :=
  {| tasks := f (tasks w); users := users w; log := log w; res := res w |}.

Definition with_users (f : gmap string User -> gmap string User) (w : world) : world :=
  {| tasks := tasks w; users := f (users w); log := log w; res := res w |}.

Definition logged (o : store_op) (w : world) : world :=
  {| tasks := tasks w; users := users w; log := log w ++ [o]; res := res w |}.

Definition responded (r : response) (w : world) : world :=
  {| tasks := tasks w; users := users w; log := log w; res := Some r |}.

(** A world in which a request arrives: a store, nothing logged, no response
    sent yet. *)
Definition request_on (ts : gmap string Task) (us : gmap string User) : world :=
  {| tasks := ts; users := us; log := []; res := None |}.

(** ** The handler monad *)

Inductive exn : Type :=
| CastError
| TypeError
| DuplicateKey
| QueryError.

(** [e.code === 11000] *)
Definition is_code_11000 (e : exn) : bool :=
  match e with
  | DuplicateKey => true
  | _ => false
  end.

Inductive outcome (A : Type) : Type :=
| Value (a : A)
| Return
| Throw (e : exn).
Arguments Value {A} a.
Arguments Return {A}.
Arguments Throw {A} e.

Definition M (A : Type) : Type := world -> outcome A * world.

#[global] Instance M_ret : MRet M := fun A a w => (Value a, w).

#[global] Instance M_bind : MBind M := fun A B f m w =>
  match m w with
  | (Value a, w') => f a w'
  | (Return, w') => (Return, w')
  | (Throw e, w') => (Throw e, w')
  end.

(** [return;] *)
Definition return_ {A} : M A := fun w => (Return, w).

Definition throw {A} (e : exn) : M A := fun w => (Throw e, w).

(** [try { body } catch (e) { handler }] *)
Definition try_catch (body : M unit) (handler : exn -> M unit) : M unit :=
  fun w =>
    match body w with
    | (Throw e, w') => handler e w'
    | r => r
    end.

Definition when_ (b : bool) (m : M unit) : M unit :=
  if b then m else mret tt.

(** [await Promise.all(docs.map(async (t) => f t))].  The callbacks of one
    call touch different tasks, so their interleaving is taken in order. *)
Fixpoint for_each {A} (f : A -> M unit) (l : list A) : M unit :=
  match l with
  | [] => mret tt
  | x :: l' => f x ;; for_each f l'
  end.

Definition gets {A} (f : world -> A) : M A := fun w => (Value (f w), w).

Definition modify (f : world -> world) : M unit := fun w => (Value tt, f w).

(** What the client observes of a handler run on [w]. *)
Definition run (h : M unit) (w : world) : world := snd (h w).

(** ** The platform under the handlers

    What the JavaScript runtime, Mongoose and the MongoDB query engine
    decide, and the handlers only call. *)
Class Platform : Type := {
  (** [JSON.parse]; [None] when it raises a [SyntaxError]. *)
  JSON_parse : string -> option json;
  (** [new Date(v).getTime()]; [None] when the date is invalid ([NaN]). *)
  Date_getTime : json -> option Z;
  (** The cast of a string to an [ObjectId]; [None] when Mongoose raises a
      [CastError].  The result is the identifier in its string form. *)
  castObjectId : string -> option string;
  castObjectId_String :
    forall s o, castObjectId s = Some o -> castObjectId o = Some o;
  (** The empty string is no identifier. *)
  castObjectId_empty : castObjectId "" = None;
  (** Filter, sort and projection documents as the query engine reads them;
      [None] when it rejects the document. *)
  Task_filter : json -> option (string * Task -> bool);
  User_filter : json -> option (string * User -> bool);
  Task_sort : json -> option (list (string * Task) -> list (string * Task));
  User_sort : json -> option (list (string * User) -> list (string * User));
  Task_sort_perm : forall j f l, Task_sort j = Some f -> Permutation (f l) l;
  User_sort_perm : forall j f l, User_sort j = Some f -> Permutation (f l) l;
  select_ok : json -> bool
}.

Section Handlers.
Context `{P : Platform}.

(** *** Responses ([ok], [created], [notFound], [badRequest], [serverError]) *)

Definition send (r : response) : M unit := modify (responded r).

Definition ok (d : payload) : M unit := send (mkResponse 200 "OK" d).
Definition created (d : payload) : M unit := send (mkResponse 201 "Created" d).
Definition notFound (what : string) : M unit :=
  send (mkResponse 404 (what ++ " not found") PNull).
Definition badRequest (msg : string) : M unit := send (mkResponse 400 msg PNull).
Definition serverError : M unit := send (mkResponse 500 "Server error" PNull).

(** [parseJSONParam]: [undefined] stays [undefined]; a value that does not
    parse answers 400 and yields [null]. *)
Definition parseJSONParam (value : option string) (pname : string) : M jsval :=
  match value with
  | None => mret None
  | Some s =>
      match JSON_parse s with
      | Some v => mret (Some v)
      | None =>
          badRequest ("Invalid JSON in '" ++ pname ++ "' parameter") ;;
          mret (Some JNull)
      end
  end.

(** *** Model operations *)

Definition op (o : store_op) : M unit := modify (logged o).

(** The identifier a query is sent with. *)
Definition cast_ref (r : idref) : M string :=
  match r with
  | Oid o => mret o
  | RawId s =>
      match castObjectId s with
      | Some o => mret o
      | None => throw CastError
      end
  end.

Fixpoint cast_all (l : list string) : M (list string) :=
  match l with
  | [] => mret []
  | s :: l' => o ← cast_ref (RawId s); os ← cast_all l'; mret (o :: os)
  end.

(** [Task.findById(id).exec()] *)
Definition Task_findById (r : idref) : M (option (string * Task)) :=
  o ← cast_ref r;
  op (OpFindById Tasks) ;;
  gets (fun w => pair o <$> tasks w !! o).

(** [User.findById(id).exec()] *)
Definition User_findById (r : idref) : M (option (string * User)) :=
  o ← cast_ref r;
  op (OpFindById Users) ;;
  gets (fun w => pair o <$> users w !! o).

(** [User.findOne({ email }).exec()]: the first match in store order. *)
Definition User_findOne_email (e : string) : M (option (string * User)) :=
  op (OpFindOne Users) ;;
  gets (fun w => head (filter (fun d => email d.2 = e) (map_to_list (users w)))).

(** [Task.find({ _id: { $in: ids } }).exec()] *)
Definition Task_find_in (ids : list string) : M (list (string * Task)) :=
  os ← cast_all ids;
  op (OpFind Tasks) ;;
  gets (fun w => filter (fun d => d.1 ∈ os) (map_to_list (tasks w))).

(** [new Task({...}); await task.save()] with the fresh [_id] the driver
    generated; a second document under the same [_id] is a duplicate key. *)
Definition Task_create (o : string) (t : Task) : M unit :=
  op (OpInsert Tasks) ;;
  old ← gets (fun w => tasks w !! o);
  match old with
  | Some _ => throw DuplicateKey
  | None => modify (with_tasks (insert o t))
  end.

Definition User_create (o : string) (u : User) : M unit :=
  op (OpInsert Users) ;;
  old ← gets (fun w => users w !! o);
  match old with
  | Some _ => throw DuplicateKey
  | None => modify (with_users (insert o u))
  end.

(** [await doc.save()] on a document loaded earlier in the same request. *)
Definition Task_save (o : string) (t : Task) : M unit :=
  op (OpSave Tasks) ;;
  modify (with_tasks (insert o t)).

Definition User_save (o : string) (u : User) : M unit :=
  op (OpSave Users) ;;
  modify (with_users (insert o u)).

(** [Model.deleteOne({ _id }).exec()] *)
Definition Task_deleteOne (o : string) : M unit :=
  op (OpDelete Tasks) ;;
  modify (with_tasks (delete o)).

Definition User_deleteOne (o : string) : M unit :=
  op (OpDelete Users) ;;
  modify (with_users (delete o)).

(** [$addToSet] and [$pull] on the [pendingTasks] array. *)
Definition addToSet (x : string) (l : list string) : list string :=
  if decide (x ∈ l) then l else l ++ [x].

Definition pull (x : string) (l : list string) : list string :=
  filter (fun y => y ≠ x) l.

(** [User.findByIdAndUpdate(userId, update).exec()]: no document, no change. *)
Definition User_findByIdAndUpdate (r : idref)
    (f : list string -> list string) : M unit :=
  o ← cast_ref r;
  op (OpUpdate Users) ;;
  modify (with_users (alter (fun u => set_pending u (f (pendingTasks u))) o)).

(** [!userId] *)
Definition falsy_ref (r : idref) : bool :=
  match r with
  | RawId s => String.eqb s ""
  | Oid _ => false
  end.

Definition addPendingToUser (userId : idref) (taskId : string) : M unit :=
  if falsy_ref userId then mret tt
  else User_findByIdAndUpdate userId (addToSet taskId).

Definition removePendingFromUser (userId : idref) (taskId : string) : M unit :=
  if falsy_ref userId then mret tt
  else User_findByIdAndUpdate userId (pull taskId).

(** *** The query chain ([find], [sort], [select], [skip], [limit], [exec]) *)

(** [q.skip(n)]: the engine rejects a negative skip. *)
Definition apply_skip {T} (skip : option Z) (l : list T) : option (list T) :=
  match skip with
  | None => Some l
  | Some n => if n <? 0 then None else Some (drop (Z.to_nat n) l)
  end.

(** [q.limit(n)]: zero is no limit, a negative limit counts as positive. *)
Definition apply_limit {T} (limit : option Z) (l : list T) : list T :=
  match limit with
  | None => l
  | Some n => if n =? 0 then l else take (Z.to_nat (Z.abs n)) l
  end.

(** [q.select(select)] when [select] is truthy; [None] when rejected. *)
Definition select_accepted (select : jsval) : option unit :=
  match select with
  | Some j => if truthy j && negb (select_ok j) then None else Some ()
  | None => Some ()
  end.

(** [where || {}] as the engine reads it: a falsy [where] is the filter
    [{}], which every document matches. *)
Definition query_filter {T} (filt : json -> option (string * T -> bool))
    (where_ : jsval) : option (string * T -> bool) :=
  if truthy_val where_ then where_ ≫= filt else Some (fun _ => true).

(** The documents a query chain yields on the collection [docs]; [None] when
    the engine rejects it. *)
Definition run_query {T}
    (filt : json -> option (string * T -> bool))
    (srt : json -> option (list (string * T) -> list (string * T)))
    (where_ sort select : jsval) (skip limit : option Z)
    (docs : list (string * T)) : option (list (string * T)) :=
  f ← query_filter filt where_;
  s ← (if truthy_val sort then sort ≫= srt else Some (fun l => l));
  _ ← select_accepted select;
  apply_limit limit <$> apply_skip skip (s (filter (fun d => f d = true) docs)).

(** [Model.countDocuments(where || {}).exec()] *)
Definition run_count {T} (filt : json -> option (string * T -> bool))
    (where_ : jsval) (docs : list (string * T)) : option nat :=
  f ← query_filter filt where_;
  Some (List.length (filter (fun d => f d = true) docs)).

Definition or_throw {A} (e : exn) (o : option A) : M A :=
  match o with
  | Some a => mret a
  | None => throw e
  end.

Definition Task_find (where_ sort select : jsval) (skip limit : option Z)
    : M (list (string * Task)) :=
  op (OpFind Tasks) ;;
  r ← gets (fun w => run_query Task_filter Task_sort where_ sort select skip limit
                        (map_to_list (tasks w)));
  or_throw QueryError r.

Definition User_find (where_ sort select : jsval) (skip limit : option Z)
    : M (list (string * User)) :=
  op (OpFind Users) ;;
  r ← gets (fun w => run_query User_filter User_sort where_ sort select skip limit
                        (map_to_list (users w)));
  or_throw QueryError r.

Definition Task_countDocuments (where_ : jsval) : M nat :=
  op (OpCount Tasks) ;;
  r ← gets (fun w => run_count Task_filter where_ (map_to_list (tasks w)));
  or_throw QueryError r.

Definition User_countDocuments (where_ : jsval) : M nat :=
  op (OpCount Users) ;;
  r ← gets (fun w => run_count User_filter where_ (map_to_list (users w)));
  or_throw QueryError r.

(** [Model.findById(id)], then [q.select(select)] when [select] is truthy. *)
Definition check_select (select : jsval) : M unit :=
  or_throw QueryError (select_accepted select).

(** The projection a response was built with. *)
Definition selected (select : jsval) : jsval :=
  if truthy_val select then select else None.

(** *** Request data *)

Record query : Type := mkQuery {
  q_where : option string;
  q_sort : option string;
  q_select : option string;
  q_skip : option string;
  q_limit : option string;
  q_count : option string
}.

(** [(v || '').trim()]: a truthy value that is no string has no [trim]. *)
Definition trimmed (v : jsval) : M string :=
  match v with
  | None => mret ""
  | Some (JStr s) => mret (trim s)
  | Some j => if truthy j then throw TypeError else mret ""
  end.

(** [v ? new Date(v) : null], then [!deadline || isNaN(deadline.getTime())]:
    [None] when the handler rejects the deadline. *)
Definition valid_deadline (v : jsval) : option Z :=
  if truthy_val v then v ≫= Date_getTime else None.

(** [v ? String(v) : ""] *)
Definition string_or_empty (v : jsval) : string :=
  match v with
  | Some j => if truthy j then String_ j else ""
  | None => ""
  end.

(** [typeof v === 'boolean' ? v : false] *)
Definition bool_or_false (v : jsval) : bool :=
  match v with
  | Some (JBool b) => b
  | _ => false
  end.

(** [Array.isArray(v) ? v.map(String) : []] *)
Definition strings_or_empty (v : jsval) : list string :=
  match v with
  | Some (JArr l) => map String_ l
  | _ => []
  end.

Definition task_payload (d : option (string * Task)) : payload :=
  match d with
  | Some doc => PTask None doc
  | None => PNull
  end.

Definition user_payload (d : option (string * User)) : payload :=
  match d with
  | Some doc => PUser None doc
  | None => PNull
  end.

(** *** The task routes *)

(** [GET /tasks] *)
Definition get_tasks (q : query) : M unit :=
  try_catch
    (where_ ← parseJSONParam (q_where q) "where";
     when_ (is_null where_) return_ ;;
     sort ← parseJSONParam (q_sort q) "sort";
     when_ (is_null sort) return_ ;;
     select ← parseJSONParam (q_select q) "select";
     when_ (is_null select) return_ ;;
     let skip := parse_int_param (q_skip q) in
     let limit := parse_int_param (q_limit q) in
     let count := toBool (q_count q) in
     let limit :=
       if negb count &&
          match limit with None | Some NaN => true | Some (Num _) => false end
       then Some (Num 100) else limit in
     if count then
       c ← Task_countDocuments where_;
       ok (PCount c)
     else
       docs ← Task_find where_ sort select (is_number skip) (is_number limit);
       ok (PTasks (selected select) docs))
    (fun _ => serverError).

(** The pending-set adjustment for a task owned by [owner], as every claiming
    path writes it:
    [if (!completed) await addPendingToUser(owner, taskId);
     else await removePendingFromUser(owner, taskId);] *)
Definition sync_pending (owner : idref) (taskId : string) (done : bool) : M unit :=
  if negb done then addPendingToUser owner taskId
  else removePendingFromUser owner taskId.

(** The owner lookup of the two writing task handlers:
    [if (assignedUser) { const user = await User.findById(assignedUser).exec();
                         if (!user) return badRequest(res, 'Assigned user does not exist'); ... }];
    [None] when [assignedUser] is empty. *)
Definition assigned_user (assignedUser : string) : M (option (string * User)) :=
  if negb (String.eqb assignedUser "") then
    user ← User_findById (RawId assignedUser);
    match user with
    | None => badRequest "Assigned user does not exist" ;; return_
    | Some doc => mret (Some doc)
    end
  else mret None.

(** [POST /tasks]; [oid] is the [_id] the driver generates for the new
    document and [now] is [Date.now()]. *)
Definition post_tasks (oid : string) (now : Z) (body : list (string * json)) : M unit :=
  try_catch
    (name ← trimmed (field "name" body);
     match valid_deadline (field "deadline" body) with
     | None => badRequest "Task must have a valid name and deadline" ;; return_
     | Some deadline =>
         when_ (String.eqb name "")
           (badRequest "Task must have a valid name and deadline" ;; return_) ;;
         let description := string_or_empty (field "description" body) in
         let completed := bool_or_false (field "completed" body) in
         let assignedUser := string_or_empty (field "assignedUser" body) in
         owner ← assigned_user assignedUser;
         let assignedUserName :=
           match owner with
           | Some (_, u) => user_name u
           | None => "unassigned"
           end in
         Task_create oid
           (mkTask name description deadline completed assignedUser
                   (trim assignedUserName) now) ;;
         when_ (negb (String.eqb assignedUser ""))
           (sync_pending (RawId assignedUser) oid completed) ;;
         freshTask ← Task_findById (Oid oid);
         created (task_payload freshTask)
     end)
    (fun _ => serverError).

(** [GET /tasks/:id] *)
Definition get_task (id : string) (select : option string) : M unit :=
  try_catch
    (select ← parseJSONParam select "select";
     when_ (is_null select) return_ ;;
     check_select select ;;
     task ← Task_findById (RawId id);
     match task with
     | None => notFound "Task"
     | Some doc => ok (PTask (selected select) doc)
     end)
    (fun _ => badRequest "Invalid task id").

(** The pending-set adjustment that ends [PUT /tasks/:id], from the owner and
    completion captured before the update and those saved by it. *)
Definition reconcile (tid prevAssignedUser : string) (prevCompleted : bool)
    (newAssignedUser : string) (newCompleted : bool) : M unit :=
  when_ (negb (String.eqb prevAssignedUser "") &&
         negb (String.eqb prevAssignedUser newAssignedUser))
    (removePendingFromUser (RawId prevAssignedUser) tid) ;;
  when_ (negb (String.eqb newAssignedUser ""))
    (sync_pending (RawId newAssignedUser) tid newCompleted) ;;
  when_ (negb (String.eqb prevAssignedUser "") &&
         String.eqb prevAssignedUser newAssignedUser)
    (if negb prevCompleted && newCompleted then
       removePendingFromUser (RawId newAssignedUser) tid
     else if prevCompleted && negb newCompleted then
       addPendingToUser (RawId newAssignedUser) tid
     else mret tt).

(** [PUT /tasks/:id] *)
Definition put_task (id : string) (body : list (string * json)) : M unit :=
  try_catch
    (name ← trimmed (field "name" body);
     match valid_deadline (field "deadline" body) with
     | None => badRequest "Task must have a valid name and deadline" ;; return_
     | Some deadline =>
         when_ (String.eqb name "")
           (badRequest "Task must have a valid name and deadline" ;; return_) ;;
         found ← Task_findById (RawId id);
         match found with
         | None => notFound "Task"
         | Some (tid, task) =>
             let prevAssignedUser := assignedUser task in
             let prevCompleted := completed task in
             let task :=
               mkTask name (string_or_empty (field "description" body)) deadline
                      (bool_or_false (field "completed" body))
                      (assignedUser task) (assignedUserName task)
                      (dateCreated task) in
             let newAssignedUser := string_or_empty (field "assignedUser" body) in
             owner ← assigned_user newAssignedUser;
             let task :=
               match owner with
               | Some (uid, u) => set_assigned task uid (user_name u)
               | None => set_assigned task "" "unassigned"
               end in
             Task_save tid task ;;
             let newCompleted := completed task in
             let newAssignedUser := assignedUser task in
             reconcile tid prevAssignedUser prevCompleted
               newAssignedUser newCompleted ;;
             freshTask ← Task_findById (Oid tid);
             ok (task_payload freshTask)
         end
     end)
    (fun _ => serverError).

(** [DELETE /tasks/:id] *)
Definition delete_task (id : string) : M unit :=
  try_catch
    (found ← Task_findById (RawId id);
     match found with
     | None => notFound "Task"
     | Some (tid, task) =>
         let assignedUser := assignedUser task in
         Task_deleteOne tid ;;
         when_ (negb (String.eqb assignedUser ""))
           (removePendingFromUser (RawId assignedUser) tid) ;;
         send (mkResponse 200 "Task deleted" PEmpty)
     end)
    (fun _ => serverError).

(** *** The user routes ([routes/users.js]) *)

(** [GET /users] *)
Definition get_users (q : query) : M unit :=
  try_catch
    (where_ ← parseJSONParam (q_where q) "where";
     when_ (is_null where_) return_ ;;
     sort ← parseJSONParam (q_sort q) "sort";
     when_ (is_null sort) return_ ;;
     select ← parseJSONParam (q_select q) "select";
     when_ (is_null select) return_ ;;
     let skip := parse_int_param (q_skip q) in
     let limit := parse_int_param (q_limit q) in
     let count := toBool (q_count q) in
     if count then
       c ← User_countDocuments where_;
       ok (PCount c)
     else
       docs ← User_find where_ sort select (is_number skip) (is_number limit);
       ok (PUsers (selected select) docs))
    (fun _ => serverError).

(** The callback that hands the task [d] to the user [uid]: detach it from
    another owner, point it at [uid], then adjust [uid]'s pending set. *)
Definition claim (uid : string) (uname : string) (d : string * Task) : M unit :=
  let '(tid, t) := d in
  when_ (negb (String.eqb (assignedUser t) "") &&
         negb (String.eqb (assignedUser t) uid))
    (removePendingFromUser (RawId (assignedUser t)) tid) ;;
  let t := set_assigned t uid uname in
  Task_save tid t ;;
  sync_pending (Oid uid) tid (completed t).

(** The callback that unassigns the task [d] and drops it from [uid]. *)
Definition unassign (uid : string) (d : string * Task) : M unit :=
  let '(tid, t) := d in
  Task_save tid (set_assigned t "" "unassigned") ;;
  removePendingFromUser (Oid uid) tid.

(** The shape the user handlers share:
    [if (ids.length > 0) { const docs = await Task.find({ _id: { $in: ids } }).exec();
                            await Promise.all(docs.map(f)); }] *)
Definition for_tasks_in (ids : list string) (f : string * Task -> M unit) : M unit :=
  when_ (negb (bool_decide (ids = [])))
    (docs ← Task_find_in ids;
     for_each f docs).

(** The [catch] of the two writing user handlers. *)
Definition user_write_failed (e : exn) : M unit :=
  if is_code_11000 e then badRequest "A user with this email already exists"
  else serverError.

(** [POST /users]; [oid] is the [_id] generated for the new document. *)
Definition post_users (oid : string) (body : list (string * json)) : M unit :=
  try_catch
    (name ← trimmed (field "name" body);
     email ← trimmed (field "email" body);
     let email := toLowerCase email in
     when_ (String.eqb name "" || String.eqb email "")
       (badRequest "User must have name and email" ;; return_) ;;
     existing ← User_findOne_email email;
     when_ (match existing with Some _ => true | None => false end)
       (badRequest "A user with this email already exists" ;; return_) ;;
     let pending := strings_or_empty (field "pendingTasks" body) in
     User_create oid (mkUser name email []) ;;
     for_tasks_in pending (claim oid name) ;;
     freshUser ← User_findById (Oid oid);
     created (user_payload freshUser))
    user_write_failed.

(** [GET /users/:id] *)
Definition get_user (id : string) (select : option string) : M unit :=
  try_catch
    (select ← parseJSONParam select "select";
     when_ (is_null select) return_ ;;
     check_select select ;;
     user ← User_findById (RawId id);
     match user with
     | None => notFound "User"
     | Some doc => ok (PUser (selected select) doc)
     end)
    (fun _ => notFound "User").

(** [PUT /users/:id] *)
Definition put_user (id : string) (body : list (string * json)) : M unit :=
  try_catch
    (name ← trimmed (field "name" body);
     email ← trimmed (field "email" body);
     let email := toLowerCase email in
     when_ (String.eqb name "" || String.eqb email "")
       (badRequest "User must have name and email" ;; return_) ;;
     found ← User_findById (RawId id);
     match found with
     | None => notFound "User"
     | Some (uid, user) =>
         dupe ← User_findOne_email email;
         when_ (match dupe with
                | Some (did, _) => negb (String.eqb did uid)
                | None => false
                end)
           (badRequest "A user with this email already exists" ;; return_) ;;
         let newPending := strings_or_empty (field "pendingTasks" body) in
         let prevPending := pendingTasks user in
         let toRemove := filter (fun i => i ∉ newPending) prevPending in
         let toAdd := filter (fun i => i ∉ prevPending) newPending in
         for_tasks_in toRemove (unassign uid) ;;
         for_tasks_in toAdd (claim uid name) ;;
         User_save uid (mkUser name email newPending) ;;
         freshUser ← User_findById (Oid uid);
         ok (user_payload freshUser)
     end)
    user_write_failed.

(** [DELETE /users/:id] *)
Definition delete_user (id : string) : M unit :=
  try_catch
    (found ← User_findById (RawId id);
     match found with
     | None => notFound "User"
     | Some (uid, user) =>
         let pending := pendingTasks user in
         for_tasks_in pending
           (fun '(tid, t) => Task_save tid (set_assigned t "" "unassigned")) ;;
         User_deleteOne uid ;;
         send (mkResponse 200 "User deleted" PEmpty)
     end)
    (fun _ => serverError).

End Handlers.

(** ** A platform to run the handlers on

    Identifiers are 24 hexadecimal digits, cast to lower case; a date is
    given by its epoch milliseconds; [JSON.parse] knows the literals and the
    empty object, which the query engine takes as "match all, keep the
    order". *)
Module Hex24.

Definition is_hex (c : ascii) : bool :=
  let n := nat_of_ascii c in
  ((48 <=? n)%nat && (n <=? 57)%nat) ||
  ((65 <=? n)%nat && (n <=? 70)%nat) ||
  ((97 <=? n)%nat && (n <=? 102)%nat).

Definition cast (s : string) : option string :=
  let l := list_ascii_of_string s in
  if (List.length l =? 24)%nat && forallb is_hex l
  then Some (toLowerCase s) else None.

Definition parse (s : string) : option json :=
  if String.eqb s "null" then Some JNull
  else if String.eqb s "true" then Some (JBool true)
  else if String.eqb s "false" then Some (JBool false)
  else if String.eqb s "{}" then Some (JObj [])
  else None.

Definition getTime (v : json) : option Z :=
  match v with
  | JNum n => Some n
  | _ => None
  end.

Definition match_all {T} (j : json) : option (string * T -> bool) :=
  match j with
  | JObj [] => Some (fun _ => true)
  | _ => None
  end.

Definition keep_order {T} (j : json) : option (list (string * T) -> list (string * T)) :=
  match j with
  | JObj [] => Some (fun l => l)
  | _ => None
  end.

Lemma lower_hex (c : ascii) :
  is_hex c = true -> is_hex (lower_ascii c) = true /\ lower_ascii (lower_ascii c) = lower_ascii c.
Proof.
  destruct c as [[] [] [] [] [] [] [] []]; vm_compute; intros H;
    first [discriminate H | split; reflexivity].
Qed.

Lemma lower_hex_all (l : list ascii) :
  forallb is_hex l = true ->
  forallb is_hex (map lower_ascii l) = true /\
  map lower_ascii (map lower_ascii l) = map lower_ascii l.
Proof.
  induction l as [|c l IH]; [done|].
  cbn [forallb map]. intros [Hc Hl]%andb_true_iff.
  destruct (lower_hex c Hc) as [H1 H2], (IH Hl) as [H3 H4].
  rewrite H1, H2, H3, H4. done.
Qed.

Lemma cast_String (s o : string) : cast s = Some o -> cast o = Some o.
Proof.
  unfold cast. destruct (_ && _) eqn:E; [|done].
  intros [= <-]. apply andb_true_iff in E as [Hlen Hhex].
  apply lower_hex_all in Hhex as [H1 H2].
  unfold toLowerCase at 1 2.
  rewrite !list_ascii_of_string_of_list_ascii, length_map, Hlen, H1. cbn.
  f_equal. unfold toLowerCase.
  by rewrite !list_ascii_of_string_of_list_ascii, H2.
Qed.

#[export] Instance platform : Platform := {|
  JSON_parse := parse;
  Date_getTime := getTime;
  castObjectId := cast;
  castObjectId_String := cast_String;
  castObjectId_empty := eq_refl;
  Task_filter := match_all;
  User_filter := match_all;
  Task_sort := keep_order;
  User_sort := keep_order;
  Task_sort_perm := ltac:(intros [] ? ?; try done; intros H; cbn in H;
                          destruct fields; [by injection H as <-|done]);
  User_sort_perm := ltac:(intros [] ? ?; try done; intros H; cbn in H;
                          destruct fields; [by injection H as <-|done]);
  select_ok := fun _ => true
|}.

End Hex24.

(** ** Running handlers symbolically *)

Section Reasoning.
Context `{P : Platform}.

Lemma bind_run {A B} (m : M A) (f : A -> M B) (w : world) :
  (m ≫= f) w = match m w with
               | (Value a, w') => f a w'
               | (Return, w') => (Return, w')
               | (Throw e, w') => (Throw e, w')
               end.
Proof. reflexivity. Qed.

Lemma ret_run {A} (a : A) (w : world) : mret (M := M) a w = (Value a, w).
Proof. reflexivity. Qed.

Lemma send_run (r : response) (w : world) : send r w = (Value tt, responded r w).
Proof. reflexivity. Qed.

Lemma cast_ref_run (r : idref) (w : world) :
  cast_ref r w =
  match r with
  | Oid o => (Value o, w)
  | RawId s =>
      match castObjectId s with
      | Some o => (Value o, w)
      | None => (Throw CastError, w)
      end
  end.
Proof. destruct r as [s|o]; cbn; [|done]. by destruct (castObjectId s). Qed.

(** The identifier a reference denotes. *)
Definition denotes (r : idref) : option string :=
  match r with
  | Oid o => Some o
  | RawId s => castObjectId s
  end.

Lemma Task_findById_run (r : idref) (w : world) :
  Task_findById r w =
  match denotes r with
  | Some o => (Value (pair o <$> tasks w !! o), logged (OpFindById Tasks) w)
  | None => (Throw CastError, w)
  end.
Proof.
  unfold Task_findById. rewrite bind_run, cast_ref_run.
  destruct r as [s|o]; cbn; [|done]. by destruct (castObjectId s).
Qed.

Lemma User_findById_run (r : idref) (w : world) :
  User_findById r w =
  match denotes r with
  | Some o => (Value (pair o <$> users w !! o), logged (OpFindById Users) w)
  | None => (Throw CastError, w)
  end.
Proof.
  unfold User_findById. rewrite bind_run, cast_ref_run.
  destruct r as [s|o]; cbn; [|done]. by destruct (castObjectId s).
Qed.

Lemma User_findByIdAndUpdate_run (r : idref) (f : list string -> list string) (w : world) :
  User_findByIdAndUpdate r f w =
  match denotes r with
  | Some o =>
      (Value tt,
       with_users (alter (fun u => set_pending u (f (pendingTasks u))) o)
         (logged (OpUpdate Users) w))
  | None => (Throw CastError, w)
  end.
Proof.
  unfold User_findByIdAndUpdate. rewrite bind_run, cast_ref_run.
  destruct r as [s|o]; cbn; [|done]. by destruct (castObjectId s).
Qed.

Lemma cast_all_run (l : list string) (w : world) :
  cast_all l w =
  match mapM castObjectId l with
  | Some os => (Value os, w)
  | None => (Throw CastError, w)
  end.
Proof.
  induction l as [|s l IH]; [done|].
  cbn [cast_all]. rewrite bind_run, cast_ref_run. cbn [mapM].
  destruct (castObjectId s) as [o|]; cbn; [|done].
  rewrite bind_run, IH. by destruct (mapM castObjectId l).
Qed.

Lemma Task_find_in_run (ids : list string) (w : world) :
  Task_find_in ids w =
  match mapM castObjectId ids with
  | Some os =>
      (Value (filter (fun d => d.1 ∈ os) (map_to_list (tasks w))),
       logged (OpFind Tasks) w)
  | None => (Throw CastError, w)
  end.
Proof.
  unfold Task_find_in. rewrite bind_run, cast_all_run.
  by destruct (mapM castObjectId ids).
Qed.

Lemma Task_find_run where_ sort select skip limit (w : world) :
  Task_find where_ sort select skip limit w =
  match run_query Task_filter Task_sort where_ sort select skip limit
          (map_to_list (tasks w)) with
  | Some r => (Value r, logged (OpFind Tasks) w)
  | None => (Throw QueryError, logged (OpFind Tasks) w)
  end.
Proof.
  unfold Task_find, mbind, M_bind, op, gets, modify, or_throw. cbn.
  by destruct (run_query _ _ _ _ _ _ _ _).
Qed.

Lemma User_find_run where_ sort select skip limit (w : world) :
  User_find where_ sort select skip limit w =
  match run_query User_filter User_sort where_ sort select skip limit
          (map_to_list (users w)) with
  | Some r => (Value r, logged (OpFind Users) w)
  | None => (Throw QueryError, logged (OpFind Users) w)
  end.
Proof.
  unfold User_find, mbind, M_bind, op, gets, modify, or_throw. cbn.
  by destruct (run_query _ _ _ _ _ _ _ _).
Qed.

(** What [parseJSONParam] followed by [if (v === null) return;] does with a
    query parameter: go on with a value, or stop, with or without a
    response. *)
Inductive param : Type :=
| Stop (r : option response)
| Go (v : jsval).

Definition classify (value : option string) (pname : string) : param :=
  match value with
  | None => Go None
  | Some s =>
      match JSON_parse s with
      | None =>
          Stop (Some (mkResponse 400 ("Invalid JSON in '" ++ pname ++ "' parameter") PNull))
      | Some JNull => Stop None
      | Some v => Go (Some v)
      end
  end.

Lemma parse_step (value : option string) (pname : string) (k : jsval -> M unit) (w : world) :
  (v ← parseJSONParam value pname; when_ (is_null v) return_ ;; k v) w =
  match classify value pname with
  | Go v => k v w
  | Stop None => (Return, w)
  | Stop (Some r) => (Return, responded r w)
  end.
Proof.
  unfold parseJSONParam, classify.
  destruct value as [s|]; [|reflexivity].
  destruct (JSON_parse s) as [[]|]; reflexivity.
Qed.

Lemma classify_unparseable (s pname : string) :
  JSON_parse s = None ->
  classify (Some s) pname =
    Stop (Some (mkResponse 400 ("Invalid JSON in '" ++ pname ++ "' parameter") PNull)).
Proof. intros H. cbn. by rewrite H. Qed.

Lemma classify_cases (value : option string) (pname : string) :
  classify value pname = Go (value ≫= JSON_parse) \/
  classify value pname = Stop None \/
  classify value pname =
    Stop (Some (mkResponse 400 ("Invalid JSON in '" ++ pname ++ "' parameter") PNull)).
Proof.
  unfold classify. destruct value as [s|]; cbn; [|by left].
  destruct (JSON_parse s) as [[]|]; auto.
Qed.

(** A query parameter that is absent, or parses to a value other than
    [null]. *)
Definition parses_to_value (value : option string) : Prop :=
  match value with
  | None => True
  | Some s => exists j, JSON_parse s = Some j /\ j <> JNull
  end.

Lemma classify_value (value : option string) (pname : string) :
  parses_to_value value -> classify value pname = Go (value ≫= JSON_parse).
Proof.
  destruct value as [s|]; cbn; [|done].
  intros (j & -> & Hj). by destruct j.
Qed.

(** Rewrites the next [parseJSONParam] of hypothesis [H] and goes on with
    the case in which the parameter yields a value; the two cases that stop
    the handler are left to [tac]. *)
Ltac split_param H value pname tac :=
  let E := fresh "E" in
  rewrite parse_step in H;
  destruct (classify_cases value pname) as [E | [E | E]];
  rewrite E in H; clear E;
  [ | solve [tac] ..].

(** *** The query chain *)

Definition skipped (skip : option Z) : nat :=
  match skip with
  | Some n => Z.to_nat n
  | None => 0%nat
  end.

Lemma apply_skip_length {T} (skip : option Z) (l r : list T) :
  apply_skip skip l = Some r -> List.length r = (List.length l - skipped skip)%nat.
Proof.
  destruct skip as [n|]; cbn.
  - destruct (n <? 0); [done|]. intros [= <-]. by rewrite length_drop.
  - intros [= <-]. lia.
Qed.

Section Query.
Context {T : Type}.
Variable filt : json -> option (string * T -> bool).
Variable srt : json -> option (list (string * T) -> list (string * T)).
Hypothesis srt_perm : forall j s l, srt j = Some s -> Permutation (s l) l.

Lemma sorted_perm (sort : jsval) (s : list (string * T) -> list (string * T)) l :
  (if truthy_val sort then sort ≫= srt else Some (fun l => l)) = Some s ->
  Permutation (s l) l.
Proof.
  destruct (truthy_val sort).
  - destruct sort as [j|]; [|done]. cbn. apply srt_perm.
  - by intros [= <-].
Qed.

(** Without a limit the chain yields every matching document past the
    skipped ones. *)
Lemma run_query_unlimited where_ sort select skip docs r :
  run_query filt srt where_ sort select skip None docs = Some r ->
  exists f, query_filter filt where_ = Some f /\
    List.length r =
      (List.length (filter (fun d => f d = true) docs) - skipped skip)%nat /\
    (skip = None -> Permutation r (filter (fun d => f d = true) docs)).
Proof.
  unfold run_query. intros H.
  destruct (query_filter filt where_) as [f|]; [|done]. cbn in H.
  destruct (if truthy_val sort then _ else _) as [s|] eqn:Hs; [|done]. cbn in H.
  destruct (select_accepted select); [|done]. cbn in H.
  destruct (apply_skip skip _) as [l|] eqn:Hl; [|done]. cbn in H.
  injection H as <-. exists f. split; [done|]. split.
  - rewrite (apply_skip_length _ _ _ Hl).
    by rewrite (Permutation_length (sorted_perm _ _ _ Hs)).
  - intros ->. cbn in Hl. injection Hl as <-. by eapply sorted_perm.
Qed.

(** With the limit [n > 0] it yields the first [n] of them. *)
Lemma run_query_limited where_ sort select skip n docs r :
  0 < n ->
  run_query filt srt where_ sort select skip (Some n) docs = Some r ->
  exists f, query_filter filt where_ = Some f /\
    List.length r =
      (Z.to_nat n `min`
        (List.length (filter (fun d => f d = true) docs) - skipped skip))%nat.
Proof.
  unfold run_query. intros Hn H.
  destruct (query_filter filt where_) as [f|]; [|done]. cbn in H.
  destruct (if truthy_val sort then _ else _) as [s|] eqn:Hs; [|done]. cbn in H.
  destruct (select_accepted select); [|done]. cbn in H.
  destruct (apply_skip skip _) as [l|] eqn:Hl; [|done]. cbn in H.
  injection H as <-. exists f. split; [done|].
  destruct (n =? 0) eqn:E; [lia|].
  rewrite length_take, (apply_skip_length _ _ _ Hl).
  rewrite (Permutation_length (sorted_perm _ _ _ Hs)). lia.
Qed.

End Query.

(** *** Listing and fetching *)

(** The order a [sort] parameter asks for; none when it is falsy:
    [if (sort) q = q.sort(sort)]. *)
Definition query_order {T} (srt : json -> option (list (string * T) -> list (string * T)))
    (sort : jsval) : option (list (string * T) -> list (string * T)) :=
  if truthy_val sort then sort ≫= srt else Some (fun l => l).

(** A [skip] the engine takes: none, or a number that is not negative. *)
Definition skip_accepted (skip : option Z) : Prop :=
  match skip with
  | Some n => 0 <= n
  | None => True
  end.

Lemma apply_skip_accepted {T} (skip : option Z) (l : list T) :
  skip_accepted skip -> apply_skip skip l = Some (drop (skipped skip) l).
Proof.
  destruct skip as [n|]; cbn; [|done].
  intros Hn. by destruct (Z.ltb_spec n 0); [lia|].
Qed.

(** What the chain yields once the engine has taken each part of it. *)
Lemma run_query_value {T} (filt : json -> option (string * T -> bool))
    (srt : json -> option (list (string * T) -> list (string * T)))
    (where_ sort select : jsval) (skip limit : option Z) (docs : list (string * T))
    (f : string * T -> bool) (s : list (string * T) -> list (string * T)) :
  query_filter filt where_ = Some f ->
  query_order srt sort = Some s ->
  select_accepted select = Some () ->
  skip_accepted skip ->
  run_query filt srt where_ sort select skip limit docs =
  Some (apply_limit limit (drop (skipped skip) (s (filter (fun d => f d = true) docs)))).
Proof.
  intros Hf Hs Hsel Hskip. unfold run_query, query_order in *.
  rewrite Hf. cbn. rewrite Hs. cbn. rewrite Hsel. cbn.
  by rewrite apply_skip_accepted.
Qed.

(** C7: a task listing without a [limit] parameter, and not count-only,
    never answers more than 100 documents, and when the engine takes the
    query it answers 200 with the first 100 matching documents past the
    skip, in the order asked for; a user listing under the same conditions
    applies no limit: it answers 200 with every matching document past the
    skip, so with all of them when nothing is skipped. *)
Theorem list_limit_defaults (q : query) (ts : gmap string Task) (us : gmap string User) :
  q_limit q = None ->
  toBool (q_count q) = false ->
  let where_ := q_where q ≫= JSON_parse in
  let sort := q_sort q ≫= JSON_parse in
  let select := q_select q ≫= JSON_parse in
  let skip := is_number (parse_int_param (q_skip q)) in
  (forall r sel docs,
      res (run (get_tasks q) (request_on ts us)) = Some r ->
      data r = PTasks sel docs ->
      (List.length docs <= 100)%nat) /\
  (parses_to_value (q_where q) ->
   parses_to_value (q_sort q) ->
   parses_to_value (q_select q) ->
   select_accepted select = Some () ->
   skip_accepted skip ->
   (forall f s,
      query_filter Task_filter where_ = Some f ->
      query_order Task_sort sort = Some s ->
      let matching := s (filter (fun d => f d = true) (map_to_list ts)) in
      run (get_tasks q) (request_on ts us) =
      mkWorld ts us [OpFind Tasks]
        (Some (mkResponse 200 "OK"
           (PTasks (selected select) (take 100 (drop (skipped skip) matching)))))) /\
   (forall f s,
      query_filter User_filter where_ = Some f ->
      query_order User_sort sort = Some s ->
      let matching := s (filter (fun d => f d = true) (map_to_list us)) in
      run (get_users q) (request_on ts us) =
      mkWorld ts us [OpFind Users]
        (Some (mkResponse 200 "OK"
           (PUsers (selected select) (drop (skipped skip) matching)))) /\
      Permutation matching (filter (fun d => f d = true) (map_to_list us)))).
Proof.
  intros Hlimit Hcount where_ sort select skip. split.
  - intros r sel docs H Hd.
    unfold run, get_tasks, try_catch in H.
    split_param H (q_where q) "where" ltac:(cbn in H; simplify_eq/=).
    split_param H (q_sort q) "sort" ltac:(cbn in H; simplify_eq/=).
    split_param H (q_select q) "select" ltac:(cbn in H; simplify_eq/=).
    rewrite Hlimit, Hcount in H. cbn [negb andb parse_int_param is_number] in H.
    rewrite bind_run, Task_find_run in H.
    destruct (run_query _ _ _ _ _ _ _ _) as [l|] eqn:Hq; cbn in H; simplify_eq/=.
    apply run_query_limited in Hq as (f & Hf & Hlen); [|apply Task_sort_perm|done].
    change (Z.to_nat 100) with 100%nat in Hlen. lia.
  - intros Hw Hs Hsel Hacc Hskip. split; intros f s Hf Hord matching.
    + unfold run, get_tasks, try_catch.
      rewrite parse_step, (classify_value _ _ Hw).
      rewrite parse_step, (classify_value _ _ Hs).
      rewrite parse_step, (classify_value _ _ Hsel).
      cbv zeta. rewrite Hlimit, Hcount. cbn [negb andb parse_int_param is_number].
      rewrite bind_run, Task_find_run.
      rewrite (run_query_value _ _ _ _ _ _ _ _ f s Hf Hord Hacc Hskip).
      reflexivity.
    + split.
      * unfold run, get_users, try_catch.
        rewrite parse_step, (classify_value _ _ Hw).
        rewrite parse_step, (classify_value _ _ Hs).
        rewrite parse_step, (classify_value _ _ Hsel).
        cbv zeta. rewrite Hlimit, Hcount. cbn [parse_int_param is_number].
        rewrite bind_run, User_find_run.
        rewrite (run_query_value _ _ _ _ _ _ _ _ f s Hf Hord Hacc Hskip).
        reflexivity.
      * eapply sorted_perm; [apply User_sort_perm|exact Hord].
Qed.

(** The part of C8 the handlers keep: when the first parameter that does not
    parse comes after parameters that are absent or parse to a value other
    than [null], the listing answers 400 and the store is not accessed. *)
Definition first_unparseable (q : query) : Prop :=
  (exists s, q_where q = Some s /\ JSON_parse s = None) \/
  (parses_to_value (q_where q) /\
   ((exists s, q_sort q = Some s /\ JSON_parse s = None) \/
    (parses_to_value (q_sort q) /\
     exists s, q_select q = Some s /\ JSON_parse s = None))).

Lemma unparseable_query_rejected (q : query) (w : world) :
  first_unparseable q ->
  forall w', (w' = run (get_tasks q) w \/ w' = run (get_users q) w) ->
  res w' ≫= error_of = Some InvalidArgument /\
  log w' = log w /\ tasks w' = tasks w /\ users w' = users w.
Proof.
  intros Hq w' Hw'.
  assert (exists r, status r = 400 /\ run (get_tasks q) w = responded r w /\
                    run (get_users q) w = responded r w) as (r & Hr & Ht & Hu).
  { unfold run, get_tasks, get_users, try_catch. rewrite !parse_step.
    destruct Hq as [(s & -> & Hs)|[Hw [(s & -> & Hs)|[Hs' (s & -> & Hs)]]]].
    - rewrite classify_unparseable by done. eexists; (split; [|split; reflexivity]); reflexivity.
    - rewrite (classify_value _ _ Hw), !parse_step, classify_unparseable by done.
      eexists; (split; [|split; reflexivity]); reflexivity.
    - rewrite (classify_value _ _ Hw), !parse_step, (classify_value _ _ Hs'),
        !parse_step, classify_unparseable by done.
      eexists; (split; [|split; reflexivity]); reflexivity. }
  assert (w' = responded r w) as -> by (destruct Hw' as [->| ->]; done).
  cbn. unfold error_of. by rewrite Hr.
Qed.

(** C8, where the handlers miss it: a parameter that parses to [null] makes a
    listing return at once without any response, whatever the parameters
    after it are; so a request with [where=null] and a [sort] that does not
    parse is not answered 400. *)
Theorem null_parameter_stops_silently (q : query) (w : world) :
  (exists s, q_where q = Some s /\ JSON_parse s = Some JNull) ->
  run (get_tasks q) w = w /\ run (get_users q) w = w.
Proof.
  intros (s & Hs & Hnull).
  unfold run, get_tasks, get_users, try_catch. rewrite !parse_step, Hs. cbn.
  by rewrite Hnull.
Qed.

(** C2, as the code has it: fetching by a malformed identifier (with no
    [select], or one that parses to a value other than [null]) answers
    404 NotFound on the user route and 400 InvalidArgument on the task
    route; neither reaches the store. *)
Theorem get_by_malformed_id (id : string) (select : option string)
    (ts : gmap string Task) (us : gmap string User) :
  castObjectId id = None ->
  parses_to_value select ->
  let wu := run (get_user id select) (request_on ts us) in
  let wt := run (get_task id select) (request_on ts us) in
  res wu ≫= error_of = Some NotFound /\
  res wt ≫= error_of = Some InvalidArgument /\
  log wu = [] /\ log wt = [].
Proof.
  intros Hid Hsel. cbn zeta.
  unfold run, get_user, get_task, try_catch.
  rewrite !parse_step, (classify_value _ _ Hsel).
  rewrite !(bind_run (check_select _)). unfold check_select.
  destruct (select_accepted _); [|done].
  cbn [or_throw]. rewrite !ret_run.
  rewrite !bind_run, User_findById_run, Task_findById_run. cbn [denotes].
  by rewrite Hid.
Qed.

(** *** Request bodies *)

(** [v || ''] is a string: [v] is falsy or a string. *)
Definition string_like (v : jsval) : Prop :=
  match v with
  | None => True
  | Some (JStr _) => True
  | Some j => truthy j = false
  end.

(** [(v || '').trim()] for such a value. *)
Definition text (v : jsval) : string :=
  match v with
  | Some (JStr s) => trim s
  | _ => ""
  end.

Lemma trimmed_run (v : jsval) (w : world) :
  string_like v -> trimmed v w = (Value (text v), w).
Proof.
  destruct v as [[]|]; cbn; try done; by intros ->.
Qed.

Lemma eqb_empty_false (s : string) : s <> "" -> String.eqb s "" = false.
Proof. by intros ?%String.eqb_neq. Qed.

(** A handler run that answered with status [code] and left every document
    as it was. *)
Definition answered_unchanged (code : Z) (ts : gmap string Task)
    (us : gmap string User) (w' : world) : Prop :=
  exists r l, status r = code /\ w' = mkWorld ts us l (Some r).

Lemma answered_unchanged_400 ts us w' :
  answered_unchanged 400 ts us w' ->
  res w' ≫= error_of = Some InvalidArgument /\ tasks w' = ts /\ users w' = us.
Proof. intros (r & l & Hr & ->). cbn. unfold error_of. by rewrite Hr. Qed.

Lemma answered_unchanged_500 ts us w' :
  answered_unchanged 500 ts us w' ->
  res w' ≫= error_of = Some Internal /\ tasks w' = ts /\ users w' = us.
Proof. intros (r & l & Hr & ->). cbn. unfold error_of. by rewrite Hr. Qed.

Ltac answered := eexists _, _; (split; [|reflexivity]); reflexivity.

(** *** Updating a task *)

(** A task update on a stored task whose [assignedUser] is a well-formed
    identifier of no existing user answers 400 InvalidArgument and leaves
    every task and every user as it was. *)
Lemma put_task_unknown_user (id : string) (body : list (string * json))
    (ts : gmap string Task) (us : gmap string User)
    (tid : string) (t : Task) (a o : string) :
  string_like (field "name" body) ->
  castObjectId id = Some tid ->
  ts !! tid = Some t ->
  string_or_empty (field "assignedUser" body) = a ->
  a <> "" ->
  castObjectId a = Some o ->
  us !! o = None ->
  let w' := run (put_task id body) (request_on ts us) in
  res w' ≫= error_of = Some InvalidArgument /\ tasks w' = ts /\ users w' = us.
Proof.
  intros Hname Hid Ht Ha Hne Hcast Hnone w'.
  apply answered_unchanged_400. subst w'.
  unfold run, put_task, try_catch.
  rewrite bind_run, trimmed_run by done.
  destruct (valid_deadline _) as [d|]; [|answered].
  rewrite bind_run. unfold when_ at 1.
  destruct (String.eqb (text _) ""); [answered|].
  rewrite ret_run, bind_run, Task_findById_run. cbn [denotes].
  rewrite Hid. cbn [tasks logged request_on]. rewrite Ht. cbn [fmap option_fmap option_map].
  rewrite Ha, bind_run. unfold assigned_user.
  rewrite (eqb_empty_false _ Hne). cbn [negb].
  rewrite !bind_run, User_findById_run. cbn [denotes].
  rewrite Hcast. cbn [users logged request_on]. rewrite Hnone.
  answered.
Qed.

(** When the [assignedUser] is not even a well-formed identifier, the lookup
    raises; the update answers 500 and the store is as it was as well. *)
Lemma put_task_malformed_user (id : string) (body : list (string * json))
    (ts : gmap string Task) (us : gmap string User)
    (tid : string) (t : Task) (a : string) (dl : Z) :
  string_like (field "name" body) ->
  text (field "name" body) <> "" ->
  valid_deadline (field "deadline" body) = Some dl ->
  castObjectId id = Some tid ->
  ts !! tid = Some t ->
  string_or_empty (field "assignedUser" body) = a ->
  a <> "" ->
  castObjectId a = None ->
  let w' := run (put_task id body) (request_on ts us) in
  res w' ≫= error_of = Some Internal /\ tasks w' = ts /\ users w' = us.
Proof.
  intros Hname Hname' Hdl Hid Ht Ha Hne Hcast w'.
  apply answered_unchanged_500. subst w'.
  unfold run, put_task, try_catch.
  rewrite bind_run, trimmed_run, Hdl by done.
  rewrite bind_run. unfold when_ at 1.
  rewrite (eqb_empty_false _ Hname').
  rewrite ret_run, bind_run, Task_findById_run. cbn [denotes].
  rewrite Hid. cbn [tasks logged request_on]. rewrite Ht. cbn [fmap option_fmap option_map].
  rewrite Ha, bind_run. unfold assigned_user.
  rewrite (eqb_empty_false _ Hne). cbn [negb].
  rewrite !bind_run, User_findById_run. cbn [denotes].
  rewrite Hcast. answered.
Qed.

(** The [assignedUser] [a] references no existing user: whatever identifier
    it denotes, if it denotes one at all, no user is stored under it. *)
Definition references_no_user (us : gmap string User) (a : string) : Prop :=
  forall o, castObjectId a = Some o -> us !! o = None.

(** C3, where the code breaks it: a task update (with valid fields, on a
    stored task) whose [assignedUser] references no existing user leaves
    every task and every user as it was, but it answers InvalidArgument
    only when the string is a well-formed identifier; when it is not, the
    lookup raises and the answer is 500 Internal. *)
Theorem put_task_dangling_user (id : string) (body : list (string * json))
    (ts : gmap string Task) (us : gmap string User)
    (tid : string) (t : Task) (a : string) (dl : Z) :
  string_like (field "name" body) ->
  text (field "name" body) <> "" ->
  valid_deadline (field "deadline" body) = Some dl ->
  castObjectId id = Some tid ->
  ts !! tid = Some t ->
  string_or_empty (field "assignedUser" body) = a ->
  a <> "" ->
  references_no_user us a ->
  let w' := run (put_task id body) (request_on ts us) in
  tasks w' = ts /\ users w' = us /\
  (is_Some (castObjectId a) -> res w' ≫= error_of = Some InvalidArgument) /\
  (castObjectId a = None ->
   res w' ≫= error_of = Some Internal /\
   (res w' ≫= error_of) <> Some InvalidArgument).
Proof.
  intros Hname Hname' Hdl Hid Ht Ha Hne Hno w'.
  destruct (castObjectId a) as [o|] eqn:Hcast.
  - destruct (put_task_unknown_user id body ts us tid t a o Hname Hid Ht Ha Hne Hcast
                (Hno o Hcast)) as (Hres & Hts & Hus).
    split_and!; [done|done|done|done].
  - destruct (put_task_malformed_user id body ts us tid t a dl Hname Hname' Hdl Hid Ht
                Ha Hne Hcast) as (Hres & Hts & Hus).
    split_and!; [done|done|by intros [? ?]|].
    intros _. fold w' in Hres. rewrite Hres. done.
Qed.

(** *** Steps that send nothing

    A computation is quiet when it never leaves the handler early and never
    touches the response: true of every store operation, hence of the
    loops over documents. *)
Definition quiet {A} (m : M A) : Prop :=
  forall w o w', m w = (o, w') -> o <> Return /\ res w' = res w.

Lemma quiet_ret {A} (a : A) : quiet (mret a).
Proof. by intros w o w' [= <- <-]. Qed.

Lemma quiet_throw {A} (e : exn) : quiet (throw (A := A) e).
Proof. by intros w o w' [= <- <-]. Qed.

Lemma quiet_gets {A} (f : world -> A) : quiet (gets f).
Proof. by intros w o w' [= <- <-]. Qed.

Lemma quiet_modify (f : world -> world) :
  (forall w, res (f w) = res w) -> quiet (modify f).
Proof. intros Hf w o w' [= <- <-]. by rewrite Hf. Qed.

Lemma quiet_bind {A B} (m : M A) (f : A -> M B) :
  quiet m -> (forall a, quiet (f a)) -> quiet (m ≫= f).
Proof.
  intros Hm Hf w o w'. rewrite bind_run.
  destruct (m w) as [[a| |e] w1] eqn:E; destruct (Hm _ _ _ E) as [Hne Hres].
  - intros [Ho Hw]%Hf. split; [done|congruence].
  - done.
  - by intros [= <- <-].
Qed.

Lemma quiet_when (b : bool) (m : M unit) : quiet m -> quiet (when_ b m).
Proof. destruct b; [done|]. intros _. apply quiet_ret. Qed.

Lemma quiet_for_each {A} (f : A -> M unit) (l : list A) :
  (forall x, quiet (f x)) -> quiet (for_each f l).
Proof.
  intros Hf. induction l as [|x l IH]; cbn [for_each].
  - apply quiet_ret.
  - apply quiet_bind; auto.
Qed.

Lemma quiet_op (o : store_op) : quiet (op o).
Proof. by apply quiet_modify. Qed.

Lemma quiet_cast_ref (r : idref) : quiet (cast_ref r).
Proof.
  destruct r as [s|o]; cbn; [|apply quiet_ret].
  destruct (castObjectId s); [apply quiet_ret|apply quiet_throw].
Qed.

Lemma quiet_cast_all (l : list string) : quiet (cast_all l).
Proof.
  induction l as [|s l IH]; cbn [cast_all]; [apply quiet_ret|].
  apply quiet_bind; [apply quiet_cast_ref|]. intros o.
  apply quiet_bind; [done|]. intros os. apply quiet_ret.
Qed.

Lemma quiet_Task_find_in (ids : list string) : quiet (Task_find_in ids).
Proof.
  apply quiet_bind; [apply quiet_cast_all|]. intros os.
  apply quiet_bind; [apply quiet_op|]. intros _. apply quiet_gets.
Qed.

Lemma quiet_Task_save (o : string) (t : Task) : quiet (Task_save o t).
Proof.
  apply quiet_bind; [apply quiet_op|]. intros _. by apply quiet_modify.
Qed.

Lemma quiet_User_findByIdAndUpdate (r : idref) (f : list string -> list string) :
  quiet (User_findByIdAndUpdate r f).
Proof.
  apply quiet_bind; [apply quiet_cast_ref|]. intros o.
  apply quiet_bind; [apply quiet_op|]. intros _. by apply quiet_modify.
Qed.

Lemma quiet_addPendingToUser (r : idref) (t : string) : quiet (addPendingToUser r t).
Proof.
  unfold addPendingToUser.
  destruct (falsy_ref r); [apply quiet_ret|apply quiet_User_findByIdAndUpdate].
Qed.

Lemma quiet_removePendingFromUser (r : idref) (t : string) :
  quiet (removePendingFromUser r t).
Proof.
  unfold removePendingFromUser.
  destruct (falsy_ref r); [apply quiet_ret|apply quiet_User_findByIdAndUpdate].
Qed.

Lemma quiet_sync_pending (r : idref) (t : string) (b : bool) :
  quiet (sync_pending r t b).
Proof.
  unfold sync_pending.
  destruct (negb b); [apply quiet_addPendingToUser|apply quiet_removePendingFromUser].
Qed.

Lemma quiet_claim (uid uname : string) (d : string * Task) : quiet (claim uid uname d).
Proof.
  destruct d as [tid t]. unfold claim.
  apply quiet_bind; [apply quiet_when, quiet_removePendingFromUser|]. intros _.
  apply quiet_bind; [apply quiet_Task_save|]. intros _.
  apply quiet_sync_pending.
Qed.

Lemma quiet_unassign (uid : string) (d : string * Task) : quiet (unassign uid d).
Proof.
  destruct d as [tid t]. unfold unassign.
  apply quiet_bind; [apply quiet_Task_save|]. intros _.
  apply quiet_removePendingFromUser.
Qed.

Lemma quiet_for_tasks_in (ids : list string) (f : string * Task -> M unit) :
  (forall d, quiet (f d)) -> quiet (for_tasks_in ids f).
Proof.
  intros Hf. apply quiet_when, quiet_bind; [apply quiet_Task_find_in|].
  intros docs. by apply quiet_for_each.
Qed.

(** *** Updating a user *)

Lemma trimmed_cases (v : jsval) (w : world) :
  (string_like v /\ trimmed v w = (Value (text v), w)) \/
  trimmed v w = (Throw TypeError, w).
Proof.
  destruct v as [[]|]; cbn; auto;
    match goal with |- context [if ?b then _ else _] => destruct b eqn:? end; auto.
Qed.

Lemma user_write_failed_status (e : exn) (w : world) (r : response) :
  res (user_write_failed e w).2 = Some r -> status r = 400 \/ status r = 500.
Proof. destruct e; cbn; intros [= <-]; auto. Qed.

Lemma User_findOne_email_run (e : string) (w : world) :
  User_findOne_email e w =
  (Value (head (filter (fun d => email d.2 = e) (map_to_list (users w)))),
   logged (OpFindOne Users) w).
Proof. reflexivity. Qed.

Lemma User_save_run (o : string) (u : User) (w : world) :
  User_save o u w = (Value tt, with_users (insert o u) (logged (OpSave Users) w)).
Proof. reflexivity. Qed.

Lemma Task_save_run (o : string) (t : Task) (w : world) :
  Task_save o t w = (Value tt, with_tasks (insert o t) (logged (OpSave Tasks) w)).
Proof. reflexivity. Qed.

(** What a user update that answers 200 went through: both fields are
    text, the user exists, the two phases ran to their end, and the record
    written last carries the requested pending list. *)
(** Closes a branch in which the handler stopped with another answer than
    the one assumed. *)
Ltac stopped Hfail Hother :=
  let H := fresh in
  intros H;
  exfalso;
  first [ exact (Hfail _ _ H)
        | eapply Hother; [|exact H]; cbn; lia ].

Lemma put_user_ok (id : string) (body : list (string * json))
    (ts : gmap string Task) (us : gmap string User) (r : response) (w' : world) :
  run (put_user id body) (request_on ts us) = w' ->
  res w' = Some r ->
  status r = 200 ->
  exists uid user w1 w2,
    let name := text (field "name" body) in
    let email := toLowerCase (text (field "email" body)) in
    let newPending := strings_or_empty (field "pendingTasks" body) in
    let prevPending := pendingTasks user in
    castObjectId id = Some uid /\
    us !! uid = Some user /\
    string_like (field "name" body) /\
    string_like (field "email" body) /\
    name <> "" /\ email <> "" /\
    for_tasks_in (filter (fun i => i ∉ newPending) prevPending) (unassign uid)
      (logged (OpFindOne Users) (logged (OpFindById Users) (request_on ts us)))
      = (Value tt, w1) /\
    for_tasks_in (filter (fun i => i ∉ prevPending) newPending) (claim uid name) w1
      = (Value tt, w2) /\
    w' = responded
           (mkResponse 200 "OK" (PUser None (uid, mkUser name email newPending)))
           (logged (OpFindById Users)
              (with_users (insert uid (mkUser name email newPending))
                 (logged (OpSave Users) w2))).
Proof.
  intros Hrun Hres Hst. revert Hrun.
  assert (forall e w, (user_write_failed e w).2 = w' -> False) as Hfail.
  { intros e w <-. apply user_write_failed_status in Hres. lia. }
  assert (forall r0 w, status r0 <> 200 -> responded r0 w = w' -> False) as Hother.
  { intros r0 w Hr0 <-. cbn in Hres. congruence. }
  unfold run, put_user, try_catch.
  rewrite bind_run.
  destruct (trimmed_cases (field "name" body) (request_on ts us)) as [[Hn ->]| ->];
    [|stopped Hfail Hother].
  rewrite bind_run.
  destruct (trimmed_cases (field "email" body) (request_on ts us)) as [[He ->]| ->];
    [|stopped Hfail Hother].
  cbn zeta. rewrite bind_run. unfold when_ at 1.
  destruct (_ || _) eqn:Hne; [stopped Hfail Hother|].
  apply orb_false_iff in Hne as [Hne1%String.eqb_neq Hne2%String.eqb_neq].
  rewrite ret_run, bind_run, User_findById_run. cbn [denotes].
  destruct (castObjectId id) as [uid|]; [|stopped Hfail Hother].
  cbn [users logged request_on].
  destruct (us !! uid) as [user|] eqn:Hu; [|stopped Hfail Hother].
  cbn [fmap option_fmap option_map].
  rewrite bind_run, User_findOne_email_run.
  rewrite bind_run. unfold when_ at 1.
  match goal with |- context [if ?b then _ else _] => destruct b end;
    [stopped Hfail Hother|].
  rewrite ret_run, bind_run.
  match goal with |- context [for_tasks_in ?l (unassign uid) ?w] =>
    destruct (for_tasks_in l (unassign uid) w) as [[[]| |e] w1] eqn:E1 end.
  - rewrite bind_run.
    match goal with |- context [for_tasks_in ?l (claim uid ?n) w1] =>
      destruct (for_tasks_in l (claim uid n) w1) as [[[]| |e] w2] eqn:E2 end.
    + rewrite bind_run, User_save_run, bind_run, User_findById_run.
      cbn [denotes users with_users logged]. rewrite lookup_insert_eq.
      intros <-. by exists uid, user, w1, w2.
    + apply quiet_for_tasks_in in E2 as [? _]; [done|apply quiet_claim].
    + stopped Hfail Hother.
  - apply quiet_for_tasks_in in E1 as [? _]; [done|apply quiet_unassign].
  - stopped Hfail Hother.
Qed.

(** C5: the user record a successful update leaves behind carries the
    trimmed name, the trimmed and lower-cased email (both non-empty) and the
    pending list of the request, element for element: the [String] of each
    element of the array sent, so the very strings when strings were sent. *)
Theorem put_user_persists_request (id : string) (body : list (string * json))
    (ts : gmap string Task) (us : gmap string User) (r : response) :
  let w' := run (put_user id body) (request_on ts us) in
  res w' = Some r ->
  status r = 200 ->
  exists uid u,
    castObjectId id = Some uid /\
    users w' !! uid = Some u /\
    data r = PUser None (uid, u) /\
    user_name u = text (field "name" body) /\ user_name u <> "" /\
    email u = toLowerCase (text (field "email" body)) /\ email u <> "" /\
    (forall l, field "pendingTasks" body = Some (JArr l) ->
               pendingTasks u = map String_ l) /\
    (forall l, field "pendingTasks" body = Some (JArr (map JStr l)) ->
               pendingTasks u = l).
Proof.
  intros w' Hres Hst.
  destruct (put_user_ok id body ts us r w' eq_refl Hres Hst)
    as (uid & user & w1 & w2 & Hid & Hu & Hn & He & Hn' & He' & E1 & E2 & Hw').
  cbn zeta in *. eexists uid, _. split; [done|].
  rewrite Hw' in Hres |- *. cbn in Hres. injection Hres as <-.
  cbn [users responded logged with_users]. rewrite lookup_insert_eq.
  split; [done|]. cbn [data user_name email pendingTasks].
  split_and!; try done.
  - by intros l ->.
  - intros l ->. cbn. rewrite map_map. cbn. apply map_id.
Qed.

(** *** Unassigning the tasks dropped from a pending list *)

Lemma unassign_run (uid tid : string) (t : Task) (w : world) :
  unassign uid (tid, t) w =
  (Value tt,
   with_users (alter (fun u => set_pending u (pull tid (pendingTasks u))) uid)
     (logged (OpUpdate Users)
        (with_tasks (insert tid (set_assigned t "" "unassigned"))
           (logged (OpSave Tasks) w)))).
Proof. reflexivity. Qed.

Lemma for_each_unassign (uid : string) (docs : list (string * Task)) :
  NoDup docs.*1 ->
  forall w w1,
    for_each (unassign uid) docs w = (Value tt, w1) ->
    (forall k t, (k, t) ∈ docs ->
                 tasks w1 !! k = Some (set_assigned t "" "unassigned")) /\
    (forall k, k ∉ docs.*1 -> tasks w1 !! k = tasks w !! k).
Proof.
  induction docs as [|[tid t] docs IH]; intros Hnd w w1.
  - intros [= <-]. split; [by intros k t ?%elem_of_nil|done].
  - cbn [for_each]. rewrite bind_run, unassign_run.
    apply NoDup_cons in Hnd as [Hfresh Hnd].
    intros [Hin Hout]%(IH Hnd). split.
    + intros k t' [[= -> ->]|Hk]%elem_of_cons; [|by apply Hin].
      rewrite Hout by done. cbn. apply lookup_insert_eq.
    + intros k [Hk1 Hk2]%not_elem_of_cons. rewrite Hout by done.
      cbn. by rewrite lookup_insert_ne.
Qed.

Lemma mapM_cast_elem (ids os : list string) (s o : string) :
  mapM castObjectId ids = Some os -> s ∈ ids -> castObjectId s = Some o -> o ∈ os.
Proof.
  intros H%mapM_Some Hs Ho.
  induction H as [|s' o' ids os Hc _ IH]; [by apply elem_of_nil in Hs|].
  apply elem_of_cons in Hs as [->|Hs].
  - rewrite Ho in Hc. injection Hc as <-. apply elem_of_cons. by left.
  - apply elem_of_cons. right. by apply IH.
Qed.

Lemma NoDup_found (os : list string) (ts : gmap string Task) :
  NoDup (filter (fun d : string * Task => d.1 ∈ os) (map_to_list ts)).*1.
Proof.
  eapply sublist_NoDup; [apply (NoDup_fst_map_to_list ts)|].
  apply fmap_sublist, sublist_filter.
Qed.

Lemma filter_not_in_nil (l : list string) : filter (fun i => i ∉ []) l = l.
Proof.
  induction l as [|x l IH]; [done|].
  rewrite filter_cons_True by apply not_elem_of_nil. by rewrite IH.
Qed.

(** After the removal phase, every stored task named by the list has lost
    its owner and nothing else of it changed. *)
Lemma for_tasks_in_unassign (uid : string) (ids : list string) (w w1 : world) :
  for_tasks_in ids (unassign uid) w = (Value tt, w1) ->
  forall s o t,
    s ∈ ids -> castObjectId s = Some o -> tasks w !! o = Some t ->
    tasks w1 !! o = Some (set_assigned t "" "unassigned").
Proof.
  unfold for_tasks_in, when_.
  case_bool_decide as Hnil; cbn [negb].
  { subst ids. by intros _ s o t ?%elem_of_nil. }
  rewrite bind_run, Task_find_in_run.
  destruct (mapM castObjectId ids) as [os|] eqn:Hos; [|done].
  intros [Hin _]%for_each_unassign s o t Hs Ho Ht; [|apply NoDup_found].
  apply Hin, list_elem_of_filter. split.
  - cbn. by eapply mapM_cast_elem.
  - by apply elem_of_map_to_list.
Qed.

(** C9: a user update that omits [pendingTasks], or sends anything but a
    list, takes the requested pending list as empty: once it has answered
    200, every stored task named by the user's previous pending list is
    unassigned (owner "", owner name "unassigned", the rest of the task as it
    was) and the user is stored with an empty pending list. *)
Theorem put_user_without_pending (id : string) (body : list (string * json))
    (ts : gmap string Task) (us : gmap string User) (r : response) :
  (forall l, field "pendingTasks" body <> Some (JArr l)) ->
  let w' := run (put_user id body) (request_on ts us) in
  res w' = Some r ->
  status r = 200 ->
  exists uid user u',
    castObjectId id = Some uid /\
    us !! uid = Some user /\
    (forall s o t,
        s ∈ pendingTasks user -> castObjectId s = Some o -> ts !! o = Some t ->
        exists t', tasks w' !! o = Some t' /\
                   t' = set_assigned t "" "unassigned" /\
                   assignedUser t' = "" /\ assignedUserName t' = "unassigned") /\
    users w' !! uid = Some u' /\
    pendingTasks u' = [].
Proof.
  intros Hnolist w' Hres Hst.
  destruct (put_user_ok id body ts us r w' eq_refl Hres Hst)
    as (uid & user & w1 & w2 & Hid & Hu & Hn & He & Hn' & He' & E1 & E2 & Hw').
  cbn zeta in *.
  assert (strings_or_empty (field "pendingTasks" body) = []) as Hempty.
  { destruct (field "pendingTasks" body) as [[]|]; try done. by edestruct Hnolist. }
  rewrite Hempty in *. cbn [filter list_filter] in E2. injection E2 as <-.
  rewrite filter_not_in_nil in E1.
  eexists uid, user, _. split_and!; [done|done| |by rewrite Hw'; apply lookup_insert_eq|done].
  intros s o t Hs Ho Ht. eexists. split; [|done].
  rewrite Hw'. cbn [tasks responded logged with_users].
  by eapply for_tasks_in_unassign.
Qed.

(** *** Pending-set updates *)

Definition add_pending (tid : string) (u : User) : User :=
  set_pending u (addToSet tid (pendingTasks u)).

Definition drop_pending (tid : string) (u : User) : User :=
  set_pending u (pull tid (pendingTasks u)).

(** The user stored under [k] has [tid] in its pending list. *)
Definition holds (us : gmap string User) (k tid : string) : Prop :=
  exists u, us !! k = Some u /\ tid ∈ pendingTasks u.

Lemma elem_of_addToSet (x y : string) (l : list string) :
  y ∈ addToSet x l <-> y = x \/ y ∈ l.
Proof.
  unfold addToSet. case_decide as Hx.
  - split; [auto|]. by intros [->|?].
  - rewrite elem_of_app, list_elem_of_singleton. tauto.
Qed.

Lemma elem_of_pull (x y : string) (l : list string) :
  y ∈ pull x l <-> y <> x /\ y ∈ l.
Proof. unfold pull. by rewrite list_elem_of_filter. Qed.

Lemma holds_add (us : gmap string User) (k k' tid : string) :
  holds (alter (add_pending tid) k us) k' tid <->
  holds us k' tid \/ (k' = k /\ is_Some (us !! k)).
Proof.
  unfold holds. rewrite lookup_alter. case_decide as Hk; [subst k'|].
  - destruct (us !! k) as [u|]; cbn.
    + split; [eauto|]. intros _. eexists. split; [done|].
      cbn. apply elem_of_addToSet. by left.
    + split; [by intros (? & ? & _)|]. intros [(? & ? & _)|[_ []]]; done.
  - split; [auto|]. intros [?|[? _]]; [done|congruence].
Qed.

Lemma holds_drop (us : gmap string User) (k k' tid : string) :
  holds (alter (drop_pending tid) k us) k' tid <-> holds us k' tid /\ k' <> k.
Proof.
  unfold holds. rewrite lookup_alter. case_decide as Hk; [subst k'|].
  - destruct (us !! k) as [u|]; cbn.
    + split; [|by intros [_ ?]].
      intros (? & [= <-] & Hin). cbn in Hin. apply elem_of_pull in Hin as [? _]. done.
    + split; [by intros (? & ? & _)|by intros [_ ?]].
  - split; [intros ?; split; [done|congruence]|by intros [? _]].
Qed.

Lemma is_Some_alter (us : gmap string User) (f : User -> User) (k k' : string) :
  is_Some (alter f k us !! k') <-> is_Some (us !! k').
Proof.
  rewrite lookup_alter. case_decide; [subst|done]. by rewrite fmap_is_Some.
Qed.

Lemma removePending_value (s tid : string) (w w1 : world) :
  s <> "" ->
  removePendingFromUser (RawId s) tid w = (Value tt, w1) ->
  exists k, castObjectId s = Some k /\ tasks w1 = tasks w /\
            users w1 = alter (drop_pending tid) k (users w).
Proof.
  intros Hs. unfold removePendingFromUser. cbn [falsy_ref].
  rewrite (eqb_empty_false _ Hs), User_findByIdAndUpdate_run. cbn [denotes].
  destruct (castObjectId s) as [k|]; [|done]. intros [= <-]. by exists k.
Qed.

Lemma addPending_value (s tid : string) (w w1 : world) :
  s <> "" ->
  addPendingToUser (RawId s) tid w = (Value tt, w1) ->
  exists k, castObjectId s = Some k /\ tasks w1 = tasks w /\
            users w1 = alter (add_pending tid) k (users w).
Proof.
  intros Hs. unfold addPendingToUser. cbn [falsy_ref].
  rewrite (eqb_empty_false _ Hs), User_findByIdAndUpdate_run. cbn [denotes].
  destruct (castObjectId s) as [k|]; [|done]. intros [= <-]. by exists k.
Qed.

Lemma sync_pending_value (s tid : string) (done_ : bool) (w w1 : world) :
  s <> "" ->
  sync_pending (RawId s) tid done_ w = (Value tt, w1) ->
  exists k, castObjectId s = Some k /\ tasks w1 = tasks w /\
            users w1 = alter (if done_ then drop_pending tid else add_pending tid)
                         k (users w).
Proof.
  intros Hs. unfold sync_pending. destruct done_; cbn [negb].
  - by apply removePending_value.
  - by apply addPending_value.
Qed.

Lemma castObjectId_nonempty (s o : string) : castObjectId s = Some o -> o <> "".
Proof.
  intros H%castObjectId_String ->. by rewrite castObjectId_empty in H.
Qed.

(** *** A task update that answers 200 *)

Lemma quiet_reconcile tid prev pc new nc : quiet (reconcile tid prev pc new nc).
Proof.
  apply quiet_bind; [apply quiet_when, quiet_removePendingFromUser|]. intros _.
  apply quiet_bind; [apply quiet_when, quiet_sync_pending|]. intros _.
  apply quiet_when. destruct (_ && _); [apply quiet_removePendingFromUser|].
  destruct (_ && _); [apply quiet_addPendingToUser|apply quiet_ret].
Qed.

Lemma assigned_user_cases (a : string) (w : world) :
  (a = "" /\ assigned_user a w = (Value None, w)) \/
  (a <> "" /\
   ((castObjectId a = None /\ assigned_user a w = (Throw CastError, w)) \/
    (exists uid, castObjectId a = Some uid /\
       match users w !! uid with
       | Some u =>
           assigned_user a w = (Value (Some (uid, u)), logged (OpFindById Users) w)
       | None =>
           assigned_user a w =
             (Return,
              responded (mkResponse 400 "Assigned user does not exist" PNull)
                (logged (OpFindById Users) w))
       end))).
Proof.
  unfold assigned_user. destruct (String.eqb a "") eqn:Ha; cbn [negb].
  - left. by apply String.eqb_eq in Ha.
  - right. split; [by apply String.eqb_neq|].
    rewrite bind_run, User_findById_run. cbn [denotes].
    destruct (castObjectId a) as [uid|]; [right|by left].
    exists uid. split; [done|]. cbn [users logged].
    by destruct (users w !! uid).
Qed.

Lemma put_task_ok (id : string) (body : list (string * json))
    (ts : gmap string Task) (us : gmap string User) (r : response) (w' : world) :
  run (put_task id body) (request_on ts us) = w' ->
  res w' = Some r ->
  status r = 200 ->
  exists tid t t' w0 wc,
    let a := string_or_empty (field "assignedUser" body) in
    castObjectId id = Some tid /\
    ts !! tid = Some t /\
    completed t' = bool_or_false (field "completed" body) /\
    ((a = "" /\ assignedUser t' = "") \/
     (a <> "" /\ castObjectId a = Some (assignedUser t') /\
      is_Some (us !! assignedUser t'))) /\
    tasks w0 = <[tid := t']> ts /\ users w0 = us /\
    reconcile tid (assignedUser t) (completed t) (assignedUser t') (completed t') w0
      = (Value tt, wc) /\
    tasks w' = tasks wc /\ users w' = users wc.
Proof.
  intros Hrun Hres Hst. revert Hrun.
  assert (forall (e : exn) (w : world), False -> False) as Hfail by done.
  assert (forall r0 w, status r0 <> 200 -> responded r0 w = w' -> False) as Hother.
  { intros r0 w Hr0 <-. cbn in Hres. congruence. }
  unfold run, put_task, try_catch.
  rewrite bind_run.
  destruct (trimmed_cases (field "name" body) (request_on ts us)) as [[Hn ->]| ->];
    [|stopped Hfail Hother].
  destruct (valid_deadline _) as [d|]; [|stopped Hfail Hother].
  rewrite bind_run. unfold when_ at 1.
  destruct (String.eqb _ ""); [stopped Hfail Hother|].
  rewrite ret_run, bind_run, Task_findById_run. cbn [denotes].
  destruct (castObjectId id) as [tid|]; [|stopped Hfail Hother].
  cbn [tasks logged request_on].
  destruct (ts !! tid) as [t|] eqn:Ht; [|stopped Hfail Hother].
  cbn [fmap option_fmap option_map].
  set (a := string_or_empty (field "assignedUser" body)).
  set (t0 := mkTask _ _ _ _ _ _ _).
  rewrite bind_run.
  destruct (assigned_user_cases a (logged (OpFindById Tasks) (request_on ts us)))
    as [[Ha ->]|[Ha [[Hc ->]|(uid & Hc & E)]]]; [|stopped Hfail Hother|].
  - cbv beta iota zeta. set (t' := set_assigned t0 "" "unassigned").
    rewrite bind_run, Task_save_run, bind_run.
    match goal with |- context [reconcile ?i ?p ?pc ?n ?nc ?w] =>
      destruct (reconcile i p pc n nc w) as [[[]| |e] wc] eqn:Ec;
      [|by apply quiet_reconcile in Ec as [? _]|stopped Hfail Hother] end.
    rewrite bind_run, Task_findById_run; cbn [denotes]. intros <-.
    eexists tid, t, t', _, wc; cbn zeta.
    split_and!; [| | | | | |exact Ec| |];
      [done|done|done|by left|reflexivity|reflexivity|done|done].
  - cbn [users logged request_on] in E.
    destruct (us !! uid) as [u|] eqn:Hu; rewrite E; [|stopped Hfail Hother].
    cbv beta iota zeta. set (t' := set_assigned t0 uid (user_name u)).
    rewrite bind_run, Task_save_run, bind_run.
    match goal with |- context [reconcile ?i ?p ?pc ?n ?nc ?w] =>
      destruct (reconcile i p pc n nc w) as [[[]| |e] wc] eqn:Ec;
      [|by apply quiet_reconcile in Ec as [? _]|stopped Hfail Hother] end.
    rewrite bind_run, Task_findById_run; cbn [denotes]. intros <-.
    eexists tid, t, t', _, wc; cbn zeta.
    split_and!; [| | | | | |exact Ec| |];
      [done|done|done| |reflexivity|reflexivity|done|done].
    right. split; [done|]. split; [done|]. by exists u.
Qed.

Lemma when_run (b : bool) (m : M unit) (w : world) :
  when_ b m w = if b then m w else (Value tt, w).
Proof. by destruct b. Qed.

(** What [reconcile] leaves behind when it runs to its end, for a new owner
    that is empty or an identifier in its string form. *)
Lemma reconcile_value (tid prev new : string) (pc nc : bool) (w wc : world) :
  reconcile tid prev pc new nc w = (Value tt, wc) ->
  new = "" \/ castObjectId new = Some new ->
  tasks wc = tasks w /\
  (new <> "" -> is_Some (users w !! new) ->
   (holds (users wc) new tid <-> nc = false)) /\
  (forall po, prev <> "" -> castObjectId prev = Some po -> po <> new ->
              ~ holds (users wc) po tid).
Proof.
  unfold reconcile. intros Hrun Hnew.
  rewrite bind_run, when_run in Hrun.
  destruct (String.eqb prev "") eqn:Hp; cbn [negb andb] in Hrun;
    [apply String.eqb_eq in Hp|apply String.eqb_neq in Hp];
  (destruct (String.eqb prev new) eqn:Hpn; cbn [negb andb] in Hrun;
    [apply String.eqb_eq in Hpn|apply String.eqb_neq in Hpn]);
  try (destruct (removePendingFromUser (RawId prev) tid w) as [[[]| |?] wa] eqn:Ea;
       [apply removePending_value in Ea as (ka & Hka & Hta & Hua); [|done]
       |done|done]);
  rewrite bind_run, when_run in Hrun;
  (destruct (String.eqb new "") eqn:Hn; cbn [negb andb] in Hrun;
    [apply String.eqb_eq in Hn|apply String.eqb_neq in Hn]);
  try (match type of Hrun with context [sync_pending ?r tid nc ?w0] =>
         destruct (sync_pending r tid nc w0) as [[[]| |?] wb] eqn:Eb;
         [apply sync_pending_value in Eb as (kb & Hkb & Htb & Hub); [|done]
         |done|done] end);
  rewrite when_run in Hrun; cbn [negb andb] in Hrun;
  destruct pc, nc; cbn [negb andb] in Hrun;
  try (apply removePending_value in Hrun as (kc & Hkc & Htc & Huc); [|done]);
  try (apply addPending_value in Hrun as (kc & Hkc & Htc & Huc); [|done]);
  try (injection Hrun as <-);
  destruct Hnew as [Hnew|Hnew]; try done;
  (split; [congruence|]);
  repeat match goal with
         | H : users _ = _ |- _ => rewrite H; clear H
         end;
  (split; [intros Hnn Hex|intros po _ Hpo Hne]);
  rewrite ?holds_add, ?holds_drop, ?is_Some_alter;
  simplify_eq; try (rewrite castObjectId_empty in *; simplify_eq);
  try solve [intuition congruence].
Qed.

(** The task [tid] is in the pending list of the user that the owner string
    [owner] refers to. *)
Definition pending_under (w : world) (owner tid : string) : Prop :=
  exists o, castObjectId owner = Some o /\ holds (users w) o tid.

(** C4: after a task update that answered 200, with [t] the task before and
    [t'] the task after: the task is in the new owner's pending list exactly
    when there is a new owner and the task is not completed; when there was
    a previous owner and it is another user than the new one, the task is
    not in the previous owner's pending list; in particular a task
    reassigned from A to B and not completed is out of A's list and in
    B's. *)
Theorem put_task_reconciles (id : string) (body : list (string * json))
    (ts : gmap string Task) (us : gmap string User) (r : response) :
  let w' := run (put_task id body) (request_on ts us) in
  res w' = Some r ->
  status r = 200 ->
  exists tid t t',
    castObjectId id = Some tid /\
    ts !! tid = Some t /\
    tasks w' !! tid = Some t' /\
    completed t' = bool_or_false (field "completed" body) /\
    (pending_under w' (assignedUser t') tid <->
       assignedUser t' <> "" /\ completed t' = false) /\
    (assignedUser t <> "" ->
     castObjectId (assignedUser t) <> castObjectId (assignedUser t') ->
     ~ pending_under w' (assignedUser t) tid) /\
    (forall A B,
        castObjectId (assignedUser t) = Some A ->
        castObjectId (assignedUser t') = Some B ->
        A <> B ->
        completed t' = false ->
        ~ holds (users w') A tid /\ holds (users w') B tid).
Proof.
  intros w' Hres Hst.
  destruct (put_task_ok id body ts us r w' eq_refl Hres Hst)
    as (tid & t & t' & w0 & wc & Hid & Ht & Hc & Ha & Hts & Hus & Hrec & Htw & Huw).
  cbn zeta in Ha.
  assert (assignedUser t' = "" \/ castObjectId (assignedUser t') = Some (assignedUser t'))
    as Hnew.
  { destruct Ha as [[_ ?]|(_ & ?%castObjectId_String & _)]; auto. }
  assert (assignedUser t' <> "" -> is_Some (users w0 !! assignedUser t')) as Hex.
  { rewrite Hus. destruct Ha as [[_ ?]|(_ & _ & ?)]; done. }
  destruct (reconcile_value _ _ _ _ _ _ _ Hrec Hnew) as (Htc & Hown & Hprev).
  assert (pending_under w' (assignedUser t') tid <->
          assignedUser t' <> "" /\ completed t' = false) as H1.
  { unfold pending_under. rewrite Huw. split.
    - intros (o & Ho & Hh).
      destruct Hnew as [Hnew|Hnew]; [by rewrite Hnew, castObjectId_empty in Ho|].
      assert (assignedUser t' <> "") as Hne by by eapply castObjectId_nonempty.
      rewrite Hnew in Ho. injection Ho as <-. split; [done|]. by apply Hown; auto.
    - intros [Hne Hcf]. destruct Hnew as [Hnew|Hnew]; [done|].
      exists (assignedUser t'). split; [done|]. by apply Hown; auto. }
  assert (forall po, assignedUser t <> "" -> castObjectId (assignedUser t) = Some po ->
             castObjectId (assignedUser t) <> castObjectId (assignedUser t') ->
             ~ holds (users w') po tid) as H2.
  { intros po Hne Hpo Hdiff. rewrite Huw. apply Hprev; [done..|].
    intros ->. destruct Hnew as [Hnew|Hnew]; [|congruence].
    by apply castObjectId_nonempty in Hpo. }
  exists tid, t, t'. split_and!; [done|done| |done|done| |].
  - by rewrite Htw, Htc, Hts, lookup_insert_eq.
  - intros Hne Hdiff (po & Hpo & Hh). by eapply H2.
  - intros A B HA HB HAB Hcf. split.
    + apply H2; [|done|congruence]. intros E. by rewrite E, castObjectId_empty in HA.
    + assert (assignedUser t' <> "") as Hne.
      { intros E. by rewrite E, castObjectId_empty in HB. }
      destruct (proj2 H1 (conj Hne Hcf)) as (o & Ho & Hh). congruence.
Qed.

(** *** Creating a task *)

Lemma Task_create_run (o : string) (t : Task) (w : world) :
  Task_create o t w =
  match tasks w !! o with
  | Some _ => (Throw DuplicateKey, logged (OpInsert Tasks) w)
  | None => (Value tt, with_tasks (insert o t) (logged (OpInsert Tasks) w))
  end.
Proof.
  unfold Task_create, mbind, M_bind, op, gets, modify. cbn.
  by destruct (tasks w !! o).
Qed.

Lemma count_occ_addToSet (x : string) (l : list string) :
  (count_occ string_dec l x <= 1)%nat ->
  count_occ string_dec (addToSet x l) x = 1%nat.
Proof.
  unfold addToSet. case_decide as Hx.
  - apply list_elem_of_In, (count_occ_In string_dec) in Hx. lia.
  - intros _. rewrite count_occ_app. cbn.
    rewrite list_elem_of_In, (count_occ_not_In string_dec) in Hx.
    rewrite Hx. by destruct (string_dec x x).
Qed.

(** C6: after a task creation that answered 201 with a non-empty
    [assignedUser], that string is the identifier of an existing user U and
    the new task is stored under the fresh [oid]; if it is not completed,
    U's pending list is the old one with [oid] added as to a set, so [oid]
    occurs in it, and exactly once unless it occurred several times before;
    if it is completed, [oid] is not in U's pending list. *)
Theorem post_tasks_pending (oid : string) (now : Z) (body : list (string * json))
    (ts : gmap string Task) (us : gmap string User) (r : response) :
  let w' := run (post_tasks oid now body) (request_on ts us) in
  let a := string_or_empty (field "assignedUser" body) in
  let c := bool_or_false (field "completed" body) in
  res w' = Some r ->
  status r = 201 ->
  a <> "" ->
  exists uo u u' t',
    castObjectId a = Some uo /\ us !! uo = Some u /\ users w' !! uo = Some u' /\
    ts !! oid = None /\ tasks w' !! oid = Some t' /\
    assignedUser t' = a /\ completed t' = c /\
    (c = false ->
       pendingTasks u' = addToSet oid (pendingTasks u) /\
       oid ∈ pendingTasks u' /\
       ((count_occ string_dec (pendingTasks u) oid <= 1)%nat ->
        count_occ string_dec (pendingTasks u') oid = 1%nat)) /\
    (c = true -> oid ∉ pendingTasks u').
Proof.
  intros w' a c Hres Hst Ha. subst w'. revert Hres.
  generalize (eq_refl (run (post_tasks oid now body) (request_on ts us))).
  generalize (run (post_tasks oid now body) (request_on ts us)) at 2 3 4 5 as w'.
  intros w' Hrun Hres. revert Hrun.
  assert (forall (e : exn) (w : world), False -> False) as Hfail by done.
  assert (forall r0 w, status r0 <> 201 -> responded r0 w = w' -> False) as Hother.
  { intros r0 w Hr0 <-. cbn in Hres. congruence. }
  unfold run, post_tasks, try_catch.
  rewrite bind_run.
  destruct (trimmed_cases (field "name" body) (request_on ts us)) as [[Hn ->]| ->];
    [|stopped Hfail Hother].
  destruct (valid_deadline _) as [d|]; [|stopped Hfail Hother].
  rewrite bind_run. unfold when_ at 1.
  destruct (String.eqb _ ""); [stopped Hfail Hother|].
  rewrite ret_run. cbv zeta. fold a c. rewrite bind_run.
  destruct (assigned_user_cases a (request_on ts us))
    as [[Ha' _]|[_ [[Hc ->]|(uid & Hc & E)]]]; [done|stopped Hfail Hother|].
  cbn [users logged request_on] in E.
  destruct (us !! uid) as [u|] eqn:Hu; rewrite E; [|stopped Hfail Hother].
  cbv beta iota. rewrite bind_run, Task_create_run. cbn [tasks logged request_on].
  destruct (ts !! oid) eqn:Hfresh; [stopped Hfail Hother|].
  rewrite bind_run, when_run, (eqb_empty_false _ Ha). cbn [negb].
  match goal with |- context [sync_pending ?x oid c ?w] =>
    destruct (sync_pending x oid c w) as [[[]| |e] w1] eqn:Es;
    [|by apply quiet_sync_pending in Es as [? _]|stopped Hfail Hother] end.
  apply sync_pending_value in Es as (k & Hk & Ht1 & Hu1); [|done].
  assert (k = uid) as -> by congruence.
  rewrite bind_run, Task_findById_run. cbn [denotes].
  unfold created. rewrite send_run. intros <-.
  cbn [users tasks responded logged with_tasks with_users request_on snd] in *.
  eexists uid, u, _, _.
  rewrite Hu1, Ht1, lookup_alter, decide_True, Hu, lookup_insert_eq by done.
  split_and!; [done|done|reflexivity|done|reflexivity|done|done| |].
  - intros Hcf. rewrite Hcf. cbn. split; [done|]. split.
    + apply elem_of_addToSet. by left.
    + apply count_occ_addToSet.
  - intros Hct. rewrite Hct. cbn. intros [? _]%elem_of_pull. done.
Qed.

(** *** Claiming tasks for a user *)

Lemma holds_alter (us : gmap string User) (f : User -> User) (k k' x : string) :
  holds (alter f k us) k' x <->
  (k' <> k /\ holds us k' x) \/
  (k' = k /\ exists u, us !! k = Some u /\ x ∈ pendingTasks (f u)).
Proof.
  unfold holds. rewrite lookup_alter. case_decide as Hk; [subst k'|].
  - destruct (us !! k) as [u|]; cbn.
    + split.
      * intros (? & [= <-] & Hx). right. eauto.
      * intros [[? _]|(_ & ? & [= <-] & Hx)]; [done|eauto].
    + split; [by intros (? & ? & _)|]. by intros [[? _]|(_ & ? & ? & _)].
  - split; [intros ?; left; split; [congruence|done]|].
    intros [[_ ?]|[? _]]; [done|congruence].
Qed.

(** What a pending-set update leaves alone. *)
Definition identity_of (u : User) : string * string := (user_name u, email u).

Lemma identity_alter (us : gmap string User) (f : list string -> list string) (k : string) :
  identity_of <$> alter (fun u => set_pending u (f (pendingTasks u))) k us
  = identity_of <$> us.
Proof.
  apply map_eq. intros k'. rewrite !lookup_fmap, lookup_alter.
  case_decide; [subst|done]. by destruct (us !! k').
Qed.

(** A task whose owner string is empty or a well-formed identifier. *)
Definition owner_well_formed (t : Task) : Prop :=
  assignedUser t = "" \/ is_Some (castObjectId (assignedUser t)).

(** One claim runs to its end on such a task; it keeps every user's name and
    email and adds at most [tid], and only to [uid]'s pending list. *)
Lemma claim_value (uid uname tid : string) (t : Task) (w : world) :
  owner_well_formed t ->
  exists w',
    claim uid uname (tid, t) w = (Value tt, w') /\
    res w' = res w /\
    identity_of <$> users w' = identity_of <$> users w /\
    (forall k x, holds (users w') k x ->
                 holds (users w) k x \/ (k = uid /\ x = tid)).
Proof.
  intros Hwf. unfold claim. rewrite bind_run, when_run.
  set (b := negb _ && negb _).
  assert (exists w1,
    (if b then removePendingFromUser (RawId (assignedUser t)) tid w
     else (Value tt, w)) = (Value tt, w1) /\ res w1 = res w /\
    identity_of <$> users w1 = identity_of <$> users w /\
    (forall k x, holds (users w1) k x -> holds (users w) k x))
    as (w1 & -> & Hres1 & Hex1 & Hh1).
  { destruct b eqn:Hb; [|by exists w].
    apply andb_true_iff in Hb as [Hne%negb_true_iff%String.eqb_neq _].
    destruct Hwf as [?|[po Hpo]]; [done|].
    unfold removePendingFromUser. cbn [falsy_ref].
    rewrite (eqb_empty_false _ Hne), User_findByIdAndUpdate_run. cbn [denotes].
    rewrite Hpo. eexists. split; [reflexivity|]. cbn. split; [done|]. split.
    - apply identity_alter.
    - intros k x [[_ ?]|(-> & u & Hu & Hx)]%holds_alter; [done|].
      cbn in Hx. apply elem_of_pull in Hx as [_ Hx]. by exists u. }
  rewrite bind_run, Task_save_run.
  unfold sync_pending, addPendingToUser, removePendingFromUser. cbn [falsy_ref].
  destruct (negb (completed (set_assigned t uid uname)));
    (eexists; split; [rewrite User_findByIdAndUpdate_run; reflexivity|]);
    cbn; (split; [done|]); split.
  - by rewrite identity_alter.
  - intros k x [[_ ?]|(-> & u & Hu & Hx)]%holds_alter; [auto|].
    cbn in Hx. apply elem_of_addToSet in Hx as [->|Hx]; [auto|].
    left. apply Hh1. by exists u.
  - by rewrite identity_alter.
  - intros k x [[_ ?]|(-> & u & Hu & Hx)]%holds_alter; [auto|].
    cbn in Hx. apply elem_of_pull in Hx as [_ Hx].
    left. apply Hh1. by exists u.
Qed.

Lemma for_each_claim (uid uname : string) (docs : list (string * Task)) :
  Forall (fun d => owner_well_formed d.2) docs ->
  forall w, exists w',
    for_each (claim uid uname) docs w = (Value tt, w') /\
    res w' = res w /\
    identity_of <$> users w' = identity_of <$> users w /\
    (forall k x, holds (users w') k x ->
                 holds (users w) k x \/ (k = uid /\ x ∈ docs.*1)).
Proof.
  induction 1 as [|[tid t] docs Hd _ IH]; intros w.
  - exists w. split_and!; auto.
  - cbn [for_each]. rewrite bind_run.
    destruct (claim_value uid uname tid t w Hd) as (w1 & -> & Hres1 & Hex1 & Hh1).
    destruct (IH w1) as (w' & -> & Hres' & Hex' & Hh').
    exists w'. split_and!; [done|congruence|congruence|].
    intros k x [[?|[-> ->]]%Hh1|[-> ?]]%Hh'; cbn; rewrite ?elem_of_cons; auto.
Qed.

(** The claiming phase runs to its end when the requested identifiers are
    well formed and so are the owners of the stored tasks; what it adds to a
    pending list are identifiers of stored tasks named by the request. *)
Lemma for_tasks_in_claim (uid uname : string) (ids : list string) (w : world) :
  Forall (fun s => is_Some (castObjectId s)) ids ->
  (forall k t, tasks w !! k = Some t -> owner_well_formed t) ->
  exists w',
    for_tasks_in ids (claim uid uname) w = (Value tt, w') /\
    res w' = res w /\
    identity_of <$> users w' = identity_of <$> users w /\
    (forall k x, holds (users w') k x ->
       holds (users w) k x \/
       (k = uid /\ is_Some (tasks w !! x) /\
        exists s, s ∈ ids /\ castObjectId s = Some x)).
Proof.
  intros Hids Hwf. unfold for_tasks_in. rewrite when_run.
  case_bool_decide; cbn [negb]; [exists w; split_and!; auto|].
  rewrite bind_run, Task_find_in_run.
  destruct (mapM_is_Some_2 castObjectId ids Hids) as [os Hos]. rewrite Hos.
  set (docs := filter _ _).
  assert (forall k t, (k, t) ∈ docs -> tasks w !! k = Some t /\ k ∈ os) as Hdocs.
  { intros k t [Hk Hkt%elem_of_map_to_list]%list_elem_of_filter. done. }
  destruct (for_each_claim uid uname docs) with (w := logged (OpFind Tasks) w)
    as (w' & -> & Hres' & Hex' & Hh').
  { apply Forall_forall. intros [k t] [Ht _]%Hdocs. by eapply Hwf. }
  exists w'. split_and!; [done|done|done|].
  intros k x [?|[-> Hx]]%Hh'; [by left|right].
  apply list_elem_of_fmap in Hx as ([k t] & -> & [Ht Hk]%Hdocs). cbn.
  split_and!; [done|by exists t|].
  apply mapM_Some in Hos. clear -Hos Hk.
  induction Hos as [|s o ids os Hso _ IH]; [by apply elem_of_nil in Hk|].
  apply elem_of_cons in Hk as [->|Hk].
  - exists s. split; [apply elem_of_cons; by left|done].
  - destruct (IH Hk) as (s' & ? & ?). exists s'. split; [apply elem_of_cons; by right|done].
Qed.

(** *** Creating a user *)

Lemma User_create_run (o : string) (u : User) (w : world) :
  User_create o u w =
  match users w !! o with
  | Some _ => (Throw DuplicateKey, logged (OpInsert Users) w)
  | None => (Value tt, with_users (insert o u) (logged (OpInsert Users) w))
  end.
Proof.
  unfold User_create, mbind, M_bind, op, gets, modify. cbn.
  by destruct (users w !! o).
Qed.

Lemma no_user_with_email (e : string) (us : gmap string User) :
  (forall k u, us !! k = Some u -> email u <> e) ->
  head (filter (fun d : string * User => email d.2 = e) (map_to_list us)) = None.
Proof.
  intros Hnone. apply head_None.
  destruct (filter _ _) as [|[k u] l] eqn:E; [done|].
  assert ((k, u) ∈ filter (fun d : string * User => email d.2 = e) (map_to_list us))
    as [He Hin%elem_of_map_to_list]%list_elem_of_filter
    by (rewrite E; apply elem_of_cons; by left).
  by edestruct Hnone.
Qed.

(** A user creation with a valid name and a free email, whose
    [pendingTasks] are well-formed identifiers, succeeds whether or not they
    name stored tasks (the store being one whose tasks have a well-formed
    owner, and [oid] a fresh identifier): it answers 201 with the created
    user, whose pending list holds identifiers of stored tasks only; so an
    identifier of the request that names no stored task is not in it. *)
Lemma post_users_unknown_tasks (oid : string) (body : list (string * json))
    (ts : gmap string Task) (us : gmap string User) :
  let name := text (field "name" body) in
  let email_ := toLowerCase (text (field "email" body)) in
  let pending := strings_or_empty (field "pendingTasks" body) in
  string_like (field "name" body) ->
  string_like (field "email" body) ->
  name <> "" ->
  email_ <> "" ->
  (forall k u, us !! k = Some u -> email u <> email_) ->
  us !! oid = None ->
  Forall (fun s => is_Some (castObjectId s)) pending ->
  (forall k t, ts !! k = Some t -> owner_well_formed t) ->
  let w' := run (post_users oid body) (request_on ts us) in
  exists u',
    res w' = Some (mkResponse 201 "Created" (PUser None (oid, u'))) /\
    users w' !! oid = Some u' /\
    user_name u' = name /\ email u' = email_ /\
    (forall x, x ∈ pendingTasks u' -> is_Some (ts !! x)) /\
    (forall s o, s ∈ pending -> castObjectId s = Some o -> ts !! o = None ->
                 (o ∉ pendingTasks u') /\ (s ∉ pendingTasks u')).
Proof.
  intros name email_ pending Hn He Hname Hemail Hfree Hfresh Hids Hwf w'.
  set (us1 := <[oid := mkUser name email_ []]> us).
  assert (exists w2,
    w' = responded
           (mkResponse 201 "Created" (user_payload (fmap (pair oid) (users w2 !! oid))))
           (logged (OpFindById Users) w2) /\
    identity_of <$> users w2 = identity_of <$> us1 /\
    (forall k x, holds (users w2) k x ->
       holds us1 k x \/
       (k = oid /\ is_Some (ts !! x) /\
        exists s, s ∈ pending /\ castObjectId s = Some x)))
    as (w2 & Hw' & Hid & Hh).
  { subst w'. unfold run, post_users, try_catch.
    rewrite bind_run, trimmed_run by done.
    rewrite bind_run, trimmed_run by done.
    cbv zeta. fold name email_ pending.
    rewrite bind_run, when_run.
    rewrite (eqb_empty_false _ Hname), (eqb_empty_false _ Hemail). cbn [orb].
    rewrite bind_run, User_findOne_email_run. cbn [users logged request_on].
    rewrite (no_user_with_email _ _ Hfree).
    rewrite bind_run, when_run, bind_run, User_create_run.
    cbn [users logged request_on]. rewrite Hfresh.
    rewrite bind_run.
    match goal with |- context [for_tasks_in pending ?f ?w] =>
      destruct (for_tasks_in_claim oid name pending w Hids)
        as (w2 & -> & Hres2 & Hex2 & Hh2); [exact Hwf|] end.
    rewrite bind_run, User_findById_run. cbn [denotes].
    exists w2. split; [reflexivity|]. split; [exact Hex2|exact Hh2]. }
  assert (exists u', users w2 !! oid = Some u' /\ identity_of u' = (name, email_))
    as (u' & Hu' & Hident).
  { apply (f_equal (fun m => m !! oid)) in Hid.
    rewrite !lookup_fmap in Hid. unfold us1 in Hid. rewrite lookup_insert_eq in Hid.
    destruct (users w2 !! oid) as [u'|]; [|done]. exists u'. split; [done|].
    unfold identity_of in *. cbn in Hid. congruence. }
  assert (forall x, x ∈ pendingTasks u' ->
            is_Some (ts !! x) /\ exists s, s ∈ pending /\ castObjectId s = Some x)
    as Hpend.
  { intros x Hx. destruct (Hh oid x) as [(u0 & Hu0 & Hx0)|(_ & ? & ?)]; [by exists u'| |done].
    unfold us1 in Hu0. rewrite lookup_insert_eq in Hu0. injection Hu0 as <-.
    by apply elem_of_nil in Hx0. }
  exists u'. rewrite Hw'. cbn [res users responded logged]. rewrite Hu'.
  injection Hident as Hn' He'.
  split_and!; [done|done|done|done| |].
  - intros x Hx. by apply Hpend.
  - intros s o Hs Ho Hnone. split.
    + intros [[t Ht] _]%Hpend. congruence.
    + intros [[t Ht] (s' & _ & Hs')]%Hpend.
      apply castObjectId_String in Hs'. congruence.
Qed.

(** [Task.find({ _id: { $in: ids } })] raises as soon as one entry is no
    identifier, and the phase stops there. *)
Lemma for_tasks_in_malformed (ids : list string) (f : string * Task -> M unit)
    (s : string) (w : world) :
  s ∈ ids -> castObjectId s = None -> for_tasks_in ids f w = (Throw CastError, w).
Proof.
  intros Hs Hcast. unfold for_tasks_in. rewrite when_run.
  case_bool_decide as Hnil; [rewrite Hnil in Hs; by apply elem_of_nil in Hs|].
  cbn [negb]. rewrite bind_run, Task_find_in_run.
  destruct (mapM castObjectId ids) as [os|] eqn:Hos; [|reflexivity].
  exfalso. clear Hnil. apply mapM_Some in Hos.
  induction Hos as [|s' o ids os Hc _ IH]; [by apply elem_of_nil in Hs|].
  apply elem_of_cons in Hs as [->|Hs]; [congruence|by apply IH].
Qed.

(** C10, where the code breaks it: a user creation (valid name, free
    email, fresh [oid]) whose [pendingTasks] hold identifiers of no
    existing task succeeds, with those identifiers absent from the created
    user's list, only when every entry is a well-formed identifier. An
    entry that is not one references no task either, yet the creation then
    answers 500 Internal instead of succeeding, and the user stays stored
    all the same, with an empty list: the lookup of the tasks raises after
    the user was saved. *)
Theorem post_users_dangling_tasks (oid : string) (body : list (string * json))
    (ts : gmap string Task) (us : gmap string User) :
  let name := text (field "name" body) in
  let email_ := toLowerCase (text (field "email" body)) in
  let pending := strings_or_empty (field "pendingTasks" body) in
  string_like (field "name" body) ->
  string_like (field "email" body) ->
  name <> "" ->
  email_ <> "" ->
  (forall k u, us !! k = Some u -> email u <> email_) ->
  us !! oid = None ->
  let w' := run (post_users oid body) (request_on ts us) in
  (Forall (fun s => is_Some (castObjectId s)) pending ->
   (forall k t, ts !! k = Some t -> owner_well_formed t) ->
   exists u',
     res w' = Some (mkResponse 201 "Created" (PUser None (oid, u'))) /\
     users w' !! oid = Some u' /\
     (forall s o, s ∈ pending -> castObjectId s = Some o -> ts !! o = None ->
                  (o ∉ pendingTasks u') /\ (s ∉ pendingTasks u'))) /\
  (forall s, s ∈ pending -> castObjectId s = None ->
     res w' ≫= error_of = Some Internal /\
     (forall r, res w' = Some r -> status r <> 201) /\
     users w' = <[oid := mkUser name email_ []]> us /\
     tasks w' = ts).
Proof.
  intros name email_ pending Hn He Hname Hemail Hfree Hfresh w'. split.
  - intros Hids Hwf.
    destruct (post_users_unknown_tasks oid body ts us Hn He Hname Hemail Hfree Hfresh
                Hids Hwf) as (u' & Hres & Hu' & _ & _ & _ & Habsent).
    exists u'. split_and!; [exact Hres|exact Hu'|exact Habsent].
  - intros s Hs Hcast.
    assert (w' = mkWorld ts (<[oid := mkUser name email_ []]> us)
                   [OpFindOne Users; OpInsert Users]
                   (Some (mkResponse 500 "Server error" PNull))) as ->.
    { subst w'. unfold run, post_users, try_catch.
      rewrite bind_run, trimmed_run by done.
      rewrite bind_run, trimmed_run by done.
      cbv zeta. fold name email_ pending.
      rewrite bind_run, when_run.
      rewrite (eqb_empty_false _ Hname), (eqb_empty_false _ Hemail). cbn [orb].
      rewrite bind_run, User_findOne_email_run. cbn [users logged request_on].
      rewrite (no_user_with_email _ _ Hfree).
      rewrite bind_run, when_run, bind_run, User_create_run.
      cbn [users logged request_on]. rewrite Hfresh.
      rewrite bind_run, (for_tasks_in_malformed _ _ s) by done.
      reflexivity. }
    cbn [res tasks users]. split_and!; [done| |done|done].
    intros r [= <-]. done.
Qed.

(** *** The invariant I2 and the user update *)

(** I2 of the specification: a task that has no owner, or is completed, is in
    no user's pending list. *)
Definition I2 (ts : gmap string Task) (us : gmap string User) : Prop :=
  forall tid t,
    ts !! tid = Some t ->
    assignedUser t = "" \/ completed t = true ->
    forall k u, us !! k = Some u -> tid ∉ pendingTasks u.

(** A callback over found tasks that at most rewrites the owner of its
    task. *)
Definition touches_owner_only (f : string * Task -> M unit) : Prop :=
  forall tid t w o w1,
    f (tid, t) w = (o, w1) ->
    tasks w1 = tasks w \/
    exists a b, tasks w1 = <[tid := set_assigned t a b]> (tasks w).

Lemma unassign_touches_owner_only (uid : string) : touches_owner_only (unassign uid).
Proof.
  intros tid t w o w1. rewrite unassign_run. intros [= <- <-]. right.
  by eexists _, _.
Qed.

Lemma claim_touches_owner_only (uid uname : string) :
  touches_owner_only (claim uid uname).
Proof.
  intros tid t w o w1. unfold claim. rewrite bind_run, when_run.
  assert (forall wa, (Task_save tid (set_assigned t uid uname) ;;
                      sync_pending (Oid uid) tid (completed (set_assigned t uid uname))) wa =
                     (o, w1) ->
                     tasks w1 = <[tid := set_assigned t uid uname]> (tasks wa)) as Hrest.
  { intros wa. rewrite bind_run, Task_save_run.
    unfold sync_pending, addPendingToUser, removePendingFromUser. cbn [falsy_ref].
    destruct (negb _); rewrite User_findByIdAndUpdate_run; cbn [denotes];
      by intros [= <- <-]. }
  destruct (_ && _).
  - unfold removePendingFromUser. cbn [falsy_ref].
    destruct (String.eqb _ ""); [|rewrite User_findByIdAndUpdate_run; cbn [denotes]].
    + rewrite ret_run. intros ->%Hrest. right. by eexists _, _.
    + destruct (castObjectId _); [|intros [= <- <-]; by left].
      intros ->%Hrest. right. by eexists _, _.
  - intros ->%Hrest. right. by eexists _, _.
Qed.

Lemma for_each_completion (f : string * Task -> M unit) (docs : list (string * Task)) :
  touches_owner_only f ->
  forall w o w1,
    (forall tid t, (tid, t) ∈ docs ->
                   (completed <$> tasks w) !! tid = Some (completed t)) ->
    for_each f docs w = (o, w1) ->
    completed <$> tasks w1 = completed <$> tasks w.
Proof.
  intros Hf. induction docs as [|[tid t] docs IH]; intros w o w1 Hdocs.
  - by intros [= <- <-].
  - cbn [for_each]. rewrite bind_run.
    destruct (f (tid, t) w) as [o1 wa] eqn:E.
    assert (completed <$> tasks wa = completed <$> tasks w) as Hwa.
    { destruct (Hf _ _ _ _ _ E) as [->|(a & b & ->)]; [done|].
      rewrite fmap_insert. apply insert_id.
      change (completed (set_assigned t a b)) with (completed t).
      apply Hdocs, elem_of_cons. by left. }
    destruct o1 as [[]| |e]; [|by intros [= <- <-]..].
    intros Hrun%IH; [congruence|].
    intros tid' t' Hin. rewrite Hwa. apply Hdocs, elem_of_cons. by right.
Qed.

Lemma for_tasks_in_completion (f : string * Task -> M unit) (ids : list string)
    (w w1 : world) (o : outcome unit) :
  touches_owner_only f ->
  for_tasks_in ids f w = (o, w1) ->
  completed <$> tasks w1 = completed <$> tasks w.
Proof.
  intros Hf. unfold for_tasks_in. rewrite when_run.
  destruct (negb _); [|by intros [= <- <-]].
  rewrite bind_run, Task_find_in_run.
  destruct (mapM castObjectId ids) as [os|]; [|by intros [= <- <-]].
  intros Hrun%(for_each_completion f); [done|done|].
  intros tid t [_ Hin%elem_of_map_to_list]%list_elem_of_filter.
  cbn [tasks logged]. by rewrite lookup_fmap, Hin.
Qed.

(** C1, where the code breaks it: a user update that answers 200 and whose
    requested pending list names a stored, completed task leaves that task's
    identifier in the user's pending list, so I2 does not hold afterwards
    (whether or not it held before). *)
Theorem put_user_completed_task_breaks_I2 (id : string) (body : list (string * json))
    (ts : gmap string Task) (us : gmap string User) (r : response)
    (l : list json) (tid : string) (t : Task) :
  let w' := run (put_user id body) (request_on ts us) in
  res w' = Some r ->
  status r = 200 ->
  field "pendingTasks" body = Some (JArr l) ->
  JStr tid ∈ l ->
  ts !! tid = Some t ->
  completed t = true ->
  ~ I2 (tasks w') (users w').
Proof.
  intros w' Hres Hst Hl Htid Ht Hdone HI2.
  destruct (put_user_ok id body ts us r w' eq_refl Hres Hst)
    as (uid & user & w1 & w2 & Hid & Hu & Hn & He & Hn' & He' & E1 & E2 & Hw').
  cbn zeta in *.
  apply for_tasks_in_completion in E1; [|apply unassign_touches_owner_only].
  apply for_tasks_in_completion in E2; [|apply claim_touches_owner_only].
  cbn [tasks logged request_on] in E1.
  assert ((completed <$> tasks w') !! tid = Some true) as Hc.
  { rewrite Hw'. cbn [tasks responded logged with_users].
    by rewrite E2, E1, lookup_fmap, Ht, <- Hdone. }
  rewrite lookup_fmap in Hc.
  destruct (tasks w' !! tid) as [t'|] eqn:Ht'; [|done]. injection Hc as Hc.
  eapply (HI2 tid t' Ht' (or_intror Hc) uid).
  - rewrite Hw'. cbn [users responded logged with_users]. apply lookup_insert_eq.
  - cbn. rewrite Hl. cbn. apply list_elem_of_fmap. by exists (JStr tid).
Qed.

End Reasoning.

(** ** The theorems at work on a small store

    Two users and two tasks on the platform [Hex24]; every statement below
    is an instance of a theorem above, with its hypotheses computed. *)
Module Examples.
Import Hex24.

Definition ann : string := "aaaaaaaaaaaaaaaaaaaaaaaa".
Definition bob : string := "bbbbbbbbbbbbbbbbbbbbbbbb".
Definition nobody : string := "cccccccccccccccccccccccc".
Definition report : string := "111111111111111111111111".
Definition review : string := "222222222222222222222222".
Definition fresh : string := "333333333333333333333333".

(** [report] is pending under [ann]; [review] is completed and has no
    owner. *)
Definition tasks0 : gmap string Task :=
  <[review := mkTask "review" "" 20 true "" "unassigned" 2]>
    {[report := mkTask "report" "" 10 false ann "ann" 1]}.

Definition users0 : gmap string User :=
  <[bob := mkUser "bob" "bob@example.org" []]>
    {[ann := mkUser "ann" "ann@example.org" [report]]}.

Definition w0 : world := request_on tasks0 users0.

Definition no_params : query := mkQuery None None None None None None.

(** [GET /tasks?where=null&sort={] *)
Definition null_where_bad_sort : query :=
  mkQuery (Some "null") (Some "{") None None None None.

(** A larger store: 101 tasks and 101 users, under the identifiers
    [000...000] to [000...100]. *)
Definition digit (d : nat) : ascii := ascii_of_nat (48 + d)%nat.

Definition numbered_id (n : nat) : string :=
  "000000000000000000000" ++
  String (digit (n / 100)%nat)
    (String (digit ((n / 10) mod 10)%nat) (String (digit (n mod 10)%nat) "")).

Definition crowd_tasks : gmap string Task :=
  list_to_map
    (map (fun n => (numbered_id n, mkTask "chore" "" 0 false "" "unassigned" 0))
       (seq 0 101)).

Definition crowd_users : gmap string User :=
  list_to_map
    (map (fun n => (numbered_id n, mkUser "user" (numbered_id n ++ "@example.org") []))
       (seq 0 101)).

(** C7 at work: of 101 stored tasks the listing answers 100; of 101 stored
    users the listing answers all 101. *)
Lemma list_limit_defaults_witness :
  exists tdocs udocs,
    size crowd_tasks = 101%nat /\ size crowd_users = 101%nat /\
    res (run (get_tasks no_params) (request_on crowd_tasks crowd_users)) =
      Some (mkResponse 200 "OK" (PTasks None tdocs)) /\
    List.length tdocs = 100%nat /\
    res (run (get_users no_params) (request_on crowd_tasks crowd_users)) =
      Some (mkResponse 200 "OK" (PUsers None udocs)) /\
    List.length udocs = 101%nat.
Proof.
  destruct (list_limit_defaults (P := platform) no_params crowd_tasks crowd_users
              eq_refl eq_refl) as [_ H].
  destruct (H I I I eq_refl I) as [Ht Hu].
  specialize (Ht (fun _ => true) (fun l => l) eq_refl eq_refl).
  destruct (Hu (fun _ => true) (fun l => l) eq_refl eq_refl) as [Hu' _].
  cbv zeta in Ht, Hu'.
  eexists _, _.
  split; [vm_compute; reflexivity|]. split; [vm_compute; reflexivity|].
  split; [rewrite Ht; reflexivity|]. split; [vm_compute; reflexivity|].
  split; [rewrite Hu'; reflexivity|]. vm_compute. reflexivity.
Defined.

(** C8 at work: [where=null] with a [sort] that does not parse gets no
    response at all. *)
Lemma null_parameter_stops_silently_witness :
  JSON_parse "{" = None /\
  res (run (get_tasks null_where_bad_sort) (request_on tasks0 users0)) = None /\
  res (run (get_users null_where_bad_sort) (request_on tasks0 users0)) = None.
Proof.
  split; [reflexivity|].
  assert (exists s, q_where null_where_bad_sort = Some s /\ JSON_parse s = Some JNull) as H.
  { exists "null". split; reflexivity. }
  destruct (null_parameter_stops_silently (P := platform) null_where_bad_sort
              (request_on tasks0 users0) H) as [-> ->].
  split; reflexivity.
Defined.

(** C2 at work: the same malformed identifier on the two routes. *)
Lemma get_by_malformed_id_witness :
  res (run (get_user "not-an-id" None) (request_on tasks0 users0)) ≫= error_of
    = Some NotFound /\
  res (run (get_task "not-an-id" None) (request_on tasks0 users0)) ≫= error_of
    = Some InvalidArgument.
Proof.
  assert (castObjectId "not-an-id" = None) as H by reflexivity.
  destruct (get_by_malformed_id (P := platform) "not-an-id" None tasks0 users0 H I)
    as (H1 & H2 & _).
  exact (conj H1 H2).
Defined.

(** C2 as the specification states it fails: the user route does not answer
    a malformed identifier with InvalidArgument. *)
Lemma get_user_malformed_id_is_not_invalid_argument :
  castObjectId "not-an-id" = None /\
  res (run (get_user "not-an-id" None) (request_on tasks0 users0)) ≫= error_of
    <> Some InvalidArgument.
Proof. split; [reflexivity|]. vm_compute. discriminate. Qed.

(** [report] sent to a user that does not exist. *)
Definition unknown_owner : list (string * json) :=
  [("name", JStr "report"); ("deadline", JNum 10); ("assignedUser", JStr nobody)].

Lemma put_task_unknown_user_witness :
  let w' := run (put_task report unknown_owner) (request_on tasks0 users0) in
  res w' ≫= error_of = Some InvalidArgument /\ tasks w' = tasks0 /\ users w' = users0.
Proof.
  apply (put_task_unknown_user (P := platform) report unknown_owner tasks0 users0 report
           (mkTask "report" "" 10 false ann "ann" 1) nobody nobody).
  - exact I.
  - reflexivity.
  - vm_compute. reflexivity.
  - reflexivity.
  - discriminate.
  - reflexivity.
  - vm_compute. reflexivity.
Defined.

(** C3 at work: [report] sent to ["bob"], a name and no identifier. *)
Definition to_the_name_bob : list (string * json) :=
  [("name", JStr "report"); ("deadline", JNum 10); ("assignedUser", JStr "bob")].

Lemma put_task_dangling_user_witness :
  let w' := run (put_task report to_the_name_bob) (request_on tasks0 users0) in
  references_no_user users0 "bob" /\
  res w' ≫= error_of = Some Internal /\
  (res w' ≫= error_of) <> Some InvalidArgument /\
  tasks w' = tasks0 /\ users w' = users0.
Proof.
  intros w'.
  assert (references_no_user users0 "bob") as Hno by (intros o Ho; discriminate Ho).
  assert (text (field "name" to_the_name_bob) <> "") as Hname
    by (vm_compute; discriminate).
  assert (valid_deadline (field "deadline" to_the_name_bob) = Some 10) as Hd
    by (vm_compute; reflexivity).
  assert (castObjectId report = Some report) as Hid by (vm_compute; reflexivity).
  assert (tasks0 !! report = Some (mkTask "report" "" 10 false ann "ann" 1)) as Ht
    by (vm_compute; reflexivity).
  assert (string_or_empty (field "assignedUser" to_the_name_bob) = "bob") as Ha
    by reflexivity.
  assert ("bob" <> "") as Hne by discriminate.
  destruct (put_task_dangling_user (P := platform) report to_the_name_bob tasks0 users0
              report (mkTask "report" "" 10 false ann "ann" 1) "bob" 10
              I Hname Hd Hid Ht Ha Hne Hno)
    as (Hts & Hus & _ & Hbad).
  assert (castObjectId "bob" = None) as Hcast by reflexivity.
  destruct (Hbad Hcast) as [H500 Hnot400].
  exact (conj Hno (conj H500 (conj Hnot400 (conj Hts Hus)))).
Defined.

(** C4 at work: [report] reassigned from [ann] to [bob]. *)
Definition to_bob : list (string * json) :=
  [("name", JStr "report"); ("deadline", JNum 10); ("assignedUser", JStr bob)].

Lemma put_task_reconciles_witness :
  let w' := run (put_task report to_bob) (request_on tasks0 users0) in
  ~ holds (users w') ann report /\ holds (users w') bob report.
Proof.
  intros w'.
  assert (exists r, res w' = Some r /\ status r = 200) as (r & Hr & Hst).
  { eexists. split; [vm_compute; reflexivity|reflexivity]. }
  destruct (put_task_reconciles (P := platform) report to_bob tasks0 users0 r Hr Hst)
    as (tid & t & t' & Hid & Ht & Ht' & _ & _ & _ & H).
  assert (tid = report) as -> by (vm_compute in Hid |- *; congruence).
  assert (t = mkTask "report" "" 10 false ann "ann" 1) as ->
    by (vm_compute in Ht |- *; congruence).
  assert (t' = mkTask "report" "" 10 false bob "bob" 1) as ->
    by (vm_compute in Ht' |- *; congruence).
  apply (H ann bob); [reflexivity|reflexivity|discriminate|reflexivity].
Defined.

(** C5 and C1 at work: [ann] asks for [report] and the completed
    [review]. *)
Definition ann_takes_review : list (string * json) :=
  [("name", JStr "Ann "); ("email", JStr " Ann@Example.org");
   ("pendingTasks", JArr [JStr report; JStr review])].

Lemma put_user_persists_request_witness :
  exists u,
    users (run (put_user ann ann_takes_review) (request_on tasks0 users0)) !! ann = Some u /\
    user_name u = "Ann" /\ email u = "ann@example.org" /\
    pendingTasks u = [report; review].
Proof.
  assert (exists r, res (run (put_user ann ann_takes_review) (request_on tasks0 users0))
                      = Some r /\ status r = 200) as (r & Hr & Hst).
  { eexists. split; [vm_compute; reflexivity|reflexivity]. }
  destruct (put_user_persists_request (P := platform) ann ann_takes_review
              tasks0 users0 r Hr Hst)
    as (uid & u & Hid & Hu & _ & Hn & _ & He & _ & _ & Hp).
  assert (uid = ann) as -> by (vm_compute in Hid |- *; congruence).
  exists u.
  split; [exact Hu|]. split; [exact Hn|]. split; [exact He|].
  exact (Hp [report; review] eq_refl).
Defined.

Lemma put_user_completed_task_breaks_I2_witness :
  let w' := run (put_user ann ann_takes_review) (request_on tasks0 users0) in
  tasks0 !! review = Some (mkTask "review" "" 20 true "" "unassigned" 2) /\
  ~ I2 (tasks w') (users w').
Proof.
  intros w'.
  assert (exists r, res w' = Some r /\ status r = 200) as (r & Hr & Hst).
  { eexists. split; [vm_compute; reflexivity|reflexivity]. }
  assert (tasks0 !! review = Some (mkTask "review" "" 20 true "" "unassigned" 2)) as Ht
    by (vm_compute; reflexivity).
  split; [exact Ht|].
  apply (put_user_completed_task_breaks_I2 (P := platform) ann ann_takes_review
           tasks0 users0 r [JStr report; JStr review] review
           (mkTask "review" "" 20 true "" "unassigned" 2) Hr Hst eq_refl);
    [|exact Ht|reflexivity].
  apply elem_of_cons. right. apply elem_of_cons. by left.
Defined.

(** C6 at work: a new task for [ann]. *)
Definition new_task_for_ann : list (string * json) :=
  [("name", JStr "slides"); ("deadline", JNum 30); ("assignedUser", JStr ann)].

Lemma post_tasks_pending_witness :
  exists u',
    users (run (post_tasks fresh 3 new_task_for_ann) (request_on tasks0 users0)) !! ann
      = Some u' /\
    count_occ string_dec (pendingTasks u') fresh = 1%nat.
Proof.
  assert (exists r, res (run (post_tasks fresh 3 new_task_for_ann) (request_on tasks0 users0))
                      = Some r /\ status r = 201) as (r & Hr & Hst).
  { eexists. split; [vm_compute; reflexivity|reflexivity]. }
  assert (string_or_empty (field "assignedUser" new_task_for_ann) <> "") as Ha
    by discriminate.
  destruct (post_tasks_pending (P := platform) fresh 3 new_task_for_ann tasks0 users0 r
              Hr Hst Ha)
    as (uo & u & u' & t' & Hc & Hu & Hu' & _ & _ & _ & _ & Hadd & _).
  assert (uo = ann) as -> by (vm_compute in Hc |- *; congruence).
  assert (u = mkUser "ann" "ann@example.org" [report]) as ->
    by (vm_compute in Hu |- *; congruence).
  exists u'. split; [exact Hu'|].
  destruct (Hadd eq_refl) as (_ & _ & Hcount). apply Hcount.
  vm_compute. lia.
Defined.

(** C9 at work: an update of [ann] without [pendingTasks]. *)
Definition rename_ann : list (string * json) :=
  [("name", JStr "Ann"); ("email", JStr "ann@example.org")].

Lemma put_user_without_pending_witness :
  let w' := run (put_user ann rename_ann) (request_on tasks0 users0) in
  (exists t', tasks w' !! report = Some t' /\ assignedUser t' = "" /\
              assignedUserName t' = "unassigned") /\
  (exists u', users w' !! ann = Some u' /\ pendingTasks u' = []).
Proof.
  intros w'.
  assert (exists r, res w' = Some r /\ status r = 200) as (r & Hr & Hst).
  { eexists. split; [vm_compute; reflexivity|reflexivity]. }
  assert (forall l, field "pendingTasks" rename_ann <> Some (JArr l)) as Hno
    by (intros l; discriminate).
  destruct (put_user_without_pending (P := platform) ann rename_ann tasks0 users0 r
              Hno Hr Hst)
    as (uid & user & u' & Hid & Hu & Htasks & Hu' & Hp).
  assert (uid = ann) as -> by (vm_compute in Hid |- *; congruence).
  assert (user = mkUser "ann" "ann@example.org" [report]) as ->
    by (vm_compute in Hu |- *; congruence).
  split.
  - destruct (Htasks report report (mkTask "report" "" 10 false ann "ann" 1))
      as (t' & Ht' & _ & H1 & H2).
    + apply elem_of_cons. by left.
    + reflexivity.
    + vm_compute. reflexivity.
    + exists t'. exact (conj Ht' (conj H1 H2)).
  - exists u'. exact (conj Hu' Hp).
Defined.

(** A new user asking for [review] and for a task that does not exist. *)
Definition carol : list (string * json) :=
  [("name", JStr "carol"); ("email", JStr "carol@example.org");
   ("pendingTasks", JArr [JStr review; JStr nobody])].

Lemma post_users_unknown_tasks_witness :
  let w' := run (post_users fresh carol) (request_on tasks0 ∅) in
  exists u',
    res w' = Some (mkResponse 201 "Created" (PUser None (fresh, u'))) /\
    nobody ∉ pendingTasks u'.
Proof.
  intros w'.
  destruct (post_users_unknown_tasks (P := platform) fresh carol tasks0 ∅)
    as (u' & Hres & _ & _ & _ & _ & Habsent).
  - exact I.
  - exact I.
  - discriminate.
  - discriminate.
  - intros k u Hk. by rewrite lookup_empty in Hk.
  - apply lookup_empty.
  - repeat constructor; by eexists.
  - intros k t Ht. unfold tasks0 in Ht.
    apply lookup_insert_Some in Ht as [[_ <-]|[_ [_ <-]%lookup_singleton_Some]].
    + by left.
    + right. by eexists.
  - exists u'. split; [exact Hres|].
    refine (proj1 (Habsent nobody nobody _ eq_refl _)).
    + apply elem_of_cons. right. apply elem_of_cons. by left.
    + vm_compute. reflexivity.
Defined.

(** C10 at work: a new user asking for a task that does not exist and for
    ["oops"], which is no identifier. *)
Definition carol_oops : list (string * json) :=
  [("name", JStr "carol"); ("email", JStr "carol@example.org");
   ("pendingTasks", JArr [JStr nobody; JStr "oops"])].

Lemma post_users_dangling_tasks_witness :
  let w' := run (post_users fresh carol_oops) (request_on tasks0 ∅) in
  castObjectId "oops" = None /\
  res w' ≫= error_of = Some Internal /\
  users w' !! fresh = Some (mkUser "carol" "carol@example.org" []) /\
  tasks w' = tasks0.
Proof.
  intros w'.
  assert (text (field "name" carol_oops) <> "") as Hname by (vm_compute; discriminate).
  assert (toLowerCase (text (field "email" carol_oops)) <> "") as Hemail
    by (vm_compute; discriminate).
  assert (forall k u, (∅ : gmap string User) !! k = Some u ->
            email u <> toLowerCase (text (field "email" carol_oops))) as Hfree
    by (intros k u Hk; by rewrite lookup_empty in Hk).
  assert ((∅ : gmap string User) !! fresh = None) as Hfresh by apply lookup_empty.
  assert ("oops" ∈ strings_or_empty (field "pendingTasks" carol_oops)) as Hs
    by (apply elem_of_cons; right; apply elem_of_cons; by left).
  assert (castObjectId "oops" = None) as Hcast by reflexivity.
  destruct (post_users_dangling_tasks (P := platform) fresh carol_oops tasks0 ∅
              I I Hname Hemail Hfree Hfresh) as [_ H].
  destruct (H "oops" Hs Hcast) as (H500 & _ & Hus & Hts).
  split; [exact Hcast|]. split; [exact H500|]. split; [|exact Hts].
  unfold w'. rewrite Hus. apply lookup_insert_eq.
Defined.

End Examples.

(** * The rest of the routers

    Properties of the handlers and helpers beyond the ones above: reads
    that never write, counting and limits, validation and missing
    documents, what creation, update and deletion leave in the store, how
    the pending-set helpers compose, and the handlers that keep a task's
    owner and the users' pending lists in step. *)

Section Coverage.
Context `{P : Platform}.

(** Closes a branch in which the handler stopped with another answer than
    the one assumed ([Hother] excludes every answer but the assumed one). *)
Ltac other_answer Hother :=
  let H := fresh in
  intros H; exfalso; eapply Hother; [|exact H]; cbn; lia.

(** ** Reads never write *)

(** A computation that leaves every document as it is. *)
Definition reads_only {A} (m : M A) : Prop :=
  forall w o w', m w = (o, w') -> tasks w' = tasks w /\ users w' = users w.

Lemma reads_only_ret {A} (a : A) : reads_only (mret a).
Proof. by intros w o w' [= <- <-]. Qed.

Lemma reads_only_return {A} : reads_only (return_ (A := A)).
Proof. by intros w o w' [= <- <-]. Qed.

Lemma reads_only_throw {A} (e : exn) : reads_only (throw (A := A) e).
Proof. by intros w o w' [= <- <-]. Qed.

Lemma reads_only_gets {A} (f : world -> A) : reads_only (gets f).
Proof. by intros w o w' [= <- <-]. Qed.

Lemma reads_only_modify (f : world -> world) :
  (forall w, tasks (f w) = tasks w /\ users (f w) = users w) ->
  reads_only (modify f).
Proof. intros Hf w o w' [= <- <-]. apply Hf. Qed.

Lemma reads_only_bind {A B} (m : M A) (f : A -> M B) :
  reads_only m -> (forall a, reads_only (f a)) -> reads_only (m ≫= f).
Proof.
  intros Hm Hf w o w'. rewrite bind_run.
  destruct (m w) as [[a| |e] w1] eqn:E; destruct (Hm _ _ _ E) as [Ht Hu].
  - intros [? ?]%Hf. split; congruence.
  - by intros [= <- <-].
  - by intros [= <- <-].
Qed.

Lemma reads_only_when (b : bool) (m : M unit) : reads_only m -> reads_only (when_ b m).
Proof. destruct b; [done|]. intros _. apply reads_only_ret. Qed.

Lemma reads_only_try_catch (body : M unit) (handler : exn -> M unit) :
  reads_only body -> (forall e, reads_only (handler e)) ->
  reads_only (try_catch body handler).
Proof.
  intros Hb Hh w o w'. unfold try_catch.
  destruct (body w) as [[a| |e] w1] eqn:E; destruct (Hb _ _ _ E) as [Ht Hu].
  - by intros [= <- <-].
  - by intros [= <- <-].
  - intros [? ?]%Hh. split; congruence.
Qed.

Lemma reads_only_send (r : response) : reads_only (send r).
Proof. by apply reads_only_modify. Qed.

Lemma reads_only_op (o : store_op) : reads_only (op o).
Proof. by apply reads_only_modify. Qed.

Lemma reads_only_or_throw {A} (e : exn) (o : option A) : reads_only (or_throw e o).
Proof. destruct o; [apply reads_only_ret|apply reads_only_throw]. Qed.

Lemma reads_only_parseJSONParam (value : option string) (pname : string) :
  reads_only (parseJSONParam value pname).
Proof.
  unfold parseJSONParam. destruct value as [s|]; [|apply reads_only_ret].
  destruct (JSON_parse s); [apply reads_only_ret|].
  apply reads_only_bind; [apply reads_only_send|]. intros _. apply reads_only_ret.
Qed.

Lemma reads_only_cast_ref (r : idref) : reads_only (cast_ref r).
Proof.
  destruct r as [s|o]; cbn; [|apply reads_only_ret].
  destruct (castObjectId s); [apply reads_only_ret|apply reads_only_throw].
Qed.

Lemma reads_only_Task_findById (r : idref) : reads_only (Task_findById r).
Proof.
  apply reads_only_bind; [apply reads_only_cast_ref|]. intros o.
  apply reads_only_bind; [apply reads_only_op|]. intros _. apply reads_only_gets.
Qed.

Lemma reads_only_User_findById (r : idref) : reads_only (User_findById r).
Proof.
  apply reads_only_bind; [apply reads_only_cast_ref|]. intros o.
  apply reads_only_bind; [apply reads_only_op|]. intros _. apply reads_only_gets.
Qed.

Ltac reads_only_step :=
  first
    [ apply reads_only_bind; [|intros ?]
    | apply reads_only_try_catch; [|intros ?]
    | apply reads_only_when
    | apply reads_only_parseJSONParam
    | apply reads_only_Task_findById
    | apply reads_only_User_findById
    | apply reads_only_send
    | apply reads_only_op
    | apply reads_only_gets
    | apply reads_only_or_throw
    | apply reads_only_return
    | apply reads_only_ret
    | apply reads_only_throw ].

Lemma reads_only_get_tasks (q : query) : reads_only (get_tasks q).
Proof.
  unfold get_tasks, Task_countDocuments, Task_find, ok, serverError.
  repeat reads_only_step.
  destruct (toBool _); repeat reads_only_step.
Qed.

Lemma reads_only_get_users (q : query) : reads_only (get_users q).
Proof.
  unfold get_users, User_countDocuments, User_find, ok, serverError.
  repeat reads_only_step.
  destruct (toBool _); repeat reads_only_step.
Qed.

Lemma reads_only_get_task (id : string) (select : option string) :
  reads_only (get_task id select).
Proof.
  unfold get_task, check_select, ok, notFound, badRequest.
  repeat reads_only_step.
  match goal with |- reads_only (match ?x with _ => _ end) => destruct x end;
    repeat reads_only_step.
Qed.

Lemma reads_only_get_user (id : string) (select : option string) :
  reads_only (get_user id select).
Proof.
  unfold get_user, check_select, ok, notFound.
  repeat reads_only_step.
  match goal with |- reads_only (match ?x with _ => _ end) => destruct x end;
    repeat reads_only_step.
Qed.

Lemma reads_only_run (m : M unit) (w : world) :
  reads_only m -> tasks (run m w) = tasks w /\ users (run m w) = users w.
Proof. intros Hm. unfold run. destruct (m w) as [o w'] eqn:E. by apply Hm in E. Qed.

(** X1: the four GET handlers leave every task and every user as they were,
    whatever the request and whatever they answer. *)
Theorem get_never_writes (q : query) (id : string) (select : option string) (w : world) :
  (tasks (run (get_tasks q) w) = tasks w /\ users (run (get_tasks q) w) = users w) /\
  (tasks (run (get_task id select) w) = tasks w /\
   users (run (get_task id select) w) = users w) /\
  (tasks (run (get_users q) w) = tasks w /\ users (run (get_users q) w) = users w) /\
  (tasks (run (get_user id select) w) = tasks w /\
   users (run (get_user id select) w) = users w).
Proof.
  split; [exact (reads_only_run (get_tasks q) w (reads_only_get_tasks q))|].
  split; [exact (reads_only_run (get_task id select) w (reads_only_get_task id select))|].
  split; [exact (reads_only_run (get_users q) w (reads_only_get_users q))|].
  exact (reads_only_run (get_user id select) w (reads_only_get_user id select)).
Qed.

(** ** Counting and limits *)

Lemma Task_countDocuments_run (where_ : jsval) (w : world) :
  Task_countDocuments where_ w =
  match run_count Task_filter where_ (map_to_list (tasks w)) with
  | Some n => (Value n, logged (OpCount Tasks) w)
  | None => (Throw QueryError, logged (OpCount Tasks) w)
  end.
Proof.
  unfold Task_countDocuments, mbind, M_bind, op, gets, modify, or_throw. cbn.
  by destruct (run_count _ _ _).
Qed.

Lemma User_countDocuments_run (where_ : jsval) (w : world) :
  User_countDocuments where_ w =
  match run_count User_filter where_ (map_to_list (users w)) with
  | Some n => (Value n, logged (OpCount Users) w)
  | None => (Throw QueryError, logged (OpCount Users) w)
  end.
Proof.
  unfold User_countDocuments, mbind, M_bind, op, gets, modify, or_throw. cbn.
  by destruct (run_count _ _ _).
Qed.

(** X2: with [count=true] (in any letter case) and parameters that parse, a
    listing answers the number of documents matching [where] and nothing
    else of the request matters: [sort], [select], [skip] and [limit] are
    not even handed to the query engine, so values it would reject do no
    harm. *)
Theorem count_ignores_the_chain (q : query) (ts : gmap string Task) (us : gmap string User) :
  toBool (q_count q) = true ->
  parses_to_value (q_where q) ->
  parses_to_value (q_sort q) ->
  parses_to_value (q_select q) ->
  (forall f, query_filter Task_filter (q_where q ≫= JSON_parse) = Some f ->
     run (get_tasks q) (request_on ts us) =
     mkWorld ts us [OpCount Tasks]
       (Some (mkResponse 200 "OK"
          (PCount (List.length (filter (fun d => f d = true) (map_to_list ts))))))) /\
  (forall f, query_filter User_filter (q_where q ≫= JSON_parse) = Some f ->
     run (get_users q) (request_on ts us) =
     mkWorld ts us [OpCount Users]
       (Some (mkResponse 200 "OK"
          (PCount (List.length (filter (fun d => f d = true) (map_to_list us))))))).
Proof.
  intros Hcount Hw Hs Hsel. split; intros f Hf.
  - unfold run, get_tasks, try_catch.
    rewrite parse_step, (classify_value _ _ Hw).
    rewrite parse_step, (classify_value _ _ Hs).
    rewrite parse_step, (classify_value _ _ Hsel).
    cbv zeta. rewrite Hcount.
    rewrite bind_run, Task_countDocuments_run. unfold run_count.
    cbn [tasks request_on]. rewrite Hf. reflexivity.
  - unfold run, get_users, try_catch.
    rewrite parse_step, (classify_value _ _ Hw).
    rewrite parse_step, (classify_value _ _ Hs).
    rewrite parse_step, (classify_value _ _ Hsel).
    cbv zeta. rewrite Hcount.
    rewrite bind_run, User_countDocuments_run. unfold run_count.
    cbn [users request_on]. rewrite Hf. reflexivity.
Qed.

(** X3: a [limit] that is empty or does not start with a number counts as no
    [limit] at all: the task listing falls back to 100 documents, the user
    listing to no limit. *)
Theorem limit_not_a_number (q : query) (ts : gmap string Task) (us : gmap string User) :
  is_number (parse_int_param (q_limit q)) = None ->
  toBool (q_count q) = false ->
  let skip := is_number (parse_int_param (q_skip q)) in
  (forall r sel docs,
      res (run (get_tasks q) (request_on ts us)) = Some r ->
      data r = PTasks sel docs ->
      exists f, query_filter Task_filter (q_where q ≫= JSON_parse) = Some f /\
        List.length docs =
          (100 `min` (List.length (filter (fun d => f d = true) (map_to_list ts))
                      - skipped skip))%nat) /\
  (forall r sel docs,
      res (run (get_users q) (request_on ts us)) = Some r ->
      data r = PUsers sel docs ->
      exists f, query_filter User_filter (q_where q ≫= JSON_parse) = Some f /\
        List.length docs =
          (List.length (filter (fun d => f d = true) (map_to_list us))
           - skipped skip)%nat).
Proof.
  intros Hlimit Hcount skip. split; intros r sel docs H Hd.
  - unfold run, get_tasks, try_catch in H.
    rewrite parse_step in H.
    destruct (classify_cases (q_where q) "where") as [E|[E|E]]; rewrite E in H;
      clear E; [|cbn in H; simplify_eq/=..].
    rewrite parse_step in H.
    destruct (classify_cases (q_sort q) "sort") as [E|[E|E]]; rewrite E in H;
      clear E; [|cbn in H; simplify_eq/=..].
    rewrite parse_step in H.
    destruct (classify_cases (q_select q) "select") as [E|[E|E]]; rewrite E in H;
      clear E; [|cbn in H; simplify_eq/=..].
    cbv zeta in H. rewrite Hcount in H. cbn [negb andb] in H.
    assert (is_number
              (if match parse_int_param (q_limit q) with
                  | Some (Num _) => false
                  | _ => true
                  end
               then Some (Num 100) else parse_int_param (q_limit q)) = Some 100) as Hl.
    { destruct (parse_int_param (q_limit q)) as [[|n]|]; done. }
    rewrite Hl in H. rewrite bind_run, Task_find_run in H.
    destruct (run_query _ _ _ _ _ _ _ _) as [l|] eqn:Hq; cbn in H; simplify_eq/=.
    apply run_query_limited in Hq as (f & Hf & Hlen); [|apply Task_sort_perm|done].
    change (Z.to_nat 100) with 100%nat in Hlen. by exists f.
  - unfold run, get_users, try_catch in H.
    rewrite parse_step in H.
    destruct (classify_cases (q_where q) "where") as [E|[E|E]]; rewrite E in H;
      clear E; [|cbn in H; simplify_eq/=..].
    rewrite parse_step in H.
    destruct (classify_cases (q_sort q) "sort") as [E|[E|E]]; rewrite E in H;
      clear E; [|cbn in H; simplify_eq/=..].
    rewrite parse_step in H.
    destruct (classify_cases (q_select q) "select") as [E|[E|E]]; rewrite E in H;
      clear E; [|cbn in H; simplify_eq/=..].
    cbv zeta in H. rewrite Hcount, Hlimit in H.
    rewrite bind_run, User_find_run in H.
    destruct (run_query _ _ _ _ _ _ _ _) as [l|] eqn:Hq; cbn in H; simplify_eq/=.
    apply run_query_unlimited in Hq as (f & Hf & Hlen & _); [|apply User_sort_perm].
    by exists f.
Qed.

(** X4: a positive [limit] bounds both listings. *)
Theorem explicit_limit_bounds (q : query) (ts : gmap string Task) (us : gmap string User)
    (n : Z) :
  is_number (parse_int_param (q_limit q)) = Some n ->
  0 < n ->
  toBool (q_count q) = false ->
  (forall r sel docs,
      res (run (get_tasks q) (request_on ts us)) = Some r ->
      data r = PTasks sel docs -> (List.length docs <= Z.to_nat n)%nat) /\
  (forall r sel docs,
      res (run (get_users q) (request_on ts us)) = Some r ->
      data r = PUsers sel docs -> (List.length docs <= Z.to_nat n)%nat).
Proof.
  intros Hlimit Hn Hcount.
  assert (parse_int_param (q_limit q) = Some (Num n)) as Hl.
  { destruct (parse_int_param (q_limit q)) as [[|m]|]; cbn in Hlimit; congruence. }
  split; intros r sel docs H Hd.
  - unfold run, get_tasks, try_catch in H.
    rewrite parse_step in H.
    destruct (classify_cases (q_where q) "where") as [E|[E|E]]; rewrite E in H;
      clear E; [|cbn in H; simplify_eq/=..].
    rewrite parse_step in H.
    destruct (classify_cases (q_sort q) "sort") as [E|[E|E]]; rewrite E in H;
      clear E; [|cbn in H; simplify_eq/=..].
    rewrite parse_step in H.
    destruct (classify_cases (q_select q) "select") as [E|[E|E]]; rewrite E in H;
      clear E; [|cbn in H; simplify_eq/=..].
    cbv zeta in H. rewrite Hcount, Hl in H. cbn [negb andb is_number] in H.
    rewrite bind_run, Task_find_run in H.
    destruct (run_query _ _ _ _ _ _ _ _) as [l|] eqn:Hq; cbn in H; simplify_eq/=.
    apply run_query_limited in Hq as (f & Hf & Hlen); [|apply Task_sort_perm|done].
    lia.
  - unfold run, get_users, try_catch in H.
    rewrite parse_step in H.
    destruct (classify_cases (q_where q) "where") as [E|[E|E]]; rewrite E in H;
      clear E; [|cbn in H; simplify_eq/=..].
    rewrite parse_step in H.
    destruct (classify_cases (q_sort q) "sort") as [E|[E|E]]; rewrite E in H;
      clear E; [|cbn in H; simplify_eq/=..].
    rewrite parse_step in H.
    destruct (classify_cases (q_select q) "select") as [E|[E|E]]; rewrite E in H;
      clear E; [|cbn in H; simplify_eq/=..].
    cbv zeta in H. rewrite Hcount, Hl in H. cbn [is_number] in H.
    rewrite bind_run, User_find_run in H.
    destruct (run_query _ _ _ _ _ _ _ _) as [l|] eqn:Hq; cbn in H; simplify_eq/=.
    apply run_query_limited in Hq as (f & Hf & Hlen); [|apply User_sort_perm|done].
    lia.
Qed.

(** ** Validation comes first *)


(** X6: a [name] that is truthy and no string (a number, [true], an array, an
    object) has no [trim]: each of the four writers answers 500, again
    without reaching the store. *)
Theorem name_without_trim (id oid : string) (now : Z) (body : list (string * json))
    (ts : gmap string Task) (us : gmap string User) :
  ~ string_like (field "name" body) ->
  let w' := mkWorld ts us [] (Some (mkResponse 500 "Server error" PNull)) in
  run (post_tasks oid now body) (request_on ts us) = w' /\
  run (put_task id body) (request_on ts us) = w' /\
  run (post_users oid body) (request_on ts us) = w' /\
  run (put_user id body) (request_on ts us) = w'.
Proof.
  intros Hn w'.
  assert (forall w, trimmed (field "name" body) w = (Throw TypeError, w)) as Ht.
  { intros w. by destruct (trimmed_cases (field "name" body) w) as [[? _]|?]. }
  unfold run, post_tasks, put_task, post_users, put_user, try_catch.
  by rewrite !bind_run, !Ht.
Qed.

(** ** Documents that are not there *)

Lemma check_select_run (select : jsval) (w : world) :
  select_accepted select = Some () -> check_select select w = (Value tt, w).
Proof. unfold check_select. by intros ->. Qed.

(** X7: a well-formed identifier under which no task is stored: fetching it,
    updating it (with valid fields) and deleting it all answer 404 and
    write nothing. *)
Theorem task_not_found (id tid : string) (select : option string)
    (body : list (string * json)) (d : Z)
    (ts : gmap string Task) (us : gmap string User) :
  castObjectId id = Some tid ->
  ts !! tid = None ->
  let w' := mkWorld ts us [OpFindById Tasks]
              (Some (mkResponse 404 "Task not found" PNull)) in
  (parses_to_value select ->
   select_accepted (select ≫= JSON_parse) = Some () ->
   run (get_task id select) (request_on ts us) = w') /\
  (string_like (field "name" body) ->
   text (field "name" body) <> "" ->
   valid_deadline (field "deadline" body) = Some d ->
   run (put_task id body) (request_on ts us) = w') /\
  run (delete_task id) (request_on ts us) = w'.
Proof.
  intros Hid Hnone w'. split_and!.
  - intros Hsel Hacc. unfold run, get_task, try_catch.
    rewrite parse_step, (classify_value _ _ Hsel).
    rewrite bind_run, check_select_run by done.
    rewrite bind_run, Task_findById_run. cbn [denotes]. rewrite Hid.
    cbn [tasks logged request_on]. by rewrite Hnone.
  - intros Hn Hname Hd. unfold run, put_task, try_catch.
    rewrite bind_run, trimmed_run, Hd by done.
    rewrite bind_run, when_run, (eqb_empty_false _ Hname).
    rewrite bind_run, Task_findById_run. cbn [denotes]. rewrite Hid.
    cbn [tasks logged request_on]. by rewrite Hnone.
  - unfold run, delete_task, try_catch.
    rewrite bind_run, Task_findById_run. cbn [denotes]. rewrite Hid.
    cbn [tasks logged request_on]. by rewrite Hnone.
Qed.

(** X8: a well-formed identifier under which no user is stored: fetching
    it, updating it (with valid fields) and deleting it all answer 404 and
    write nothing. *)
Theorem user_not_found (id uid : string) (select : option string)
    (body : list (string * json))
    (ts : gmap string Task) (us : gmap string User) :
  castObjectId id = Some uid ->
  us !! uid = None ->
  let w' := mkWorld ts us [OpFindById Users]
              (Some (mkResponse 404 "User not found" PNull)) in
  (parses_to_value select ->
   select_accepted (select ≫= JSON_parse) = Some () ->
   run (get_user id select) (request_on ts us) = w') /\
  (string_like (field "name" body) ->
   string_like (field "email" body) ->
   text (field "name" body) <> "" ->
   toLowerCase (text (field "email" body)) <> "" ->
   run (put_user id body) (request_on ts us) = w') /\
  run (delete_user id) (request_on ts us) = w'.
Proof.
  intros Hid Hnone w'. split_and!.
  - intros Hsel Hacc. unfold run, get_user, try_catch.
    rewrite parse_step, (classify_value _ _ Hsel).
    rewrite bind_run, check_select_run by done.
    rewrite bind_run, User_findById_run. cbn [denotes]. rewrite Hid.
    cbn [users logged request_on]. by rewrite Hnone.
  - intros Hn He Hname Hemail. unfold run, put_user, try_catch.
    rewrite bind_run, trimmed_run by done.
    rewrite bind_run, trimmed_run by done.
    cbv zeta. rewrite bind_run, when_run.
    rewrite (eqb_empty_false _ Hname), (eqb_empty_false _ Hemail). cbn [orb].
    rewrite bind_run, User_findById_run. cbn [denotes]. rewrite Hid.
    cbn [users logged request_on]. by rewrite Hnone.
  - unfold run, delete_user, try_catch.
    rewrite bind_run, User_findById_run. cbn [denotes]. rewrite Hid.
    cbn [users logged request_on]. by rewrite Hnone.
Qed.

(** X9: a stored document is fetched as it is, with the projection asked for. *)
Theorem get_by_id_found (id o : string) (select : option string)
    (ts : gmap string Task) (us : gmap string User) :
  castObjectId id = Some o ->
  parses_to_value select ->
  select_accepted (select ≫= JSON_parse) = Some () ->
  let sel := selected (select ≫= JSON_parse) in
  (forall t, ts !! o = Some t ->
     res (run (get_task id select) (request_on ts us)) =
     Some (mkResponse 200 "OK" (PTask sel (o, t)))) /\
  (forall u, us !! o = Some u ->
     res (run (get_user id select) (request_on ts us)) =
     Some (mkResponse 200 "OK" (PUser sel (o, u)))).
Proof.
  intros Hid Hsel Hacc sel. split.
  - intros t Ht. unfold run, get_task, try_catch.
    rewrite parse_step, (classify_value _ _ Hsel).
    rewrite bind_run, check_select_run by done.
    rewrite bind_run, Task_findById_run. cbn [denotes]. rewrite Hid.
    cbn [tasks logged request_on]. by rewrite Ht.
  - intros u Hu. unfold run, get_user, try_catch.
    rewrite parse_step, (classify_value _ _ Hsel).
    rewrite bind_run, check_select_run by done.
    rewrite bind_run, User_findById_run. cbn [denotes]. rewrite Hid.
    cbn [users logged request_on]. by rewrite Hu.
Qed.

(** ** Emails already taken *)

Lemma some_user_with_email (e : string) (us : gmap string User) (k : string) (u : User) :
  us !! k = Some u -> email u = e ->
  exists k' u',
    head (filter (fun d : string * User => email d.2 = e) (map_to_list us)) = Some (k', u') /\
    us !! k' = Some u' /\ email u' = e.
Proof.
  intros Hk He.
  destruct (filter _ _) as [|[k' u'] l] eqn:E.
  - assert ((k, u) ∈ filter (fun d : string * User => email d.2 = e) (map_to_list us)) as Hin.
    { apply list_elem_of_filter. split; [done|]. by apply elem_of_map_to_list. }
    rewrite E in Hin. by apply elem_of_nil in Hin.
  - exists k', u'. split; [done|].
    assert ((k', u') ∈ filter (fun d : string * User => email d.2 = e) (map_to_list us))
      as [He' Hin%elem_of_map_to_list]%list_elem_of_filter
      by (rewrite E; apply elem_of_cons; by left).
    done.
Qed.

(** X10: creating a user under the (trimmed, lower-cased) email of a stored user
    answers 400 and writes nothing; so does updating a user to an email
    that another user has and the updated one has not. *)
Theorem email_taken (id uid oid k : string) (u user : User) (body : list (string * json))
    (ts : gmap string Task) (us : gmap string User) :
  string_like (field "name" body) ->
  string_like (field "email" body) ->
  text (field "name" body) <> "" ->
  toLowerCase (text (field "email" body)) <> "" ->
  us !! k = Some u ->
  email u = toLowerCase (text (field "email" body)) ->
  let r := mkResponse 400 "A user with this email already exists" PNull in
  run (post_users oid body) (request_on ts us) = mkWorld ts us [OpFindOne Users] (Some r) /\
  (castObjectId id = Some uid ->
   us !! uid = Some user ->
   email user <> toLowerCase (text (field "email" body)) ->
   run (put_user id body) (request_on ts us) =
   mkWorld ts us [OpFindById Users; OpFindOne Users] (Some r)).
Proof.
  intros Hn He Hname Hemail Hk Hu r.
  destruct (some_user_with_email _ _ _ _ Hk Hu) as (k' & u' & Hhead & Hk' & Hu').
  split.
  - unfold run, post_users, try_catch.
    rewrite bind_run, trimmed_run by done.
    rewrite bind_run, trimmed_run by done.
    cbv zeta. rewrite bind_run, when_run.
    rewrite (eqb_empty_false _ Hname), (eqb_empty_false _ Hemail). cbn [orb].
    rewrite bind_run, User_findOne_email_run. cbn [users logged request_on].
    by rewrite Hhead.
  - intros Hid Huser Hother. unfold run, put_user, try_catch.
    rewrite bind_run, trimmed_run by done.
    rewrite bind_run, trimmed_run by done.
    cbv zeta. rewrite bind_run, when_run.
    rewrite (eqb_empty_false _ Hname), (eqb_empty_false _ Hemail). cbn [orb].
    rewrite bind_run, User_findById_run. cbn [denotes]. rewrite Hid.
    cbn [users logged request_on]. rewrite Huser. cbn [fmap option_fmap option_map].
    rewrite bind_run, User_findOne_email_run. cbn [users logged request_on].
    rewrite Hhead. rewrite bind_run, when_run.
    assert (String.eqb k' uid = false) as ->.
    { apply String.eqb_neq. intros ->. congruence. }
    done.
Qed.

(** ** Creating a task *)

(** X11: a task created without an [assignedUser] is stored under the fresh
    identifier with owner "" and owner name "unassigned"; no user is read or
    written. *)
Theorem post_tasks_unassigned (oid : string) (now d : Z) (body : list (string * json))
    (ts : gmap string Task) (us : gmap string User) :
  string_like (field "name" body) ->
  text (field "name" body) <> "" ->
  valid_deadline (field "deadline" body) = Some d ->
  string_or_empty (field "assignedUser" body) = "" ->
  ts !! oid = None ->
  let t := mkTask (text (field "name" body))
             (string_or_empty (field "description" body)) d
             (bool_or_false (field "completed" body)) "" "unassigned" now in
  run (post_tasks oid now body) (request_on ts us) =
  mkWorld (<[oid := t]> ts) us [OpInsert Tasks; OpFindById Tasks]
    (Some (mkResponse 201 "Created" (PTask None (oid, t)))).
Proof.
  intros Hn Hname Hd Ha Hfresh t. unfold run, post_tasks, try_catch.
  rewrite bind_run, trimmed_run, Hd by done.
  rewrite bind_run, when_run, (eqb_empty_false _ Hname).
  cbv zeta. rewrite Ha. unfold assigned_user. cbn [String.eqb negb].
  rewrite bind_run, ret_run.
  rewrite bind_run, Task_create_run. cbn [tasks logged request_on]. rewrite Hfresh.
  rewrite bind_run, when_run, bind_run, Task_findById_run. cbn [denotes].
  cbn [tasks with_tasks logged]. rewrite lookup_insert_eq. reflexivity.
Qed.

(** X12: a task created for a well-formed identifier of no user is refused with
    400 and is not stored. *)
Theorem post_tasks_unknown_user (oid a o : string) (now : Z) (body : list (string * json))
    (ts : gmap string Task) (us : gmap string User) :
  string_like (field "name" body) ->
  string_or_empty (field "assignedUser" body) = a ->
  a <> "" ->
  castObjectId a = Some o ->
  us !! o = None ->
  let w' := run (post_tasks oid now body) (request_on ts us) in
  res w' ≫= error_of = Some InvalidArgument /\ tasks w' = ts /\ users w' = us.
Proof.
  intros Hn Ha Hne Hc Hnone w'. subst w'.
  unfold run, post_tasks, try_catch.
  rewrite bind_run, trimmed_run by done.
  destruct (valid_deadline _) as [d|]; [|done].
  rewrite bind_run, when_run.
  destruct (String.eqb (text _) ""); [done|].
  cbv zeta. rewrite Ha, bind_run.
  destruct (assigned_user_cases a (request_on ts us))
    as [[? _]|[_ [[Hc' _]|(uid & Hc' & E)]]]; [done|congruence|].
  assert (uid = o) as -> by congruence.
  cbn [users request_on] in E. rewrite Hnone in E. by rewrite E.
Qed.

(** ** Deleting *)

Lemma Task_deleteOne_run (o : string) (w : world) :
  Task_deleteOne o w = (Value tt, with_tasks (delete o) (logged (OpDelete Tasks) w)).
Proof. reflexivity. Qed.

(** What a task deletion that answers 200 went through. *)
Lemma delete_task_deleted (id : string)
    (ts : gmap string Task) (us : gmap string User) (r : response) (w' : world) :
  run (delete_task id) (request_on ts us) = w' ->
  res w' = Some r ->
  status r = 200 ->
  exists tid t,
    castObjectId id = Some tid /\
    ts !! tid = Some t /\
    tasks w' = delete tid ts /\
    ((assignedUser t = "" /\ users w' = us) \/
     (assignedUser t <> "" /\
      exists po, castObjectId (assignedUser t) = Some po /\
                 users w' = alter (drop_pending tid) po us)).
Proof.
  intros Hrun Hres Hst. revert Hrun.
  assert (forall r0 w, status r0 <> 200 -> responded r0 w = w' -> False) as Hother.
  { intros r0 w Hr0 <-. cbn in Hres. congruence. }
  unfold run, delete_task, try_catch.
  rewrite bind_run, Task_findById_run. cbn [denotes].
  destruct (castObjectId id) as [tid|]; [|other_answer Hother].
  cbn [tasks logged request_on].
  destruct (ts !! tid) as [t|] eqn:Ht; [|other_answer Hother].
  cbn [fmap option_fmap option_map]. cbv zeta.
  rewrite bind_run, Task_deleteOne_run, bind_run, when_run.
  destruct (String.eqb (assignedUser t) "") eqn:Ha; cbn [negb].
  - apply String.eqb_eq in Ha. intros <-.
    exists tid, t. split_and!; [done|done|done|]. by left.
  - apply String.eqb_neq in Ha.
    match goal with |- context [removePendingFromUser ?x tid ?w] =>
      destruct (removePendingFromUser x tid w) as [[[]| |e] w1] eqn:E end.
    + apply removePending_value in E as (k & Hk & Ht1 & Hu1); [|done].
      rewrite send_run. intros <-. exists tid, t. split_and!; [done|done| |].
      * cbn [snd tasks responded]. by rewrite Ht1.
      * right. split; [done|]. exists k. split; [done|].
        cbn [snd users responded]. by rewrite Hu1.
    + by apply quiet_removePendingFromUser in E as [? _].
    + other_answer Hother.
Qed.

(** X13: a task deletion that answers 200 removed exactly that task; the owner
    that its [assignedUser] named no longer has it pending, and no user's
    record changed except that owner's pending list. *)
Theorem delete_task_detaches (id : string)
    (ts : gmap string Task) (us : gmap string User) (r : response) :
  let w' := run (delete_task id) (request_on ts us) in
  res w' = Some r ->
  status r = 200 ->
  exists tid t,
    castObjectId id = Some tid /\
    ts !! tid = Some t /\
    tasks w' = delete tid ts /\
    (assignedUser t = "" -> users w' = us) /\
    (forall po, assignedUser t <> "" -> castObjectId (assignedUser t) = Some po ->
       users w' = alter (drop_pending tid) po us /\
       ~ holds (users w') po tid /\
       forall k, k <> po -> users w' !! k = us !! k).
Proof.
  intros w' Hres Hst.
  destruct (delete_task_deleted id ts us r w' eq_refl Hres Hst)
    as (tid & t & Hid & Ht & Hts & Hus).
  exists tid, t. split_and!; [done|done|done| |].
  - intros Ha. by destruct Hus as [[_ ?]|[? _]].
  - intros po Ha Hpo. destruct Hus as [[? _]|(_ & k & Hk & Hus)]; [done|].
    assert (k = po) as -> by congruence. rewrite Hus.
    split_and!; [done| |].
    + intros [_ ?]%holds_drop. done.
    + intros k Hkne. by rewrite lookup_alter_ne.
Qed.

(** ** Loops over found tasks *)

(** A callback that, when it runs to its end, has stored [g t] under the
    identifier of its task and written no other task. *)
Definition rewrites_task (f : string * Task -> M unit) (g : Task -> Task) : Prop :=
  forall tid t w w1,
    f (tid, t) w = (Value tt, w1) -> tasks w1 = <[tid := g t]> (tasks w).

Lemma for_each_rewrites (f : string * Task -> M unit) (g : Task -> Task)
    (docs : list (string * Task)) :
  rewrites_task f g ->
  NoDup docs.*1 ->
  forall w w1,
    for_each f docs w = (Value tt, w1) ->
    (forall k t, (k, t) ∈ docs -> tasks w1 !! k = Some (g t)) /\
    (forall k, k ∉ docs.*1 -> tasks w1 !! k = tasks w !! k).
Proof.
  intros Hf. induction docs as [|[tid t] docs IH]; intros Hnd w w1.
  - intros [= <-]. split; [by intros k t ?%elem_of_nil|done].
  - cbn [for_each]. rewrite bind_run.
    destruct (f (tid, t) w) as [[[]| |e] wa] eqn:E; [|done..].
    apply Hf in E. apply NoDup_cons in Hnd as [Hfresh Hnd].
    intros [Hin Hout]%(IH Hnd). split.
    + intros k t' [[= -> ->]|Hk]%elem_of_cons; [|by apply Hin].
      rewrite Hout by done. rewrite E. apply lookup_insert_eq.
    + intros k [Hk1 Hk2]%not_elem_of_cons. rewrite Hout by done.
      rewrite E. by rewrite lookup_insert_ne.
Qed.

(** [s] is an entry of [ids] that denotes the identifier [o]. *)
Definition names (ids : list string) (o : string) : Prop :=
  exists s, s ∈ ids /\ castObjectId s = Some o.

Lemma mapM_cast_names (ids os : list string) (o : string) :
  mapM castObjectId ids = Some os -> o ∈ os -> names ids o.
Proof.
  intros H%mapM_Some Ho.
  induction H as [|s o' ids os Hc _ IH]; [by apply elem_of_nil in Ho|].
  apply elem_of_cons in Ho as [->|Ho].
  - exists s. split; [apply elem_of_cons; by left|done].
  - destruct (IH Ho) as (s' & ? & ?). exists s'.
    split; [apply elem_of_cons; by right|done].
Qed.

(** The phase over the tasks named by [ids], when it runs to its end:
    every stored task that [ids] names is rewritten, every other is as it
    was, and no task appears. *)
Lemma for_tasks_in_rewrites (f : string * Task -> M unit) (g : Task -> Task)
    (ids : list string) (w w1 : world) :
  rewrites_task f g ->
  for_tasks_in ids f w = (Value tt, w1) ->
  (forall o t, names ids o -> tasks w !! o = Some t -> tasks w1 !! o = Some (g t)) /\
  (forall o, ~ names ids o -> tasks w1 !! o = tasks w !! o) /\
  (forall o, tasks w !! o = None -> tasks w1 !! o = None).
Proof.
  intros Hf. unfold for_tasks_in. rewrite when_run.
  case_bool_decide as Hnil; cbn [negb].
  { subst ids. intros [= <-]. split_and!; [|done|done].
    by intros o t (s & ?%elem_of_nil & _). }
  rewrite bind_run, Task_find_in_run.
  destruct (mapM castObjectId ids) as [os|] eqn:Hos; [|done].
  intros [Hin Hout]%(for_each_rewrites f g); [|done|apply NoDup_found].
  cbn [tasks logged] in Hout.
  split_and!.
  - intros o t (s & Hs & Ho) Ht. apply Hin, list_elem_of_filter. split.
    + cbn. by eapply mapM_cast_elem.
    + by apply elem_of_map_to_list.
  - intros o Ho. rewrite Hout; [done|].
    intros ([k t] & -> & [Hk _]%list_elem_of_filter)%list_elem_of_fmap.
    apply Ho. by eapply mapM_cast_names.
  - intros o Ho. rewrite Hout; [done|].
    intros ([k t] & -> & [_ Hk%elem_of_map_to_list]%list_elem_of_filter)%list_elem_of_fmap.
    cbn in Ho. congruence.
Qed.

Lemma unassign_rewrites (uid : string) :
  rewrites_task (unassign uid) (fun t => set_assigned t "" "unassigned").
Proof. intros tid t w w1. rewrite unassign_run. by intros [= <-]. Qed.

(** The callback of [DELETE /users/:id]. *)
Definition clear_owner (d : string * Task) : M unit :=
  let '(tid, t) := d in Task_save tid (set_assigned t "" "unassigned").

Lemma clear_owner_rewrites :
  rewrites_task clear_owner (fun t => set_assigned t "" "unassigned").
Proof. intros tid t w w1. cbn [clear_owner]. rewrite Task_save_run. by intros [= <-]. Qed.

Lemma claim_rewrites (uid uname : string) :
  rewrites_task (claim uid uname) (fun t => set_assigned t uid uname).
Proof.
  intros tid t w w1. unfold claim. rewrite bind_run, when_run.
  set (b := negb _ && negb _).
  destruct (if b then _ else _) as [[[]| |e] wa] eqn:Ea; [|done..].
  rewrite bind_run, Task_save_run.
  unfold sync_pending, addPendingToUser, removePendingFromUser. cbn [falsy_ref].
  assert (tasks wa = tasks w) as <-.
  { destruct b; [|by injection Ea as <-].
    revert Ea. unfold removePendingFromUser.
    destruct (falsy_ref _); [by intros [= <-]|].
    rewrite User_findByIdAndUpdate_run. destruct (denotes _); [|done].
    by intros [= <-]. }
  destruct (negb (completed (set_assigned t uid uname)));
    rewrite User_findByIdAndUpdate_run; cbn [denotes]; by intros [= <-].
Qed.

Lemma names_dec (ids : list string) (o : string) : names ids o \/ ~ names ids o.
Proof.
  destruct (decide (Exists (fun s => castObjectId s = Some o) ids)) as [H|H].
  - left. by apply Exists_exists in H.
  - right. intros Hn. apply H, Exists_exists. exact Hn.
Qed.

Lemma User_deleteOne_run (o : string) (w : world) :
  User_deleteOne o w = (Value tt, with_users (delete o) (logged (OpDelete Users) w)).
Proof. reflexivity. Qed.

Lemma quiet_clear_owner (d : string * Task) : quiet (clear_owner d).
Proof. destruct d. apply quiet_Task_save. Qed.

Lemma clear_owner_keeps_users (ids : list string) (w w1 : world) (o : outcome unit) :
  for_tasks_in ids clear_owner w = (o, w1) -> users w1 = users w.
Proof.
  unfold for_tasks_in. rewrite when_run.
  destruct (negb _); [|by intros [= <- <-]].
  rewrite bind_run, Task_find_in_run.
  destruct (mapM castObjectId _) as [os|]; [|by intros [= <- <-]].
  generalize (filter (fun d : string * Task => d.1 ∈ os) (map_to_list (tasks w))).
  intros docs. change (users w) with (users (logged (OpFind Tasks) w)).
  generalize (logged (OpFind Tasks) w). clear w.
  induction docs as [|[tid t] docs IH]; intros w; [by intros [= <- <-]|].
  cbn [for_each clear_owner]. rewrite bind_run, Task_save_run.
  by intros ->%IH.
Qed.

(** What a user deletion that answers 200 went through. *)
Lemma delete_user_deleted (id : string)
    (ts : gmap string Task) (us : gmap string User) (r : response) (w' : world) :
  run (delete_user id) (request_on ts us) = w' ->
  res w' = Some r ->
  status r = 200 ->
  exists uid user w1,
    castObjectId id = Some uid /\
    us !! uid = Some user /\
    for_tasks_in (pendingTasks user) clear_owner
      (logged (OpFindById Users) (request_on ts us)) = (Value tt, w1) /\
    tasks w' = tasks w1 /\
    users w' = delete uid us.
Proof.
  intros Hrun Hres Hst. revert Hrun.
  assert (forall r0 w, status r0 <> 200 -> responded r0 w = w' -> False) as Hother.
  { intros r0 w Hr0 <-. cbn in Hres. congruence. }
  unfold run, delete_user, try_catch.
  rewrite bind_run, User_findById_run. cbn [denotes].
  destruct (castObjectId id) as [uid|]; [|other_answer Hother].
  cbn [users logged request_on].
  destruct (us !! uid) as [user|] eqn:Hu; [|other_answer Hother].
  cbn [fmap option_fmap option_map]. cbv zeta.
  rewrite bind_run.
  change (fun '(tid, t) => Task_save tid (set_assigned t "" "unassigned"))
    with clear_owner.
  destruct (for_tasks_in (pendingTasks user) clear_owner
              (logged (OpFindById Users) (request_on ts us))) as [[[]| |e] w1] eqn:E.
  - rewrite bind_run, User_deleteOne_run, send_run. intros <-.
    pose proof (clear_owner_keeps_users _ _ _ _ E) as Hus.
    exists uid, user, w1. split_and!; [done|done|done|done|].
    cbn [snd users responded with_users logged]. by rewrite Hus.
  - apply quiet_for_tasks_in in E as [? _]; [done|apply quiet_clear_owner].
  - other_answer Hother.
Qed.

(** X14: a user deletion that answers 200 removed exactly that user and wrote no
    other user; every stored task named by the user's pending list lost its
    owner, every other task is as it was, also one that still carries the
    deleted user as its [assignedUser] (a completed task, say), and no task
    appeared. *)
Theorem delete_user_unassigns (id : string)
    (ts : gmap string Task) (us : gmap string User) (r : response) :
  let w' := run (delete_user id) (request_on ts us) in
  res w' = Some r ->
  status r = 200 ->
  exists uid user,
    castObjectId id = Some uid /\
    us !! uid = Some user /\
    users w' = delete uid us /\
    (forall o t, names (pendingTasks user) o -> ts !! o = Some t ->
                 tasks w' !! o = Some (set_assigned t "" "unassigned")) /\
    (forall o, ~ names (pendingTasks user) o -> tasks w' !! o = ts !! o) /\
    (forall o, ts !! o = None -> tasks w' !! o = None).
Proof.
  intros w' Hres Hst.
  destruct (delete_user_deleted id ts us r w' eq_refl Hres Hst)
    as (uid & user & w1 & Hid & Hu & E & Hts & Hus).
  apply for_tasks_in_rewrites with (g := fun t => set_assigned t "" "unassigned")
    in E as (Hin & Hout & Hnew); [|apply clear_owner_rewrites].
  exists uid, user. rewrite Hts.
  split_and!; [done|done|done|exact Hin|exact Hout|exact Hnew].
Qed.

(** ** Editing a user's pending list *)

(** X15: after a user update that answered 200, with [removed] the entries of the
    stored list that the request dropped and [added] the entries the request
    brought: every stored task named by [added] belongs to the user, under
    the name of the request; every stored task named by [removed] only has
    lost its owner; every other task is as it was, cached owner name
    included, and no task appeared. *)
Theorem put_user_moves_tasks (id : string) (body : list (string * json))
    (ts : gmap string Task) (us : gmap string User) (r : response) :
  let w' := run (put_user id body) (request_on ts us) in
  res w' = Some r ->
  status r = 200 ->
  exists uid user,
    let new := strings_or_empty (field "pendingTasks" body) in
    let prev := pendingTasks user in
    let removed := filter (fun i => i ∉ new) prev in
    let added := filter (fun i => i ∉ prev) new in
    castObjectId id = Some uid /\
    us !! uid = Some user /\
    (forall o t, names added o -> ts !! o = Some t ->
       tasks w' !! o = Some (set_assigned t uid (text (field "name" body)))) /\
    (forall o t, names removed o -> ~ names added o -> ts !! o = Some t ->
       tasks w' !! o = Some (set_assigned t "" "unassigned")) /\
    (forall o, ~ names removed o -> ~ names added o -> tasks w' !! o = ts !! o) /\
    (forall o, ts !! o = None -> tasks w' !! o = None).
Proof.
  intros w' Hres Hst.
  destruct (put_user_ok id body ts us r w' eq_refl Hres Hst)
    as (uid & user & w1 & w2 & Hid & Hu & Hn & He & Hn' & He' & E1 & E2 & Hw').
  cbn zeta in *.
  apply for_tasks_in_rewrites with (g := fun t => set_assigned t "" "unassigned")
    in E1 as (Hin1 & Hout1 & Hnew1); [|apply unassign_rewrites].
  apply for_tasks_in_rewrites
    with (g := fun t => set_assigned t uid (text (field "name" body)))
    in E2 as (Hin2 & Hout2 & Hnew2); [|apply claim_rewrites].
  cbn [tasks logged request_on] in Hin1, Hout1, Hnew1.
  assert (tasks w' = tasks w2) as Htw by by rewrite Hw'.
  exists uid, user. split_and!; [done|done| | | |].
  - intros o t Hadd Ht. rewrite Htw.
    destruct (names_dec (filter (fun i => i ∉ strings_or_empty (field "pendingTasks" body))
                           (pendingTasks user)) o) as [Hrem|Hrem].
    + by rewrite (Hin2 o _ Hadd (Hin1 o t Hrem Ht)).
    + apply Hin2; [done|]. by rewrite Hout1.
  - intros o t Hrem Hadd Ht. rewrite Htw, Hout2 by done. by apply Hin1.
  - intros o Hrem Hadd. by rewrite Htw, Hout2, Hout1.
  - intros o Ho. rewrite Htw. by apply Hnew2, Hnew1.
Qed.

(** ** The pending-set helpers *)

Lemma pull_absent (x : string) (l : list string) : x ∉ l -> pull x l = l.
Proof.
  intros Hx. unfold pull. induction l as [|y l IH]; [done|].
  apply not_elem_of_cons in Hx as [Hne Hx].
  rewrite filter_cons_True by done. by rewrite IH.
Qed.

Lemma pull_addToSet (x : string) (l : list string) : pull x (addToSet x l) = pull x l.
Proof.
  unfold addToSet. case_decide; [done|].
  unfold pull. rewrite filter_app, filter_cons_False by (by intros ?).
  cbn. by rewrite app_nil_r.
Qed.

Lemma pull_pull (x : string) (l : list string) : pull x (pull x l) = pull x l.
Proof. apply pull_absent. by intros [? _]%elem_of_pull. Qed.

Lemma addToSet_addToSet (x : string) (l : list string) :
  addToSet x (addToSet x l) = addToSet x l.
Proof.
  unfold addToSet at 1. rewrite decide_True; [done|].
  apply elem_of_addToSet. by left.
Qed.

Lemma NoDup_addToSet (x : string) (l : list string) : NoDup l -> NoDup (addToSet x l).
Proof.
  intros Hnd. unfold addToSet. case_decide as Hx; [done|].
  apply NoDup_app. split_and!; [done| |apply NoDup_singleton].
  intros y Hy ->%list_elem_of_singleton. done.
Qed.

(** The documents a computation leaves behind. *)
Definition store_after (m : M unit) (w : world) : gmap string Task * gmap string User :=
  (tasks (m w).2, users (m w).2).

Lemma alter_twice (f g h : User -> User) (o : string) (us : gmap string User) :
  (forall u, f (g u) = h u) -> alter f o (alter g o us) = alter h o us.
Proof.
  intros Hfg. apply map_eq. intros k.
  destruct (decide (o = k)) as [<-|Hne].
  - rewrite !lookup_alter_eq. destruct (us !! o); cbn; [by rewrite Hfg|done].
  - by rewrite !lookup_alter_ne.
Qed.

(** X16: for a user identifier that is well formed, [addPendingToUser] and
    [removePendingFromUser] are idempotent on the store, a removal after an
    addition is that removal, and an addition keeps a pending list without
    repetition so, the task in it. *)
Theorem pending_helpers_compose (s tid o : string) (w : world) :
  s <> "" ->
  castObjectId s = Some o ->
  let add := addPendingToUser (RawId s) tid in
  let remove := removePendingFromUser (RawId s) tid in
  store_after (add ;; add) w = store_after add w /\
  store_after (remove ;; remove) w = store_after remove w /\
  store_after (add ;; remove) w = store_after remove w /\
  (forall u, users w !! o = Some u ->
     exists u', users (add w).2 !! o = Some u' /\
                tid ∈ pendingTasks u' /\
                (NoDup (pendingTasks u) -> NoDup (pendingTasks u'))).
Proof.
  intros Hs Ho add remove. subst add remove.
  unfold store_after, addPendingToUser, removePendingFromUser. cbn [falsy_ref].
  rewrite (eqb_empty_false _ Hs), !bind_run, !User_findByIdAndUpdate_run.
  cbn [denotes]. rewrite Ho, !User_findByIdAndUpdate_run. cbn [denotes]. rewrite Ho.
  cbn [snd tasks users with_users logged].
  split_and!.
  - f_equal. apply alter_twice. intros u. unfold set_pending.
    cbn [pendingTasks user_name email]. by rewrite addToSet_addToSet.
  - f_equal. apply alter_twice. intros u. unfold set_pending.
    cbn [pendingTasks user_name email]. by rewrite pull_pull.
  - f_equal. apply alter_twice. intros u. unfold set_pending.
    cbn [pendingTasks user_name email]. by rewrite pull_addToSet.
  - intros u Hu. rewrite lookup_alter, decide_True, Hu by done. cbn.
    eexists. split; [done|]. cbn. split.
    + apply elem_of_addToSet. by left.
    + apply NoDup_addToSet.
Qed.

(** X17: [addPendingToUser] and [removePendingFromUser] do nothing, not even a
    store access, for an empty [userId]; for the identifier of no stored
    user they reach the store and change no document. *)
Theorem pending_helpers_without_user (taskId : string) (w : world) :
  addPendingToUser (RawId "") taskId w = (Value tt, w) /\
  removePendingFromUser (RawId "") taskId w = (Value tt, w) /\
  (forall s o, s <> "" -> castObjectId s = Some o -> users w !! o = None ->
     store_after (addPendingToUser (RawId s) taskId) w = (tasks w, users w) /\
     store_after (removePendingFromUser (RawId s) taskId) w = (tasks w, users w)).
Proof.
  split; [done|]. split; [done|].
  intros s o Hs Ho Hnone.
  unfold store_after, addPendingToUser, removePendingFromUser. cbn [falsy_ref].
  rewrite (eqb_empty_false _ Hs), !User_findByIdAndUpdate_run. cbn [denotes].
  rewrite Ho. cbn [snd tasks users with_users logged].
  assert (forall f : User -> User, alter f o (users w) = users w) as Halter.
  { intros f. apply map_eq. intros k. rewrite lookup_alter.
    case_decide; [subst; by rewrite Hnone|done]. }
  by rewrite !Halter.
Qed.

(** ** The last block of the task update *)

(** Lines 168 to 178 of [PUT /tasks/:id]: detach from the previous owner,
    then set the membership under the new one. *)
Definition reconcile_first_two (tid prevAssignedUser newAssignedUser : string)
    (newCompleted : bool) : M unit :=
  when_ (negb (String.eqb prevAssignedUser "") &&
         negb (String.eqb prevAssignedUser newAssignedUser))
    (removePendingFromUser (RawId prevAssignedUser) tid) ;;
  when_ (negb (String.eqb newAssignedUser ""))
    (sync_pending (RawId newAssignedUser) tid newCompleted).

(** X18: the last block of [PUT /tasks/:id] (same owner, completion
    changed) repeats the update the two blocks before it just made:
    whatever the two states are, [reconcile] ends as its first two steps do
    and leaves the same documents. *)
Theorem reconcile_last_block_changes_nothing (tid prev new : string) (pc nc : bool)
    (w : world) :
  (reconcile tid prev pc new nc w).1 = (reconcile_first_two tid prev new nc w).1 /\
  store_after (reconcile tid prev pc new nc) w =
  store_after (reconcile_first_two tid prev new nc) w.
Proof.
  unfold store_after, reconcile, reconcile_first_two.
  rewrite !bind_run, !when_run.
  destruct (String.eqb prev "") eqn:Hp; cbn [negb andb];
    [apply String.eqb_eq in Hp|apply String.eqb_neq in Hp];
  (destruct (String.eqb prev new) eqn:Hpn; cbn [negb andb];
    [apply String.eqb_eq in Hpn|apply String.eqb_neq in Hpn]).
  all: try (destruct (removePendingFromUser (RawId prev) tid w) as [[[]| |?] wa];
            [|done..]).
  all: rewrite ?bind_run, ?when_run.
  all: destruct (String.eqb new "") eqn:Hn; cbn [negb andb];
    [apply String.eqb_eq in Hn|apply String.eqb_neq in Hn]; try done;
    try (exfalso; congruence).
  all: rewrite ?ret_run; try done.
  all: try (by destruct (sync_pending (RawId new) tid nc _) as [[[]| |?] ?]).
  all: unfold sync_pending, addPendingToUser, removePendingFromUser; cbn [falsy_ref].
  all: rewrite (eqb_empty_false _ Hn).
  all: destruct pc, nc; cbn [negb andb]; rewrite ?User_findByIdAndUpdate_run;
    cbn [denotes]; destruct (castObjectId new) as [k|] eqn:Hk; try done.
  all: rewrite when_run, User_findByIdAndUpdate_run; cbn [denotes]; rewrite Hk.
  all: cbn [fst snd tasks users with_users logged]; split; [done|f_equal].
  all: apply alter_twice; intros u; unfold set_pending;
    cbn [pendingTasks user_name email].
  - by rewrite addToSet_addToSet.
  - by rewrite pull_pull.
Qed.

(** ** Creating a user with tasks *)

(** The owner that the record [t] names, as an identifier, when it is
    another one than [uid]: the user a claim by [uid] detaches [t] from. *)
Definition previous_owner (uid : string) (t : Task) (k : string) : Prop :=
  assignedUser t <> "" /\ assignedUser t <> uid /\
  castObjectId (assignedUser t) = Some k.

Lemma holds_drop_other (us : gmap string User) (k k' tid x : string) :
  x <> tid -> holds (alter (drop_pending tid) k us) k' x <-> holds us k' x.
Proof.
  intros Hx. rewrite holds_alter. unfold holds, drop_pending. cbn.
  split.
  - intros [[_ ?]|(-> & u & Hu & [_ ?]%elem_of_pull)]; [done|by exists u].
  - intros (u & Hu & Hin). destruct (decide (k' = k)) as [->|Hne].
    + right. split; [done|]. exists u. split; [done|]. by apply elem_of_pull.
    + left. split; [done|]. by exists u.
Qed.

Lemma holds_add_other (us : gmap string User) (k k' tid x : string) :
  x <> tid -> holds (alter (add_pending tid) k us) k' x <-> holds us k' x.
Proof.
  intros Hx. rewrite holds_alter. unfold holds, add_pending. cbn.
  split.
  - intros [[_ ?]|(-> & u & Hu & [?|?]%elem_of_addToSet)]; [done|done|by exists u].
  - intros (u & Hu & Hin). destruct (decide (k' = k)) as [->|Hne].
    + right. split; [done|]. exists u. split; [done|].
      apply elem_of_addToSet. by right.
    + left. split; [done|]. by exists u.
Qed.

(** The users a claim that ran to its end leaves behind. *)
Lemma claim_users (uid uname tid : string) (t : Task) (w w1 : world) :
  claim uid uname (tid, t) w = (Value tt, w1) ->
  exists us1,
    ((exists k0, previous_owner uid t k0 /\
                 us1 = alter (drop_pending tid) k0 (users w)) \/
     ((forall k0, ~ previous_owner uid t k0) /\ us1 = users w)) /\
    users w1 = alter (if completed t then drop_pending tid else add_pending tid)
                 uid us1.
Proof.
  unfold claim. rewrite bind_run, when_run.
  destruct (String.eqb (assignedUser t) "") eqn:Ha; cbn [negb andb];
    [apply String.eqb_eq in Ha|apply String.eqb_neq in Ha];
  [|destruct (String.eqb (assignedUser t) uid) eqn:Hu; cbn [negb andb];
    [apply String.eqb_eq in Hu|apply String.eqb_neq in Hu]].
  3: { destruct (removePendingFromUser _ tid w) as [[[]| |e] wa] eqn:E; [|done..].
       apply removePending_value in E as (k0 & Hk0 & _ & Hua); [|done].
       rewrite bind_run, Task_save_run.
       unfold sync_pending, addPendingToUser, removePendingFromUser.
       cbn [falsy_ref completed set_assigned].
       destruct (completed t); cbn [negb]; rewrite User_findByIdAndUpdate_run;
         cbn [denotes]; intros [= <-]; exists (users wa);
         (split; [left; by exists k0|done]). }
  all: rewrite bind_run, Task_save_run;
    unfold sync_pending, addPendingToUser, removePendingFromUser;
    cbn [falsy_ref completed set_assigned];
    destruct (completed t); cbn [negb]; rewrite User_findByIdAndUpdate_run;
    cbn [denotes]; intros [= <-]; exists (users w);
    (split; [right; split; [by intros k0 (? & ? & _)|done]|done]).
Qed.

(** One claim, on the pending lists: names and emails stay; no list changes
    at another task than [tid]; [uid], when stored, ends with [tid] pending
    exactly when the task is not completed; another user keeps [tid] unless
    the task's record named that user as its owner. *)
Lemma claim_pending (uid uname tid : string) (t : Task) (w w1 : world) :
  claim uid uname (tid, t) w = (Value tt, w1) ->
  identity_of <$> users w1 = identity_of <$> users w /\
  (forall k x, x <> tid -> holds (users w1) k x <-> holds (users w) k x) /\
  (is_Some (users w !! uid) -> (holds (users w1) uid tid <-> completed t = false)) /\
  (forall k, k <> uid ->
     holds (users w1) k tid <-> holds (users w) k tid /\ ~ previous_owner uid t k).
Proof.
  intros (us1 & Hus1 & ->)%claim_users.
  assert (identity_of <$> us1 = identity_of <$> users w) as Hid1.
  { destruct Hus1 as [(k0 & _ & ->)|[_ ->]]; [apply identity_alter|done]. }
  assert (forall k x, x <> tid -> holds us1 k x <-> holds (users w) k x) as Hframe1.
  { intros k x Hx. destruct Hus1 as [(k0 & _ & ->)|[_ ->]]; [|done].
    by apply holds_drop_other. }
  split_and!.
  - rewrite <- Hid1. destruct (completed t); apply identity_alter.
  - intros k x Hx. rewrite <- Hframe1 by done.
    destruct (completed t); [by apply holds_drop_other|by apply holds_add_other].
  - intros Hsome.
    assert (is_Some (us1 !! uid)) as Hsome1.
    { destruct Hus1 as [(k0 & _ & ->)|[_ ->]]; [by apply is_Some_alter|done]. }
    destruct (completed t).
    + rewrite holds_drop. split; [by intros [_ ?]|done].
    + rewrite holds_add. split; [done|]. intros _. by right.
  - intros k Hk.
    assert (holds (alter (if completed t then drop_pending tid else add_pending tid)
                     uid us1) k tid <-> holds us1 k tid) as ->.
    { destruct (completed t).
      - rewrite holds_drop. tauto.
      - rewrite holds_add. split; [intros [?|[? _]]; done|auto]. }
    destruct Hus1 as [(k0 & Hk0 & ->)|[Hno ->]].
    + rewrite holds_drop. split.
      * intros [Hh Hne]. split; [done|]. intros (_ & _ & Hc).
        destruct Hk0 as (_ & _ & Hc0). congruence.
      * intros [Hh Hno]. split; [done|]. by intros ->.
    + split; [intros ?; split; [done|apply Hno]|by intros [? _]].
Qed.

Lemma identity_is_Some (us us' : gmap string User) (k : string) :
  identity_of <$> us' = identity_of <$> us ->
  is_Some (us !! k) -> is_Some (us' !! k).
Proof.
  intros Hid Hk. apply (f_equal (fun m => m !! k)) in Hid.
  rewrite !lookup_fmap in Hid. destruct Hk as [u Hu]. rewrite Hu in Hid.
  by destruct (us' !! k).
Qed.

Lemma for_each_claim_pending (uid uname : string) (docs : list (string * Task)) :
  NoDup docs.*1 ->
  forall w w1,
    for_each (claim uid uname) docs w = (Value tt, w1) ->
    identity_of <$> users w1 = identity_of <$> users w /\
    (forall k x, x ∉ docs.*1 -> holds (users w1) k x <-> holds (users w) k x) /\
    (is_Some (users w !! uid) ->
     forall x t, (x, t) ∈ docs -> (holds (users w1) uid x <-> completed t = false)) /\
    (forall k x t, k <> uid -> (x, t) ∈ docs ->
       holds (users w1) k x <-> holds (users w) k x /\ ~ previous_owner uid t k).
Proof.
  induction docs as [|[tid t] docs IH]; intros Hnd w w1.
  - intros [= <-]. split_and!; [done|done| |].
    + by intros _ x t ?%elem_of_nil.
    + by intros k x t _ ?%elem_of_nil.
  - cbn [for_each]. rewrite bind_run.
    destruct (claim uid uname (tid, t) w) as [[[]| |e] wa] eqn:E; [|done..].
    apply claim_pending in E as (Hid0 & Hframe0 & Hmine0 & Hother0).
    apply NoDup_cons in Hnd as [Hfresh Hnd].
    intros (Hid & Hframe & Hmine & Hother)%(IH Hnd).
    split_and!.
    + congruence.
    + intros k x [Hx1 Hx2]%not_elem_of_cons.
      rewrite Hframe by done. by apply Hframe0.
    + intros Hsome x t' [[= -> ->]|Hin]%elem_of_cons.
      * rewrite Hframe by done. by apply Hmine0.
      * apply Hmine; [|done]. by eapply identity_is_Some.
    + intros k x t' Hk [[= -> ->]|Hin]%elem_of_cons.
      * rewrite Hframe by done. by apply Hother0.
      * rewrite (Hother k x t' Hk Hin). rewrite Hframe0; [done|].
        intros ->. apply Hfresh. apply list_elem_of_fmap. by exists (tid, t').
Qed.

(** The claiming phase of the user handlers, when it runs to its end, in
    terms of the store it started on. *)
Lemma for_tasks_in_claim_pending (uid uname : string) (ids : list string)
    (w w1 : world) :
  for_tasks_in ids (claim uid uname) w = (Value tt, w1) ->
  identity_of <$> users w1 = identity_of <$> users w /\
  (forall k x, ~ (names ids x /\ is_Some (tasks w !! x)) ->
     holds (users w1) k x <-> holds (users w) k x) /\
  (is_Some (users w !! uid) ->
   forall x t, names ids x -> tasks w !! x = Some t ->
     (holds (users w1) uid x <-> completed t = false)) /\
  (forall k x t, k <> uid -> names ids x -> tasks w !! x = Some t ->
     holds (users w1) k x <-> holds (users w) k x /\ ~ previous_owner uid t k).
Proof.
  unfold for_tasks_in. rewrite when_run.
  case_bool_decide as Hnil; cbn [negb].
  { subst ids. intros [= <-]. split_and!; [done|done| |].
    - by intros _ x t (s & ?%elem_of_nil & _).
    - by intros k x t _ (s & ?%elem_of_nil & _). }
  rewrite bind_run, Task_find_in_run.
  destruct (mapM castObjectId ids) as [os|] eqn:Hos; [|done].
  set (docs := filter _ _).
  assert (forall x t, (x, t) ∈ docs <-> x ∈ os /\ tasks w !! x = Some t) as Hdocs.
  { intros x t. unfold docs. rewrite list_elem_of_filter, elem_of_map_to_list. done. }
  assert (forall x, names ids x <-> x ∈ os) as Hnames.
  { intros x. split.
    - intros (s & Hs & Hc). by eapply mapM_cast_elem.
    - by eapply mapM_cast_names. }
  intros (Hid & Hframe & Hmine & Hother)%for_each_claim_pending;
    [|apply NoDup_found].
  cbn [users logged] in *.
  split_and!; [done| | |].
  - intros k x Hx. apply Hframe.
    intros ([x' t] & -> & [Hin Ht]%Hdocs)%list_elem_of_fmap.
    apply Hx. split; [by apply Hnames|by exists t].
  - intros Hsome x t Hx Ht. apply Hmine; [done|].
    apply Hdocs. split; [by apply Hnames|done].
  - intros k x t Hk Hx Ht. apply Hother; [done|].
    apply Hdocs. split; [by apply Hnames|done].
Qed.

(** What a user creation that answers 201 went through. *)
Lemma post_users_created (oid : string) (body : list (string * json))
    (ts : gmap string Task) (us : gmap string User) (r : response) (w' : world) :
  run (post_users oid body) (request_on ts us) = w' ->
  res w' = Some r ->
  status r = 201 ->
  exists w2,
    let name := text (field "name" body) in
    let email_ := toLowerCase (text (field "email" body)) in
    let pending := strings_or_empty (field "pendingTasks" body) in
    string_like (field "name" body) /\
    string_like (field "email" body) /\
    name <> "" /\ email_ <> "" /\
    (forall k u, us !! k = Some u -> email u <> email_) /\
    us !! oid = None /\
    for_tasks_in pending (claim oid name)
      (with_users (insert oid (mkUser name email_ []))
         (logged (OpInsert Users) (logged (OpFindOne Users) (request_on ts us))))
      = (Value tt, w2) /\
    w' = responded
           (mkResponse 201 "Created" (user_payload (pair oid <$> users w2 !! oid)))
           (logged (OpFindById Users) w2).
Proof.
  intros Hrun Hres Hst. revert Hrun.
  assert (forall e w, (user_write_failed e w).2 = w' -> False) as Hfail.
  { intros e w <-. apply user_write_failed_status in Hres. lia. }
  assert (forall r0 w, status r0 <> 201 -> responded r0 w = w' -> False) as Hother.
  { intros r0 w Hr0 <-. cbn in Hres. congruence. }
  unfold run, post_users, try_catch.
  rewrite bind_run.
  destruct (trimmed_cases (field "name" body) (request_on ts us)) as [[Hn ->]| ->];
    [|intros H; exfalso; exact (Hfail _ _ H)].
  rewrite bind_run.
  destruct (trimmed_cases (field "email" body) (request_on ts us)) as [[He ->]| ->];
    [|intros H; exfalso; exact (Hfail _ _ H)].
  cbn zeta. rewrite bind_run. unfold when_ at 1.
  destruct (_ || _) eqn:Hne; [other_answer Hother|].
  apply orb_false_iff in Hne as [Hne1%String.eqb_neq Hne2%String.eqb_neq].
  rewrite ret_run, bind_run, User_findOne_email_run.
  cbn [users logged request_on].
  destruct (head _) as [[k0 u0]|] eqn:Hhead.
  { rewrite bind_run. unfold when_ at 1. other_answer Hother. }
  rewrite bind_run, when_run, bind_run, User_create_run.
  cbn [users logged request_on].
  destruct (us !! oid) eqn:Hfresh; [intros H; exfalso; exact (Hfail _ _ H)|].
  rewrite bind_run.
  match goal with |- context [for_tasks_in ?l (claim oid ?n) ?w] =>
    destruct (for_tasks_in l (claim oid n) w) as [[[]| |e] w2] eqn:E end.
  - rewrite bind_run, User_findById_run. cbn [denotes].
    unfold created. rewrite send_run. intros <-.
    exists w2. cbn zeta. split_and!; try done.
    intros k u Hk Hemail.
    destruct (some_user_with_email _ _ _ _ Hk Hemail) as (? & ? & Hsome & _).
    congruence.
  - apply quiet_for_tasks_in in E as [? _]; [done|apply quiet_claim].
  - intros H; exfalso; exact (Hfail _ _ H).
Qed.

(** X19: a user creation that answered 201 stored the user under a fresh
    identifier and an email no user had, and handed it every stored task the
    request names: the task carries the new owner and name, the new user's
    pending list holds exactly the named stored tasks that are not
    completed, and each of them left the pending list of the owner its
    record named. No other task and no other pending entry changed, and no
    task appeared. *)
Theorem post_users_takes_tasks (oid : string) (body : list (string * json))
    (ts : gmap string Task) (us : gmap string User) (r : response) :
  let w' := run (post_users oid body) (request_on ts us) in
  res w' = Some r ->
  status r = 201 ->
  let name := text (field "name" body) in
  let email_ := toLowerCase (text (field "email" body)) in
  let pending := strings_or_empty (field "pendingTasks" body) in
  us !! oid = None /\
  (forall k u, us !! k = Some u -> email u <> email_) /\
  (forall o t, names pending o -> ts !! o = Some t ->
     tasks w' !! o = Some (set_assigned t oid name)) /\
  (forall o, ~ names pending o -> tasks w' !! o = ts !! o) /\
  (forall o, ts !! o = None -> tasks w' !! o = None) /\
  (exists u',
     users w' !! oid = Some u' /\ data r = PUser None (oid, u') /\
     user_name u' = name /\ email u' = email_ /\
     forall x, x ∈ pendingTasks u' <->
               exists t, names pending x /\ ts !! x = Some t /\ completed t = false) /\
  (forall k x, k <> oid ->
     holds (users w') k x <->
     holds us k x /\
     ~ exists t, names pending x /\ ts !! x = Some t /\ previous_owner oid t k).
Proof.
  intros w' Hres Hst name email_ pending.
  destruct (post_users_created oid body ts us r w' eq_refl Hres Hst)
    as (w2 & Hn & He & Hname & Hemail & Hfree & Hfresh & E & Hw').
  cbn zeta in E, Hw', Hfree. fold name email_ pending in E, Hw', Hfree.
  pose proof E as E'.
  apply for_tasks_in_rewrites with (g := fun t => set_assigned t oid name)
    in E' as (Hin & Hout & Hnew); [|apply claim_rewrites].
  apply for_tasks_in_claim_pending in E as (Hid & Hframe & Hmine & Hothers).
  cbn [tasks users with_users logged request_on]
    in Hin, Hout, Hnew, Hid, Hframe, Hmine, Hothers.
  assert (tasks w' = tasks w2) as Htw by by rewrite Hw'.
  assert (users w' = users w2) as Huw by by rewrite Hw'.
  assert (exists u', users w2 !! oid = Some u' /\ user_name u' = name /\ email u' = email_)
    as (u' & Hu' & Hn' & He').
  { apply (f_equal (fun m => m !! oid)) in Hid.
    rewrite !lookup_fmap, lookup_insert_eq in Hid.
    destruct (users w2 !! oid) as [u'|]; [|done]. exists u'. split; [done|].
    by injection Hid as ? ?. }
  split_and!; [done|done| | | | |].
  - intros o t Ho Ht. rewrite Htw. by apply Hin.
  - intros o Ho. rewrite Htw. by apply Hout.
  - intros o Ho. rewrite Htw. by apply Hnew.
  - exists u'. rewrite Huw. split_and!; [done| |done|done|].
    + rewrite Hw', Hu' in Hres. cbn in Hres. by injection Hres as <-.
    + intros x.
      assert (x ∈ pendingTasks u' <-> holds (users w2) oid x) as ->.
      { unfold holds. rewrite Hu'. split; [eauto|]. by intros (? & [= <-] & ?). }
      destruct (names_dec pending x) as [Hx|Hx].
      * destruct (ts !! x) as [t|] eqn:Ht.
        -- rewrite (Hmine ltac:(by rewrite lookup_insert_eq) x t Hx Ht).
           split; [by exists t|]. intros (t0 & _ & [= <-] & ?). done.
        -- rewrite Hframe by (intros [_ [? ?]]; congruence).
           split; [|by intros (? & _ & ? & _)].
           intros (u0 & Hu0 & Hx0). rewrite lookup_insert_eq in Hu0.
           injection Hu0 as <-. by apply elem_of_nil in Hx0.
      * rewrite Hframe by (by intros [? _]).
        split; [|by intros (? & ? & _)].
        intros (u0 & Hu0 & Hx0). rewrite lookup_insert_eq in Hu0.
        injection Hu0 as <-. by apply elem_of_nil in Hx0.
  - intros k x Hk. rewrite Huw.
    assert (holds (<[oid := mkUser name email_ []]> us) k x <-> holds us k x) as Hins.
    { unfold holds. by rewrite lookup_insert_ne. }
    destruct (names_dec pending x) as [Hx|Hx].
    + destruct (ts !! x) as [t|] eqn:Ht.
      * rewrite (Hothers k x t Hk Hx Ht), Hins.
        split; intros [Hh Hno]; (split; [done|]).
        -- intros (t0 & _ & [= <-] & ?). done.
        -- intros Hp. apply Hno. by exists t.
      * rewrite Hframe by (intros [_ [? ?]]; congruence). rewrite Hins.
        split; [|by intros [? _]]. intros Hh. split; [done|].
        by intros (? & _ & ? & _).
    + rewrite Hframe by (by intros [? _]). rewrite Hins.
      split; [|by intros [? _]]. intros Hh. split; [done|].
      by intros (? & ? & _).
Qed.

(** ** The two references in step

    A task names its owner and a user lists its pending tasks. The two
    agree when every pending entry is a stored task that is not completed
    and names that user, and every stored task that is not completed and
    names an owner is pending under it. *)

Definition pending_sound (ts : gmap string Task) (us : gmap string User) : Prop :=
  forall k x, holds us k x ->
    exists t, ts !! x = Some t /\ completed t = false /\
              assignedUser t <> "" /\ castObjectId (assignedUser t) = Some k.

Definition pending_complete (ts : gmap string Task) (us : gmap string User) : Prop :=
  forall x t, ts !! x = Some t -> assignedUser t <> "" -> completed t = false ->
    exists k, castObjectId (assignedUser t) = Some k /\ holds us k x.

Definition in_step (ts : gmap string Task) (us : gmap string User) : Prop :=
  pending_sound ts us /\ pending_complete ts us.

(** The keys of the task collection are identifiers in their string form. *)
Definition keyed_by_identifiers (ts : gmap string Task) : Prop :=
  forall k, is_Some (ts !! k) -> castObjectId k = Some k.

Lemma holds_sync_other (us : gmap string User) (c : bool) (k k' tid x : string) :
  x <> tid ->
  holds (alter (if c then drop_pending tid else add_pending tid) k us) k' x <->
  holds us k' x.
Proof. destruct c; [apply holds_drop_other|apply holds_add_other]. Qed.

(** *** Creating a task *)

(** What a task creation that answers 201 went through. *)
Lemma post_tasks_created (oid : string) (now : Z) (body : list (string * json))
    (ts : gmap string Task) (us : gmap string User) (r : response) (w' : world) :
  run (post_tasks oid now body) (request_on ts us) = w' ->
  res w' = Some r ->
  status r = 201 ->
  exists t',
    let a := string_or_empty (field "assignedUser" body) in
    let c := bool_or_false (field "completed" body) in
    ts !! oid = None /\
    assignedUser t' = a /\ completed t' = c /\
    tasks w' = <[oid := t']> ts /\
    ((a = "" /\ users w' = us) \/
     (a <> "" /\
      exists uid, castObjectId a = Some uid /\ is_Some (us !! uid) /\
                  users w' = alter (if c then drop_pending oid else add_pending oid)
                               uid us)).
Proof.
  intros Hrun Hres Hst. revert Hrun.
  assert (forall r0 w, status r0 <> 201 -> responded r0 w = w' -> False) as Hother.
  { intros r0 w Hr0 <-. cbn in Hres. congruence. }
  unfold run, post_tasks, try_catch.
  rewrite bind_run.
  destruct (trimmed_cases (field "name" body) (request_on ts us)) as [[Hn ->]| ->];
    [|other_answer Hother].
  destruct (valid_deadline _) as [d|]; [|other_answer Hother].
  rewrite bind_run. unfold when_ at 1.
  destruct (String.eqb _ ""); [other_answer Hother|].
  rewrite ret_run. cbv zeta.
  set (a := string_or_empty (field "assignedUser" body)).
  set (c := bool_or_false (field "completed" body)).
  rewrite bind_run.
  destruct (assigned_user_cases a (request_on ts us))
    as [[Ha ->]|[Ha [[Hc ->]|(uid & Hc & E)]]]; [|other_answer Hother|].
  - cbv beta iota. rewrite bind_run, Task_create_run. cbn [tasks logged request_on].
    destruct (ts !! oid) eqn:Hfresh; [other_answer Hother|].
    rewrite bind_run, when_run, Ha. cbn [String.eqb negb].
    rewrite bind_run, Task_findById_run. cbn [denotes].
    unfold created. rewrite send_run. intros <-.
    eexists. split; [done|].
    split; [|split; [|split; [reflexivity|by left]]];
      cbn [assignedUser completed]; done.
  - cbn [users logged request_on] in E.
    destruct (us !! uid) as [u|] eqn:Hu; rewrite E; [|other_answer Hother].
    cbv beta iota. rewrite bind_run, Task_create_run. cbn [tasks logged request_on].
    destruct (ts !! oid) eqn:Hfresh; [other_answer Hother|].
    rewrite bind_run, when_run, (eqb_empty_false _ Ha). cbn [negb].
    match goal with |- context [sync_pending ?x oid c ?w] =>
      destruct (sync_pending x oid c w) as [[[]| |e] w1] eqn:Es;
      [|by apply quiet_sync_pending in Es as [? _]|other_answer Hother] end.
    apply sync_pending_value in Es as (k & Hk & Ht1 & Hu1); [|done].
    assert (k = uid) as -> by congruence.
    rewrite bind_run, Task_findById_run. cbn [denotes].
    unfold created. rewrite send_run. intros <-.
    cbn [users tasks responded logged with_tasks with_users request_on snd] in *.
    eexists. split; [done|].
    split; [|split; [|split; [by rewrite Ht1|]]]; [done|done|].
    right. split; [done|]. exists uid. by rewrite Hu1, Hu.
Qed.

(** X20: a task creation that answers 201 keeps the two references in step. *)
Theorem post_tasks_keeps_in_step (oid : string) (now : Z) (body : list (string * json))
    (ts : gmap string Task) (us : gmap string User) (r : response) :
  let w' := run (post_tasks oid now body) (request_on ts us) in
  in_step ts us ->
  res w' = Some r ->
  status r = 201 ->
  in_step (tasks w') (users w').
Proof.
  intros w' [HS HC] Hres Hst.
  destruct (post_tasks_created oid now body ts us r w' eq_refl Hres Hst)
    as (t' & Hfresh & Ha & Hc & Hts & Hus).
  cbn zeta in *. rewrite Hts.
  assert (forall k x, holds us k x -> x <> oid) as Hold.
  { intros k x (t & Ht & _)%HS ->. congruence. }
  destruct Hus as [[Hempty ->]|(Hne & uid & Hcast & Huid & ->)].
  - split.
    + intros k x Hh. destruct (HS k x Hh) as (t & Ht & ?).
      exists t. split; [|done]. rewrite lookup_insert_ne; [done|].
      intros <-. congruence.
    + intros x t. destruct (decide (x = oid)) as [->|Hx].
      * rewrite lookup_insert_eq. intros [= <-]. congruence.
      * rewrite lookup_insert_ne by done. apply HC.
  - split.
    + intros k x Hh. destruct (decide (x = oid)) as [->|Hx].
      * exists t'. rewrite lookup_insert_eq.
        destruct (bool_or_false (field "completed" body)) eqn:Hcb.
        -- apply holds_drop in Hh as [Hh _]. by apply Hold in Hh.
        -- apply holds_add in Hh as [Hh|[-> _]]; [by apply Hold in Hh|].
           split_and!; [done|done|congruence|congruence].
      * apply holds_sync_other in Hh; [|done].
        destruct (HS k x Hh) as (t & Ht & ?).
        exists t. by rewrite lookup_insert_ne.
    + intros x t. destruct (decide (x = oid)) as [->|Hx].
      * rewrite lookup_insert_eq. intros [= <-] _ Hcf.
        exists uid. split; [congruence|].
        rewrite <- Hc, Hcf. apply holds_add. by right.
      * rewrite lookup_insert_ne by done. intros Ht Hown Hcf.
        destruct (HC x t Ht Hown Hcf) as (k & Hk & Hh).
        exists k. split; [done|]. by apply holds_sync_other.
Qed.

(** *** Deleting a task *)

(** X21: a task deletion that answers 200 keeps the two references in step. *)
Theorem delete_task_keeps_in_step (id : string)
    (ts : gmap string Task) (us : gmap string User) (r : response) :
  let w' := run (delete_task id) (request_on ts us) in
  in_step ts us ->
  res w' = Some r ->
  status r = 200 ->
  in_step (tasks w') (users w').
Proof.
  intros w' [HS HC] Hres Hst.
  destruct (delete_task_deleted id ts us r w' eq_refl Hres Hst)
    as (tid & t & Hid & Ht & -> & Hus).
  assert (forall k, holds us k tid -> castObjectId (assignedUser t) = Some k /\
                                      assignedUser t <> "") as Hold.
  { intros k (t0 & Ht0 & _ & ? & ?)%HS. by simplify_eq. }
  destruct Hus as [[Hempty ->]|(Hne & po & Hpo & ->)].
  - split.
    + intros k x Hh. destruct (HS k x Hh) as (t0 & Ht0 & ?).
      exists t0. split; [|done]. rewrite lookup_delete_ne; [done|].
      intros <-. by apply Hold in Hh as [_ ?].
    + intros x t0 [Hx Ht0]%lookup_delete_Some. by apply HC.
  - split.
    + intros k x Hh. destruct (decide (x = tid)) as [->|Hx].
      * apply holds_drop in Hh as [[Hk _]%Hold Hkne]. congruence.
      * apply holds_drop_other in Hh; [|done].
        destruct (HS k x Hh) as (t0 & Ht0 & ?).
        exists t0. by rewrite lookup_delete_ne.
    + intros x t0 [Hx Ht0]%lookup_delete_Some Hown Hcf.
      destruct (HC x t0 Ht0 Hown Hcf) as (k & Hk & Hh).
      exists k. split; [done|]. by apply holds_drop_other.
Qed.

(** *** Updating a task *)

Lemma drop_pending_twice (tid : string) (k : string) (us : gmap string User) :
  alter (drop_pending tid) k (alter (drop_pending tid) k us) =
  alter (drop_pending tid) k us.
Proof.
  apply alter_twice. intros u. unfold drop_pending, set_pending.
  cbn [pendingTasks user_name email]. by rewrite pull_pull.
Qed.

Lemma add_pending_twice (tid : string) (k : string) (us : gmap string User) :
  alter (add_pending tid) k (alter (add_pending tid) k us) =
  alter (add_pending tid) k us.
Proof.
  apply alter_twice. intros u. unfold add_pending, set_pending.
  cbn [pendingTasks user_name email]. by rewrite addToSet_addToSet.
Qed.

(** The users [reconcile] leaves behind when it runs to its end: one
    removal under the previous owner when the owner string changed, then
    one update under the new owner. *)
Lemma reconcile_users (tid prev new : string) (pc nc : bool) (w wc : world) :
  reconcile tid prev pc new nc w = (Value tt, wc) ->
  tasks wc = tasks w /\
  exists us1,
    ((prev <> "" /\ prev <> new /\
      exists kp, castObjectId prev = Some kp /\
                 us1 = alter (drop_pending tid) kp (users w)) \/
     ((prev = "" \/ prev = new) /\ us1 = users w)) /\
    ((new = "" /\ users wc = us1) \/
     (new <> "" /\
      exists kn, castObjectId new = Some kn /\
                 users wc = alter (if nc then drop_pending tid else add_pending tid)
                              kn us1)).
Proof.
  unfold reconcile. intros Hrun.
  rewrite bind_run, when_run in Hrun.
  destruct (String.eqb prev "") eqn:Hp; cbn [negb andb] in Hrun;
    [apply String.eqb_eq in Hp|apply String.eqb_neq in Hp];
  (destruct (String.eqb prev new) eqn:Hpn; cbn [negb andb] in Hrun;
    [apply String.eqb_eq in Hpn|apply String.eqb_neq in Hpn]);
  try (destruct (removePendingFromUser (RawId prev) tid w) as [[[]| |?] wa] eqn:Ea;
       [apply removePending_value in Ea as (ka & Hka & Hta & Hua); [|done]
       |done|done]);
  rewrite bind_run, when_run in Hrun;
  (destruct (String.eqb new "") eqn:Hn; cbn [negb andb] in Hrun;
    [apply String.eqb_eq in Hn|apply String.eqb_neq in Hn]);
  try (match type of Hrun with context [sync_pending ?r tid nc ?w0] =>
         destruct (sync_pending r tid nc w0) as [[[]| |?] wb] eqn:Eb;
         [apply sync_pending_value in Eb as (kb & Hkb & Htb & Hub); [|done]
         |done|done] end);
  rewrite when_run in Hrun; cbn [negb andb] in Hrun;
  try (exfalso; congruence).
  all: destruct pc, nc; cbn [negb andb] in Hrun.
  all: try (apply removePending_value in Hrun as (kc & Hkc & Htc & Huc); [|done]).
  all: try (apply addPending_value in Hrun as (kc & Hkc & Htc & Huc); [|done]).
  all: try (injection Hrun as <-).
  all: (split; [congruence|]).
  all: try (assert (kc = kb) as -> by congruence;
            rewrite Hub in Huc; cbn [negb] in Huc;
            rewrite ?drop_pending_twice, ?add_pending_twice in Huc).
  all: eexists; split;
    [first [ left; split; [done|]; split; [done|]; eexists; split; [eassumption|eassumption]
           | right; split; [auto|reflexivity] ]
    |first [ left; split; [done|]; congruence
           | right; split; [done|]; eexists; split; [eassumption|]; congruence ]].
Qed.

(** [reconcile] on the pending lists: no list changes at another task; an
    entry for [tid] that it leaves is the new owner's, for a task not
    completed, or was there and is neither detached nor the new owner's;
    and a stored new owner ends with the task pending when it is not
    completed. *)
Lemma reconcile_holds (tid prev new : string) (pc nc : bool) (w wc : world) :
  reconcile tid prev pc new nc w = (Value tt, wc) ->
  tasks wc = tasks w /\
  (forall k x, x <> tid -> holds (users wc) k x <-> holds (users w) k x) /\
  (forall k, holds (users wc) k tid ->
     (new <> "" /\ nc = false /\ castObjectId new = Some k) \/
     (holds (users w) k tid /\ castObjectId new <> Some k /\
      (prev = "" \/ prev = new \/ castObjectId prev <> Some k))) /\
  (forall kn, new <> "" -> nc = false -> castObjectId new = Some kn ->
     is_Some (users w !! kn) -> holds (users wc) kn tid).
Proof.
  intros (Hts & us1 & Hus1 & Husc)%reconcile_users.
  split; [done|].
  assert (forall k x, x <> tid -> holds us1 k x <-> holds (users w) k x) as Hframe1.
  { intros k x Hx. destruct Hus1 as [(_ & _ & kp & _ & ->)|[_ ->]]; [|done].
    by apply holds_drop_other. }
  assert (forall k, holds us1 k tid ->
            holds (users w) k tid /\
            (prev = "" \/ prev = new \/ castObjectId prev <> Some k)) as Hold1.
  { intros k Hh. destruct Hus1 as [(_ & _ & kp & Hkp & ->)|[Hsame ->]].
    - apply holds_drop in Hh as [Hh Hne]. split; [done|].
      right. right. congruence.
    - split; [done|]. destruct Hsame; auto. }
  assert (forall k, is_Some (users w !! k) -> is_Some (us1 !! k)) as Hsome1.
  { intros k Hk. destruct Hus1 as [(_ & _ & kp & _ & ->)|[_ ->]]; [|done].
    by apply is_Some_alter. }
  split_and!.
  - intros k x Hx. rewrite <- Hframe1 by done.
    destruct Husc as [[_ ->]|(_ & kn & _ & ->)]; [done|].
    by apply holds_sync_other.
  - intros k Hh. destruct Husc as [[Hn Husc]|(Hn & kn & Hkn & Husc)];
      rewrite Husc in Hh.
    + right. destruct (Hold1 k Hh) as [? ?]. split_and!; [done| |done].
      rewrite Hn, castObjectId_empty. done.
    + destruct nc.
      * apply holds_drop in Hh as [Hh Hne]. right.
        destruct (Hold1 k Hh) as [? ?]. split_and!; [done|congruence|done].
      * apply holds_add in Hh as [Hh|[-> _]]; [|by left].
        destruct (decide (k = kn)) as [->|Hne]; [by left|]. right.
        destruct (Hold1 k Hh) as [? ?]. split_and!; [done|congruence|done].
  - intros kn Hn Hcf Hkn Hsome.
    destruct Husc as [[? _]|(_ & kn' & Hkn' & ->)]; [done|].
    assert (kn' = kn) as -> by congruence. rewrite Hcf.
    apply holds_add. right. split; [done|]. by apply Hsome1.
Qed.

(** X22: a task update that answers 200 keeps the two references in step. *)
Theorem put_task_keeps_in_step (id : string) (body : list (string * json))
    (ts : gmap string Task) (us : gmap string User) (r : response) :
  let w' := run (put_task id body) (request_on ts us) in
  in_step ts us ->
  res w' = Some r ->
  status r = 200 ->
  in_step (tasks w') (users w').
Proof.
  intros w' [HS HC] Hres Hst.
  destruct (put_task_ok id body ts us r w' eq_refl Hres Hst)
    as (tid & t & t' & w0 & wc & Hid & Ht & Hc & Ha & Hts & Hus & Hrec & -> & ->).
  cbn zeta in Ha.
  apply reconcile_holds in Hrec as (-> & Hframe & Hmine & Hnew).
  rewrite Hts. rewrite Hus in Hframe, Hmine, Hnew.
  assert (assignedUser t' <> "" ->
          castObjectId (assignedUser t') = Some (assignedUser t') /\
          is_Some (us !! assignedUser t')) as Hown'.
  { intros Hne. destruct Ha as [[_ ?]|(_ & ?%castObjectId_String & ?)]; done. }
  split.
  - intros k x Hh. destruct (decide (x = tid)) as [->|Hx].
    + exists t'. rewrite lookup_insert_eq. split; [done|].
      destruct (Hmine k Hh) as [(? & ? & ?)|(Hh0 & Hnk & Hprev)]; [done|].
      exfalso. destruct (HS k tid Hh0) as (t0 & Ht0 & _ & Hne0 & Hk0).
      simplify_eq. destruct Hprev as [?|[Heq|?]]; [done| |done].
      rewrite <- Heq in Hnk. done.
    + apply Hframe in Hh; [|done].
      destruct (HS k x Hh) as (t0 & Ht0 & ?). exists t0.
      by rewrite lookup_insert_ne.
  - intros x t0. destruct (decide (x = tid)) as [->|Hx].
    + rewrite lookup_insert_eq. intros [= <-] Hne Hcf.
      destruct (Hown' Hne) as [Hcast Hsome].
      exists (assignedUser t'). split; [done|]. by apply Hnew.
    + rewrite lookup_insert_ne by done. intros Ht0 Hne Hcf.
      destruct (HC x t0 Ht0 Hne Hcf) as (k & Hk & Hh).
      exists k. split; [done|]. by apply Hframe.
Qed.

(** *** Creating and deleting a user *)

Lemma holds_insert_ne (us : gmap string User) (u : User) (o k x : string) :
  k <> o -> holds (<[o := u]> us) k x <-> holds us k x.
Proof. intros Hk. unfold holds. by rewrite lookup_insert_ne. Qed.

Lemma holds_delete (us : gmap string User) (o k x : string) :
  holds (delete o us) k x <-> k <> o /\ holds us k x.
Proof.
  unfold holds. split.
  - intros (u & [? ?]%lookup_delete_Some & ?). split; [done|]. by exists u.
  - intros (? & u & ? & ?). exists u. split; [|done]. by apply lookup_delete_Some.
Qed.

(** X23: a user creation that answers 201, under an identifier in its string
    form, keeps the two references in step. *)
Theorem post_users_keeps_in_step (oid : string) (body : list (string * json))
    (ts : gmap string Task) (us : gmap string User) (r : response) :
  let w' := run (post_users oid body) (request_on ts us) in
  in_step ts us ->
  castObjectId oid = Some oid ->
  res w' = Some r ->
  status r = 201 ->
  in_step (tasks w') (users w').
Proof.
  intros w' [HS HC] Hoid Hres Hst.
  destruct (post_users_created oid body ts us r w' eq_refl Hres Hst)
    as (w2 & _ & _ & _ & _ & _ & Hfresh & E & Hw').
  cbn zeta in E, Hw'.
  set (name := text (field "name" body)) in *.
  set (pending := strings_or_empty (field "pendingTasks" body)) in *.
  pose proof E as E'.
  apply for_tasks_in_rewrites with (g := fun t => set_assigned t oid name)
    in E' as (Hin & Hout & Hnew); [|apply claim_rewrites].
  apply for_tasks_in_claim_pending in E as (_ & Hframe & Hmine & Hothers).
  cbn [tasks users with_users logged request_on] in Hin, Hout, Hnew, Hframe, Hmine, Hothers.
  assert (tasks w' = tasks w2) as -> by by rewrite Hw'.
  assert (users w' = users w2) as -> by by rewrite Hw'.
  assert (oid <> "") as Hne by by eapply castObjectId_nonempty.
  assert (forall x, ~ holds us oid x) as Hnone.
  { intros x (u & Hu & _). congruence. }
  split.
  - intros k x Hh.
    destruct (names_dec pending x) as [Hx|Hx];
      [destruct (ts !! x) as [t|] eqn:Ht|].
    + exists (set_assigned t oid name). split; [by apply Hin|].
      cbn [completed assignedUser set_assigned].
      destruct (decide (k = oid)) as [->|Hk].
      * split; [|done]. apply (Hmine ltac:(by rewrite lookup_insert_eq) x t); done.
      * exfalso. apply (Hothers k x t) in Hh as [Hh Hno]; [|done..].
        apply holds_insert_ne in Hh; [|done].
        destruct (HS k x Hh) as (t0 & Ht0 & _ & Hown & Hcast). simplify_eq.
        apply Hno. split_and!; [done| |done]. intros Heq.
        rewrite Heq in Hcast. congruence.
    + exfalso. apply Hframe in Hh; [|intros [_ [? ?]]; congruence].
      destruct (decide (k = oid)) as [->|Hk].
      * destruct Hh as (u & Hu & Hin'). rewrite lookup_insert_eq in Hu.
        injection Hu as <-. by apply elem_of_nil in Hin'.
      * apply holds_insert_ne in Hh; [|done].
        destruct (HS k x Hh) as (t0 & Ht0 & _). congruence.
    + apply Hframe in Hh; [|by intros [? _]].
      destruct (decide (k = oid)) as [->|Hk].
      * destruct Hh as (u & Hu & Hin'). rewrite lookup_insert_eq in Hu.
        injection Hu as <-. by apply elem_of_nil in Hin'.
      * apply holds_insert_ne in Hh; [|done].
        destruct (HS k x Hh) as (t0 & Ht0 & ?). exists t0.
        by rewrite Hout.
  - intros x t' Ht' Hown Hcf.
    destruct (names_dec pending x) as [Hx|Hx];
      [destruct (ts !! x) as [t|] eqn:Ht|].
    + rewrite (Hin x t Hx Ht) in Ht'. injection Ht' as <-.
      cbn [completed assignedUser set_assigned] in *.
      exists oid. split; [done|].
      by apply (Hmine ltac:(by rewrite lookup_insert_eq) x t).
    + rewrite (Hnew x Ht) in Ht'. done.
    + rewrite Hout in Ht' by done.
      destruct (HC x t' Ht' Hown Hcf) as (k & Hk & Hh).
      exists k. split; [done|]. apply Hframe; [by intros [? _]|].
      apply holds_insert_ne; [|done]. intros ->. by apply Hnone in Hh.
Qed.

(** X24: a user deletion that answers 200, on tasks stored under identifiers in
    their string form, keeps the two references in step. *)
Theorem delete_user_keeps_in_step (id : string)
    (ts : gmap string Task) (us : gmap string User) (r : response) :
  let w' := run (delete_user id) (request_on ts us) in
  in_step ts us ->
  keyed_by_identifiers ts ->
  res w' = Some r ->
  status r = 200 ->
  in_step (tasks w') (users w').
Proof.
  intros w' [HS HC] Hkeys Hres Hst.
  destruct (delete_user_deleted id ts us r w' eq_refl Hres Hst)
    as (uid & user & w1 & Hid & Hu & E & -> & ->).
  apply for_tasks_in_rewrites with (g := fun t => set_assigned t "" "unassigned")
    in E as (Hin & Hout & Hnew); [|apply clear_owner_rewrites].
  cbn [tasks logged request_on] in Hin, Hout, Hnew.
  assert (forall x, names (pendingTasks user) x -> is_Some (ts !! x) ->
                    holds us uid x) as Hnamed.
  { intros x (s & Hs & Hcast) Hx.
    assert (holds us uid s) as Hh by by exists user.
    destruct (HS uid s Hh) as (t & Ht & _).
    assert (castObjectId s = Some s) as Hs' by (apply Hkeys; by exists t).
    by simplify_eq. }
  split.
  - intros k x [Hk Hh]%holds_delete.
    destruct (HS k x Hh) as (t & Ht & Hcf & Hown & Hcast).
    exists t. split; [|done]. rewrite Hout; [done|].
    intros Hx. apply Hnamed in Hx; [|by exists t].
    destruct (HS uid x Hx) as (t0 & Ht0 & _ & _ & Hcast0). by simplify_eq.
  - intros x t' Ht' Hown Hcf.
    destruct (names_dec (pendingTasks user) x) as [Hx|Hx];
      [destruct (ts !! x) as [t|] eqn:Ht|].
    + rewrite (Hin x t Hx Ht) in Ht'. by injection Ht' as <-.
    + rewrite (Hnew x Ht) in Ht'. done.
    + rewrite Hout in Ht' by done.
      destruct (HC x t' Ht' Hown Hcf) as (k & Hk & Hh).
      exists k. split; [done|]. apply holds_delete. split; [|done].
      intros ->. apply Hx. exists x. destruct Hh as (u & Hu' & Hin').
      split; [congruence|]. apply Hkeys. by exists t'.
Qed.

(** ** Identifiers that are no identifiers *)

(** X25: on the writing routes a malformed identifier in the path is a server
    error, where the reading routes answer 400 (tasks) and 404 (users):
    the two deletions, and the two updates once the fields are valid,
    answer 500 without a store access. *)
Theorem write_by_malformed_id (id : string) (body : list (string * json)) (d : Z)
    (ts : gmap string Task) (us : gmap string User) :
  castObjectId id = None ->
  let w' := mkWorld ts us [] (Some (mkResponse 500 "Server error" PNull)) in
  run (delete_task id) (request_on ts us) = w' /\
  run (delete_user id) (request_on ts us) = w' /\
  (string_like (field "name" body) ->
   text (field "name" body) <> "" ->
   (valid_deadline (field "deadline" body) = Some d ->
    run (put_task id body) (request_on ts us) = w') /\
   (string_like (field "email" body) ->
    toLowerCase (text (field "email" body)) <> "" ->
    run (put_user id body) (request_on ts us) = w')).
Proof.
  intros Hid w'. split_and!.
  - unfold run, delete_task, try_catch.
    rewrite bind_run, Task_findById_run. cbn [denotes]. by rewrite Hid.
  - unfold run, delete_user, try_catch.
    rewrite bind_run, User_findById_run. cbn [denotes]. by rewrite Hid.
  - intros Hn Hname. split.
    + intros Hd. unfold run, put_task, try_catch.
      rewrite bind_run, trimmed_run, Hd by done.
      rewrite bind_run, when_run, (eqb_empty_false _ Hname).
      rewrite bind_run, Task_findById_run. cbn [denotes]. by rewrite Hid.
    + intros He Hemail. unfold run, put_user, try_catch.
      rewrite bind_run, trimmed_run by done.
      rewrite bind_run, trimmed_run by done.
      cbv zeta. rewrite bind_run, when_run.
      rewrite (eqb_empty_false _ Hname), (eqb_empty_false _ Hemail). cbn [orb].
      rewrite bind_run, User_findById_run. cbn [denotes]. by rewrite Hid.
Qed.

(** X26: a user creation whose [pendingTasks] hold an entry that is no
    identifier answers 500, and the user is stored all the same, with an
    empty pending list: the record is saved before the tasks are looked
    up. No task is written. *)
Theorem post_users_half_done (oid : string) (body : list (string * json))
    (ts : gmap string Task) (us : gmap string User) (s : string) :
  let name := text (field "name" body) in
  let email_ := toLowerCase (text (field "email" body)) in
  string_like (field "name" body) ->
  string_like (field "email" body) ->
  name <> "" ->
  email_ <> "" ->
  (forall k u, us !! k = Some u -> email u <> email_) ->
  us !! oid = None ->
  s ∈ strings_or_empty (field "pendingTasks" body) ->
  castObjectId s = None ->
  run (post_users oid body) (request_on ts us) =
  mkWorld ts (<[oid := mkUser name email_ []]> us)
    [OpFindOne Users; OpInsert Users]
    (Some (mkResponse 500 "Server error" PNull)).
Proof.
  intros name email_ Hn He Hname Hemail Hfree Hfresh Hs Hcast.
  unfold run, post_users, try_catch.
  rewrite bind_run, trimmed_run by done.
  rewrite bind_run, trimmed_run by done.
  cbv zeta. fold name email_.
  rewrite bind_run, when_run.
  rewrite (eqb_empty_false _ Hname), (eqb_empty_false _ Hemail). cbn [orb].
  rewrite bind_run, User_findOne_email_run. cbn [users logged request_on].
  rewrite (no_user_with_email _ _ Hfree).
  rewrite bind_run, when_run, bind_run, User_create_run.
  cbn [users logged request_on]. rewrite Hfresh.
  rewrite bind_run. unfold for_tasks_in. rewrite when_run.
  case_bool_decide as Hnil; [rewrite Hnil in Hs; by apply elem_of_nil in Hs|].
  cbn [negb]. rewrite bind_run, Task_find_in_run.
  destruct (mapM castObjectId _) as [os|] eqn:Hos; [|reflexivity].
  exfalso. apply mapM_Some in Hos.
  induction Hos as [|s' o ids os Hc _ IH]; [by apply elem_of_nil in Hs|].
  apply elem_of_cons in Hs as [->|Hs]; [congruence|]. apply IH; [done|].
  intros ->. by apply elem_of_nil in Hs.
Qed.

(** ** The record a task update writes *)

(** X27: what a task update that answers 200 stored: the request replaces the
    record. The name is the trimmed one, a description or a completion
    flag left out is reset to [""] and [false], the owner is the user the
    request names, under its identifier and with its current name (trimmed,
    as the schema asks), or none; only the creation date is kept. The
    answer carries that record. *)
Theorem put_task_replaces_record (id : string) (body : list (string * json))
    (ts : gmap string Task) (us : gmap string User) (r : response) :
  let w' := run (put_task id body) (request_on ts us) in
  res w' = Some r ->
  status r = 200 ->
  exists tid t t',
    let a := string_or_empty (field "assignedUser" body) in
    castObjectId id = Some tid /\
    ts !! tid = Some t /\
    tasks w' = <[tid := t']> ts /\
    data r = PTask None (tid, t') /\
    name t' = text (field "name" body) /\ name t' <> "" /\
    description t' = string_or_empty (field "description" body) /\
    valid_deadline (field "deadline" body) = Some (deadline t') /\
    completed t' = bool_or_false (field "completed" body) /\
    dateCreated t' = dateCreated t /\
    (a = "" -> assignedUser t' = "" /\ assignedUserName t' = "unassigned") /\
    (a <> "" ->
     exists u, castObjectId a = Some (assignedUser t') /\
               us !! assignedUser t' = Some u /\
               assignedUserName t' = trim (user_name u)).
Proof.
  intros w' Hres Hst. subst w'. revert Hres.
  generalize (eq_refl (run (put_task id body) (request_on ts us))).
  generalize (run (put_task id body) (request_on ts us)) at 2 3 4 as w'.
  intros w' Hrun Hres. revert Hrun.
  assert (forall r0 w, status r0 <> 200 -> responded r0 w = w' -> False) as Hother.
  { intros r0 w Hr0 <-. cbn in Hres. congruence. }
  unfold run, put_task, try_catch.
  rewrite bind_run.
  destruct (trimmed_cases (field "name" body) (request_on ts us)) as [[Hn ->]| ->];
    [|other_answer Hother].
  destruct (valid_deadline _) as [d|] eqn:Hd; [|other_answer Hother].
  rewrite bind_run. unfold when_ at 1.
  destruct (String.eqb _ "") eqn:Hname; [other_answer Hother|].
  apply String.eqb_neq in Hname.
  rewrite ret_run, bind_run, Task_findById_run. cbn [denotes].
  destruct (castObjectId id) as [tid|]; [|other_answer Hother].
  cbn [tasks logged request_on].
  destruct (ts !! tid) as [t|] eqn:Ht; [|other_answer Hother].
  cbn [fmap option_fmap option_map].
  set (a := string_or_empty (field "assignedUser" body)).
  set (t0 := mkTask _ _ _ _ _ _ _).
  rewrite bind_run.
  destruct (assigned_user_cases a (logged (OpFindById Tasks) (request_on ts us)))
    as [[Ha ->]|[Ha [[Hc ->]|(uid & Hc & E)]]]; [|other_answer Hother|].
  - cbv beta iota zeta. set (t' := set_assigned t0 "" "unassigned").
    rewrite bind_run, Task_save_run, bind_run.
    match goal with |- context [reconcile ?i ?p ?pc ?n ?nc ?w] =>
      destruct (reconcile i p pc n nc w) as [[[]| |e] wc] eqn:Ec;
      [|by apply quiet_reconcile in Ec as [? _]|other_answer Hother] end.
    apply reconcile_users in Ec as [Htc _].
    cbn [tasks with_tasks logged request_on] in Htc.
    rewrite bind_run, Task_findById_run. cbn [denotes].
    rewrite Htc, lookup_insert_eq. intros <-.
    cbn in Hres. injection Hres as <-.
    exists tid, t, t'. cbn zeta.
    split_and!; done.
  - cbn [users logged request_on] in E.
    destruct (us !! uid) as [u|] eqn:Hu; rewrite E; [|other_answer Hother].
    cbv beta iota zeta. set (t' := set_assigned t0 uid (user_name u)).
    rewrite bind_run, Task_save_run, bind_run.
    match goal with |- context [reconcile ?i ?p ?pc ?n ?nc ?w] =>
      destruct (reconcile i p pc n nc w) as [[[]| |e] wc] eqn:Ec;
      [|by apply quiet_reconcile in Ec as [? _]|other_answer Hother] end.
    apply reconcile_users in Ec as [Htc _].
    cbn [tasks with_tasks logged request_on] in Htc.
    rewrite bind_run, Task_findById_run. cbn [denotes].
    rewrite Htc, lookup_insert_eq. intros <-.
    cbn in Hres. injection Hres as <-.
    exists tid, t, t'. cbn zeta.
    split_and!; try done. intros _. exists u. subst t'. cbn [assignedUser assignedUserName set_assigned]. done.
Qed.

(** ** The other users of a user update *)

Lemma unassign_keeps_others (uid : string) (ids : list string) (w w1 : world)
    (o : outcome unit) :
  for_tasks_in ids (unassign uid) w = (o, w1) ->
  forall k, k <> uid -> users w1 !! k = users w !! k.
Proof.
  unfold for_tasks_in. rewrite when_run.
  destruct (negb _); [|by intros [= <- <-]].
  rewrite bind_run, Task_find_in_run.
  destruct (mapM castObjectId _) as [os|]; [|by intros [= <- <-]].
  generalize (filter (fun d : string * Task => d.1 ∈ os) (map_to_list (tasks w))).
  intros docs. change (users w) with (users (logged (OpFind Tasks) w)).
  generalize (logged (OpFind Tasks) w). clear w.
  induction docs as [|[tid t] docs IH]; intros w; [by intros [= <- <-]|].
  cbn [for_each]. rewrite bind_run, unassign_run.
  intros Hrun k Hk. rewrite (IH _ Hrun k Hk).
  cbn [users with_users with_tasks logged]. by rewrite lookup_alter_ne.
Qed.

(** X28: after a user update that answered 200, another user's pending list
    lost exactly the tasks the request brought to the updated user from
    that one: the stored tasks named by the added entries (and by no
    removed one) whose record named the other user as owner. *)
Theorem put_user_detaches_previous_owners (id : string) (body : list (string * json))
    (ts : gmap string Task) (us : gmap string User) (r : response) :
  let w' := run (put_user id body) (request_on ts us) in
  res w' = Some r ->
  status r = 200 ->
  exists uid user,
    let new := strings_or_empty (field "pendingTasks" body) in
    let prev := pendingTasks user in
    let removed := filter (fun i => i ∉ new) prev in
    let added := filter (fun i => i ∉ prev) new in
    castObjectId id = Some uid /\
    us !! uid = Some user /\
    forall k x, k <> uid ->
      holds (users w') k x <->
      holds us k x /\
      ~ exists t, names added x /\ ~ names removed x /\ ts !! x = Some t /\
                  previous_owner uid t k.
Proof.
  intros w' Hres Hst.
  destruct (put_user_ok id body ts us r w' eq_refl Hres Hst)
    as (uid & user & w1 & w2 & Hid & Hu & Hn & He & Hn' & He' & E1 & E2 & Hw').
  cbn zeta in *.
  set (new := strings_or_empty (field "pendingTasks" body)) in *.
  set (removed := filter (fun i => i ∉ new) (pendingTasks user)) in *.
  set (added := filter (fun i => i ∉ pendingTasks user) new) in *.
  pose proof (unassign_keeps_others _ _ _ _ _ E1) as Hus1.
  cbn [users logged request_on] in Hus1.
  apply for_tasks_in_rewrites with (g := fun t => set_assigned t "" "unassigned")
    in E1 as (Hin1 & Hout1 & Hnew1); [|apply unassign_rewrites].
  cbn [tasks logged request_on] in Hin1, Hout1, Hnew1.
  apply for_tasks_in_claim_pending in E2 as (_ & Hframe & _ & Hothers).
  exists uid, user. split; [done|]. split; [done|].
  intros k x Hk.
  assert (holds (users w') k x <-> holds (users w2) k x) as ->.
  { rewrite Hw'. cbn [users responded logged with_users]. by apply holds_insert_ne. }
  assert (holds (users w1) k x <-> holds us k x) as Hsame.
  { unfold holds. by rewrite Hus1. }
  destruct (names_dec added x) as [Hadd|Hadd];
    [destruct (tasks w1 !! x) as [t1|] eqn:Ht1|].
  - rewrite (Hothers k x t1 Hk Hadd Ht1), Hsame.
    destruct (names_dec removed x) as [Hrem|Hrem].
    + assert (exists t, ts !! x = Some t) as [t Ht].
      { destruct (ts !! x) as [t|] eqn:Ht; [by exists t|].
        rewrite (Hnew1 x Ht) in Ht1. done. }
      rewrite (Hin1 x t Hrem Ht) in Ht1. injection Ht1 as <-.
      split; intros [Hh _]; (split; [done|]).
      * by intros (? & _ & ? & _).
      * by intros (? & _).
    + rewrite Hout1 in Ht1 by done.
      split; intros [Hh Hno]; (split; [done|]).
      * intros (t & _ & _ & Ht & Hp). by simplify_eq.
      * intros Hp. apply Hno. by exists t1.
  - rewrite Hframe by (intros [_ [? ?]]; congruence). rewrite Hsame.
    split; [|by intros [? _]]. intros Hh. split; [done|].
    intros (t & _ & Hrem & Ht & _). rewrite Hout1 in Ht1 by done. congruence.
  - rewrite Hframe by (by intros [? _]). rewrite Hsame.
    split; [|by intros [? _]]. intros Hh. split; [done|].
    by intros (? & ? & _).
Qed.

End Coverage.

(** ** The rest of the routers at work

    The theorems of the previous section on the store of [Examples], with
    their hypotheses computed. *)
Module CoverageExamples.
Import Hex24.
Import Examples.

(** [GET /tasks?count=TRUE&skip=x&limit=-3] *)
Definition count_loudly : query :=
  mkQuery None None None (Some "x") (Some "-3") (Some "TRUE").

Lemma count_ignores_the_chain_witness :
  res (run (get_tasks count_loudly) (request_on tasks0 users0)) =
  Some (mkResponse 200 "OK" (PCount 2)).
Proof.
  destruct (count_ignores_the_chain (P := platform) count_loudly tasks0 users0
              eq_refl I I I) as [H _].
  rewrite (H (fun _ => true) eq_refl). vm_compute. reflexivity.
Defined.

(** [GET /tasks?limit=abc] *)
Definition limit_abc : query := mkQuery None None None None (Some "abc") None.

Lemma limit_not_a_number_witness :
  exists r sel docs,
    res (run (get_tasks limit_abc) (request_on tasks0 users0)) = Some r /\
    data r = PTasks sel docs /\
    (List.length docs <= 100)%nat.
Proof.
  assert (exists r, res (run (get_tasks limit_abc) (request_on tasks0 users0)) = Some r /\
                    exists sel docs, data r = PTasks sel docs)
    as (r & Hr & sel & docs & Hd).
  { eexists. split; [vm_compute; reflexivity|]. eexists _, _. reflexivity. }
  assert (is_number (parse_int_param (q_limit limit_abc)) = None) as H1
    by (vm_compute; reflexivity).
  assert (toBool (q_count limit_abc) = false) as H2 by reflexivity.
  destruct (limit_not_a_number (P := platform) limit_abc tasks0 users0 H1 H2) as [H _].
  destruct (H r sel docs Hr Hd) as (f & _ & Hlen).
  exists r, sel, docs. split; [exact Hr|]. split; [exact Hd|].
  rewrite Hlen. apply Nat.le_min_l.
Defined.

(** [GET /tasks?limit=1] *)
Definition limit_one : query := mkQuery None None None None (Some "1") None.

Lemma explicit_limit_bounds_witness :
  exists r sel docs,
    res (run (get_tasks limit_one) (request_on tasks0 users0)) = Some r /\
    data r = PTasks sel docs /\
    (List.length docs <= 1)%nat.
Proof.
  assert (exists r, res (run (get_tasks limit_one) (request_on tasks0 users0)) = Some r /\
                    exists sel docs, data r = PTasks sel docs)
    as (r & Hr & sel & docs & Hd).
  { eexists. split; [vm_compute; reflexivity|]. eexists _, _. reflexivity. }
  assert (is_number (parse_int_param (q_limit limit_one)) = Some 1) as H1
    by (vm_compute; reflexivity).
  assert (0 < 1) as H0 by lia.
  assert (toBool (q_count limit_one) = false) as H2 by reflexivity.
  destruct (explicit_limit_bounds (P := platform) limit_one tasks0 users0 1 H1 H0 H2)
    as [H _].
  exists r, sel, docs. split; [exact Hr|]. split; [exact Hd|].
  exact (H r sel docs Hr Hd).
Defined.



(** A user whose name is a number. *)
Definition numbered : list (string * json) :=
  [("name", JNum 7); ("email", JStr "seven@example.org")].

Lemma name_without_trim_witness :
  run (post_users fresh numbered) (request_on tasks0 users0) =
  mkWorld tasks0 users0 [] (Some (mkResponse 500 "Server error" PNull)).
Proof.
  assert (~ string_like (field "name" numbered)) as Hn by (cbn; discriminate).
  destruct (name_without_trim (P := platform) ann fresh 3 numbered tasks0 users0 Hn)
    as (_ & _ & H & _).
  exact H.
Defined.

Lemma task_not_found_witness :
  run (delete_task fresh) (request_on tasks0 users0) =
  mkWorld tasks0 users0 [OpFindById Tasks]
    (Some (mkResponse 404 "Task not found" PNull)).
Proof.
  assert (castObjectId fresh = Some fresh) as Hid by (vm_compute; reflexivity).
  assert (tasks0 !! fresh = None) as Hnone by (vm_compute; reflexivity).
  destruct (task_not_found (P := platform) fresh fresh None [] 0 tasks0 users0 Hid Hnone)
    as (_ & _ & H).
  exact H.
Defined.

Lemma user_not_found_witness :
  run (delete_user nobody) (request_on tasks0 users0) =
  mkWorld tasks0 users0 [OpFindById Users]
    (Some (mkResponse 404 "User not found" PNull)).
Proof.
  assert (castObjectId nobody = Some nobody) as Hid by (vm_compute; reflexivity).
  assert (users0 !! nobody = None) as Hnone by (vm_compute; reflexivity).
  destruct (user_not_found (P := platform) nobody nobody None [] tasks0 users0 Hid Hnone)
    as (_ & _ & H).
  exact H.
Defined.

(** [GET /users/AAAAAAAAAAAAAAAAAAAAAAAA]: [ann] in capitals. *)
Definition ANN : string := "AAAAAAAAAAAAAAAAAAAAAAAA".

Lemma get_by_id_found_witness :
  res (run (get_user ANN None) (request_on tasks0 users0)) =
  Some (mkResponse 200 "OK" (PUser None (ann, mkUser "ann" "ann@example.org" [report]))).
Proof.
  assert (castObjectId ANN = Some ann) as Hid by (vm_compute; reflexivity).
  assert (users0 !! ann = Some (mkUser "ann" "ann@example.org" [report])) as Hu
    by (vm_compute; reflexivity).
  destruct (get_by_id_found (P := platform) ANN ann None tasks0 users0 Hid I eq_refl)
    as [_ H].
  exact (H _ Hu).
Defined.

(** A second user under [bob]'s email. *)
Definition bobby : list (string * json) :=
  [("name", JStr "Bobby"); ("email", JStr " BOB@example.org ")].

Lemma email_taken_witness :
  run (post_users fresh bobby) (request_on tasks0 users0) =
  mkWorld tasks0 users0 [OpFindOne Users]
    (Some (mkResponse 400 "A user with this email already exists" PNull)).
Proof.
  assert (text (field "name" bobby) <> "") as Hname by (vm_compute; discriminate).
  assert (toLowerCase (text (field "email" bobby)) <> "") as Hemail
    by (vm_compute; discriminate).
  assert (users0 !! bob = Some (mkUser "bob" "bob@example.org" [])) as Hu
    by (vm_compute; reflexivity).
  assert (email (mkUser "bob" "bob@example.org" []) =
          toLowerCase (text (field "email" bobby))) as He by (vm_compute; reflexivity).
  destruct (email_taken (P := platform) ann ann fresh bob
              (mkUser "bob" "bob@example.org" []) (mkUser "ann" "ann@example.org" [report])
              bobby tasks0 users0 I I Hname Hemail Hu He) as [H _].
  exact H.
Defined.

(** A task for nobody. *)
Definition slides : list (string * json) :=
  [("name", JStr "slides"); ("deadline", JNum 30)].

Lemma post_tasks_unassigned_witness :
  run (post_tasks fresh 3 slides) (request_on tasks0 users0) =
  mkWorld (<[fresh := mkTask "slides" "" 30 false "" "unassigned" 3]> tasks0) users0
    [OpInsert Tasks; OpFindById Tasks]
    (Some (mkResponse 201 "Created"
             (PTask None (fresh, mkTask "slides" "" 30 false "" "unassigned" 3)))).
Proof.
  assert (text (field "name" slides) <> "") as Hname by (vm_compute; discriminate).
  assert (valid_deadline (field "deadline" slides) = Some 30) as Hd
    by (vm_compute; reflexivity).
  assert (string_or_empty (field "assignedUser" slides) = "") as Ha by reflexivity.
  assert (tasks0 !! fresh = None) as Hfresh by (vm_compute; reflexivity).
  exact (post_tasks_unassigned (P := platform) fresh 3 30 slides tasks0 users0
           I Hname Hd Ha Hfresh).
Defined.

Lemma post_tasks_unknown_user_witness :
  let w' := run (post_tasks fresh 3 unknown_owner) (request_on tasks0 users0) in
  res w' ≫= error_of = Some InvalidArgument /\ tasks w' = tasks0 /\ users w' = users0.
Proof.
  assert (string_or_empty (field "assignedUser" unknown_owner) = nobody) as Ha
    by reflexivity.
  assert (nobody <> "") as Hne by discriminate.
  assert (castObjectId nobody = Some nobody) as Hc by (vm_compute; reflexivity).
  assert (users0 !! nobody = None) as Hnone by (vm_compute; reflexivity).
  exact (post_tasks_unknown_user (P := platform) fresh nobody nobody 3 unknown_owner
           tasks0 users0 I Ha Hne Hc Hnone).
Defined.

Lemma delete_task_detaches_witness :
  let w' := run (delete_task report) (request_on tasks0 users0) in
  tasks w' = delete report tasks0 /\ ~ holds (users w') ann report.
Proof.
  intros w'.
  assert (exists r, res w' = Some r /\ status r = 200) as (r & Hr & Hst).
  { eexists. split; [vm_compute; reflexivity|reflexivity]. }
  destruct (delete_task_detaches (P := platform) report tasks0 users0 r Hr Hst)
    as (tid & t & Hid & Ht & Hts & _ & H).
  assert (tid = report) as -> by (vm_compute in Hid |- *; congruence).
  assert (t = mkTask "report" "" 10 false ann "ann" 1) as ->
    by (vm_compute in Ht |- *; congruence).
  split; [exact Hts|].
  assert (castObjectId ann = Some ann) as Hc by (vm_compute; reflexivity).
  destruct (H ann ltac:(discriminate) Hc) as (_ & Hno & _). exact Hno.
Defined.

Lemma delete_user_unassigns_witness :
  let w' := run (delete_user ann) (request_on tasks0 users0) in
  users w' = delete ann users0 /\
  tasks w' !! report = Some (mkTask "report" "" 10 false "" "unassigned" 1).
Proof.
  intros w'.
  assert (exists r, res w' = Some r /\ status r = 200) as (r & Hr & Hst).
  { eexists. split; [vm_compute; reflexivity|reflexivity]. }
  destruct (delete_user_unassigns (P := platform) ann tasks0 users0 r Hr Hst)
    as (uid & user & Hid & Hu & Hus & Hin & _).
  assert (uid = ann) as -> by (vm_compute in Hid |- *; congruence).
  assert (user = mkUser "ann" "ann@example.org" [report]) as ->
    by (vm_compute in Hu |- *; congruence).
  split; [exact Hus|].
  assert (tasks0 !! report = Some (mkTask "report" "" 10 false ann "ann" 1)) as Ht
    by (vm_compute; reflexivity).
  refine (Hin report _ _ Ht).
  exists report. split; [apply elem_of_cons; by left|vm_compute; reflexivity].
Defined.

(** [bob] asks for [report], which is [ann]'s. *)
Definition bob_takes_report : list (string * json) :=
  [("name", JStr "bob"); ("email", JStr "bob@example.org");
   ("pendingTasks", JArr [JStr report])].

Lemma report_added_for_bob :
  names (P := platform)
    (filter (fun i => i ∉ pendingTasks (mkUser "bob" "bob@example.org" []))
       (strings_or_empty (field "pendingTasks" bob_takes_report)))
    report.
Proof.
  exists report. split; [|vm_compute; reflexivity].
  apply list_elem_of_filter. split; [apply not_elem_of_nil|].
  apply elem_of_cons. by left.
Qed.

Lemma put_user_moves_tasks_witness :
  let w' := run (put_user bob bob_takes_report) (request_on tasks0 users0) in
  tasks w' !! report = Some (mkTask "report" "" 10 false bob "bob" 1).
Proof.
  intros w'.
  assert (exists r, res w' = Some r /\ status r = 200) as (r & Hr & Hst).
  { eexists. split; [vm_compute; reflexivity|reflexivity]. }
  destruct (put_user_moves_tasks (P := platform) bob bob_takes_report tasks0 users0 r
              Hr Hst)
    as (uid & user & Hid & Hu & Hin & _).
  assert (uid = bob) as -> by (vm_compute in Hid |- *; congruence).
  assert (user = mkUser "bob" "bob@example.org" []) as ->
    by (vm_compute in Hu |- *; congruence).
  assert (tasks0 !! report = Some (mkTask "report" "" 10 false ann "ann" 1)) as Ht
    by (vm_compute; reflexivity).
  exact (Hin report _ report_added_for_bob Ht).
Defined.

Lemma pending_helpers_compose_witness :
  store_after (addPendingToUser (RawId ann) fresh ;; addPendingToUser (RawId ann) fresh)
    (request_on tasks0 users0) =
  store_after (addPendingToUser (RawId ann) fresh) (request_on tasks0 users0).
Proof.
  assert (ann <> "") as Hne by discriminate.
  assert (castObjectId ann = Some ann) as Hc by (vm_compute; reflexivity).
  destruct (pending_helpers_compose (P := platform) ann fresh ann
              (request_on tasks0 users0) Hne Hc) as [H _].
  exact H.
Defined.

Lemma pending_helpers_without_user_witness :
  store_after (addPendingToUser (RawId nobody) report) (request_on tasks0 users0) =
  (tasks0, users0).
Proof.
  assert (nobody <> "") as Hne by discriminate.
  assert (castObjectId nobody = Some nobody) as Hc by (vm_compute; reflexivity).
  assert (users (request_on tasks0 users0) !! nobody = None) as Hnone
    by (vm_compute; reflexivity).
  destruct (pending_helpers_without_user (P := platform) report
              (request_on tasks0 users0)) as (_ & _ & H).
  destruct (H nobody nobody Hne Hc Hnone) as [H1 _]. exact H1.
Defined.

(** A new user asking for [report], which is [ann]'s. *)
Definition dave : list (string * json) :=
  [("name", JStr "dave"); ("email", JStr "dave@example.org");
   ("pendingTasks", JArr [JStr report])].

Lemma report_named_by_dave :
  names (P := platform) (strings_or_empty (field "pendingTasks" dave)) report.
Proof.
  exists report. split; [apply elem_of_cons; by left|vm_compute; reflexivity].
Qed.

Lemma post_users_takes_tasks_witness :
  let w' := run (post_users fresh dave) (request_on tasks0 users0) in
  tasks w' !! report = Some (mkTask "report" "" 10 false fresh "dave" 1) /\
  ~ holds (users w') ann report.
Proof.
  intros w'.
  assert (exists r, res w' = Some r /\ status r = 201) as (r & Hr & Hst).
  { eexists. split; [vm_compute; reflexivity|reflexivity]. }
  destruct (post_users_takes_tasks (P := platform) fresh dave tasks0 users0 r Hr Hst)
    as (_ & _ & Hin & _ & _ & _ & Hothers).
  assert (tasks0 !! report = Some (mkTask "report" "" 10 false ann "ann" 1)) as Ht
    by (vm_compute; reflexivity).
  split; [exact (Hin report _ report_named_by_dave Ht)|].
  intros Hh. apply Hothers in Hh as [_ Hno]; [|discriminate].
  apply Hno. eexists. split; [exact report_named_by_dave|]. split; [exact Ht|].
  split; [discriminate|]. split; [discriminate|]. vm_compute. reflexivity.
Defined.

(** The store of [Examples] has its two references in step. *)
Lemma store_in_step : in_step (P := platform) tasks0 users0.
Proof.
  split.
  - intros k x (u & Hu & Hx). unfold users0 in Hu.
    apply lookup_insert_Some in Hu as [[<- <-]|[_ [<- <-]%lookup_singleton_Some]].
    + by apply elem_of_nil in Hx.
    + apply list_elem_of_singleton in Hx as ->.
      exists (mkTask "report" "" 10 false ann "ann" 1).
      split; [vm_compute; reflexivity|]. split; [reflexivity|].
      split; [discriminate|vm_compute; reflexivity].
  - intros x t Ht Hown Hcf. unfold tasks0 in Ht.
    apply lookup_insert_Some in Ht as [[<- <-]|[_ [<- <-]%lookup_singleton_Some]].
    + done.
    + exists ann. split; [vm_compute; reflexivity|].
      exists (mkUser "ann" "ann@example.org" [report]).
      split; [vm_compute; reflexivity|]. apply elem_of_cons. by left.
Qed.

Lemma store_keyed : keyed_by_identifiers (P := platform) tasks0.
Proof.
  intros k [t Ht]. unfold tasks0 in Ht.
  apply lookup_insert_Some in Ht as [[<- _]|[_ [<- _]%lookup_singleton_Some]];
    vm_compute; reflexivity.
Qed.

Lemma post_tasks_keeps_in_step_witness :
  let w' := run (post_tasks fresh 3 new_task_for_ann) (request_on tasks0 users0) in
  in_step tasks0 users0 /\ in_step (tasks w') (users w').
Proof.
  intros w'.
  assert (exists r, res w' = Some r /\ status r = 201) as (r & Hr & Hst).
  { eexists. split; [vm_compute; reflexivity|reflexivity]. }
  split; [exact store_in_step|].
  exact (post_tasks_keeps_in_step (P := platform) fresh 3 new_task_for_ann
           tasks0 users0 r store_in_step Hr Hst).
Defined.

Lemma delete_task_keeps_in_step_witness :
  let w' := run (delete_task report) (request_on tasks0 users0) in
  in_step tasks0 users0 /\ in_step (tasks w') (users w').
Proof.
  intros w'.
  assert (exists r, res w' = Some r /\ status r = 200) as (r & Hr & Hst).
  { eexists. split; [vm_compute; reflexivity|reflexivity]. }
  split; [exact store_in_step|].
  exact (delete_task_keeps_in_step (P := platform) report tasks0 users0 r
           store_in_step Hr Hst).
Defined.

Lemma put_task_keeps_in_step_witness :
  let w' := run (put_task report to_bob) (request_on tasks0 users0) in
  in_step tasks0 users0 /\ in_step (tasks w') (users w').
Proof.
  intros w'.
  assert (exists r, res w' = Some r /\ status r = 200) as (r & Hr & Hst).
  { eexists. split; [vm_compute; reflexivity|reflexivity]. }
  split; [exact store_in_step|].
  exact (put_task_keeps_in_step (P := platform) report to_bob tasks0 users0 r
           store_in_step Hr Hst).
Defined.

Lemma post_users_keeps_in_step_witness :
  let w' := run (post_users fresh dave) (request_on tasks0 users0) in
  in_step tasks0 users0 /\ in_step (tasks w') (users w').
Proof.
  intros w'.
  assert (exists r, res w' = Some r /\ status r = 201) as (r & Hr & Hst).
  { eexists. split; [vm_compute; reflexivity|reflexivity]. }
  assert (castObjectId fresh = Some fresh) as Hc by (vm_compute; reflexivity).
  split; [exact store_in_step|].
  exact (post_users_keeps_in_step (P := platform) fresh dave tasks0 users0 r
           store_in_step Hc Hr Hst).
Defined.

Lemma delete_user_keeps_in_step_witness :
  let w' := run (delete_user ann) (request_on tasks0 users0) in
  in_step tasks0 users0 /\ in_step (tasks w') (users w').
Proof.
  intros w'.
  assert (exists r, res w' = Some r /\ status r = 200) as (r & Hr & Hst).
  { eexists. split; [vm_compute; reflexivity|reflexivity]. }
  split; [exact store_in_step|].
  exact (delete_user_keeps_in_step (P := platform) ann tasks0 users0 r
           store_in_step store_keyed Hr Hst).
Defined.

Lemma write_by_malformed_id_witness :
  run (delete_task "not-an-id") (request_on tasks0 users0) =
  mkWorld tasks0 users0 [] (Some (mkResponse 500 "Server error" PNull)).
Proof.
  assert (castObjectId "not-an-id" = None) as Hid by reflexivity.
  destruct (write_by_malformed_id (P := platform) "not-an-id" [] 0 tasks0 users0 Hid)
    as [H _].
  exact H.
Defined.

(** A new user asking for a task under a name that is no identifier. *)
Definition erin : list (string * json) :=
  [("name", JStr "erin"); ("email", JStr "erin@example.org");
   ("pendingTasks", JArr [JStr "oops"])].

Lemma post_users_half_done_witness :
  run (post_users fresh erin) (request_on tasks0 users0) =
  mkWorld tasks0 (<[fresh := mkUser "erin" "erin@example.org" []]> users0)
    [OpFindOne Users; OpInsert Users]
    (Some (mkResponse 500 "Server error" PNull)).
Proof.
  assert (text (field "name" erin) <> "") as Hname by (vm_compute; discriminate).
  assert (toLowerCase (text (field "email" erin)) <> "") as Hemail
    by (vm_compute; discriminate).
  assert (forall k u, users0 !! k = Some u ->
            email u <> toLowerCase (text (field "email" erin))) as Hfree.
  { intros k u Hu. unfold users0 in Hu.
    apply lookup_insert_Some in Hu as [[_ <-]|[_ [_ <-]%lookup_singleton_Some]];
      vm_compute; discriminate. }
  assert (users0 !! fresh = None) as Hfresh by (vm_compute; reflexivity).
  assert ("oops" ∈ strings_or_empty (field "pendingTasks" erin)) as Hs
    by (apply elem_of_cons; by left).
  assert (castObjectId "oops" = None) as Hc by reflexivity.
  exact (post_users_half_done (P := platform) fresh erin tasks0 users0 "oops"
           I I Hname Hemail Hfree Hfresh Hs Hc).
Defined.

Lemma put_task_replaces_record_witness :
  let w' := run (put_task report to_bob) (request_on tasks0 users0) in
  exists t',
    tasks w' !! report = Some t' /\
    description t' = "" /\ completed t' = false /\ dateCreated t' = 1 /\
    assignedUser t' = bob.
Proof.
  intros w'.
  assert (exists r, res w' = Some r /\ status r = 200) as (r & Hr & Hst).
  { eexists. split; [vm_compute; reflexivity|reflexivity]. }
  destruct (put_task_replaces_record (P := platform) report to_bob tasks0 users0 r
              Hr Hst)
    as (tid & t & t' & Hid & Ht & Hts & _ & _ & _ & Hdesc & _ & Hc & Hdate & _ & Hown).
  assert (tid = report) as -> by (vm_compute in Hid |- *; congruence).
  assert (t = mkTask "report" "" 10 false ann "ann" 1) as ->
    by (vm_compute in Ht |- *; congruence).
  destruct (Hown ltac:(discriminate)) as (u & Hcast & _).
  exists t'. split; [unfold w'; rewrite Hts; apply lookup_insert_eq|].
  split; [exact Hdesc|]. split; [exact Hc|]. split; [exact Hdate|].
  vm_compute in Hcast |- *. congruence.
Defined.

Lemma put_user_detaches_previous_owners_witness :
  let w' := run (put_user bob bob_takes_report) (request_on tasks0 users0) in
  ~ holds (users w') ann report.
Proof.
  intros w'.
  assert (exists r, res w' = Some r /\ status r = 200) as (r & Hr & Hst).
  { eexists. split; [vm_compute; reflexivity|reflexivity]. }
  destruct (put_user_detaches_previous_owners (P := platform) bob bob_takes_report
              tasks0 users0 r Hr Hst)
    as (uid & user & Hid & Hu & H).
  assert (uid = bob) as -> by (vm_compute in Hid |- *; congruence).
  assert (user = mkUser "bob" "bob@example.org" []) as ->
    by (vm_compute in Hu |- *; congruence).
  intros Hh. apply H in Hh as [_ Hno]; [|discriminate].
  apply Hno. exists (mkTask "report" "" 10 false ann "ann" 1).
  split; [exact report_added_for_bob|]. split.
  - intros (s & Hs & _). apply list_elem_of_filter in Hs as [_ Hs].
    by apply elem_of_nil in Hs.
  - split; [vm_compute; reflexivity|].
    split; [discriminate|]. split; [discriminate|]. vm_compute. reflexivity.
Defined.

End CoverageExamples.
